(** * Indonesian stock analysis: metric engine, scoring engine, forecast script

    A shallow embedding of [src/indonesia_stock_analysis.py] and
    [src/stock_analysis.py], and the properties of the specification that
    are settled against it.

    Numbers.  The Python code computes with IEEE-754 doubles (NumPy
    [float64]).  Here a double is an exact rational or one of the three
    special values [NaN], [+inf], [-inf]; the special values follow the
    IEEE rules ([0/0 = NaN], [x/0 = +-inf], [inf - inf = NaN], every
    comparison with [NaN] is false), finite arithmetic is exact: rounding,
    overflow and the sign of zero are not modelled.

    Effects.  Python exceptions are values of [result]; the in-place update
    of the fetched frames by [calculate_metrics] is explicit state passing;
    the data provider, the smoothing library and [np.sqrt] are variables of
    the sections that use them. *)

From Stdlib Require Import Ascii String.
From Stdlib Require Import List ZArith QArith Qabs Lqa Lia Bool.
From Stdlib Require Import Permutation Sorted.
Import ListNotations.

Close Scope Q_scope.

(* ================================================================== *)
(** ** Python floats *)

Module PyFloat.

Inductive t : Type :=
| Fin (q : Q)
| PInf
| NInf
| NaN.

Definition of_Z (z : Z) : t := Fin (inject_Z z).

Definition is_nan (x : t) : bool :=
  match x with NaN => true | _ => false end.

Definition is_inf (x : t) : bool :=
  match x with PInf | NInf => true | _ => false end.

Definition is_finite (x : t) : bool :=
  match x with Fin _ => true | _ => false end.

Definition Qltb (a b : Q) : bool := negb (Qle_bool b a).

Definition neg (x : t) : t :=
  match x with
  | Fin q => Fin (- q)
  | PInf => NInf
  | NInf => PInf
  | NaN => NaN
  end.

Definition add (x y : t) : t :=
  match x, y with
  | NaN, _ | _, NaN => NaN
  | Fin a, Fin b => Fin (a + b)
  | PInf, NInf | NInf, PInf => NaN
  | PInf, _ | _, PInf => PInf
  | NInf, _ | _, NInf => NInf
  end.

Definition sub (x y : t) : t := add x (neg y).

(** Sign of a finite value: the zero counts as positive, as [+0.0] does. *)
Definition sign_inf (positive : bool) : t := if positive then PInf else NInf.

Definition mul (x y : t) : t :=
  match x, y with
  | NaN, _ | _, NaN => NaN
  | Fin a, Fin b => Fin (a * b)
  | Fin a, PInf | PInf, Fin a =>
      if Qeq_bool a 0 then NaN else sign_inf (Qltb 0 a)
  | Fin a, NInf | NInf, Fin a =>
      if Qeq_bool a 0 then NaN else sign_inf (Qltb a 0)
  | PInf, PInf | NInf, NInf => PInf
  | PInf, NInf | NInf, PInf => NInf
  end.

Definition div (x y : t) : t :=
  match x, y with
  | NaN, _ | _, NaN => NaN
  | Fin a, Fin b =>
      if Qeq_bool b 0
      then (if Qeq_bool a 0 then NaN else sign_inf (Qltb 0 a))
      else Fin (a / b)
  | Fin _, (PInf | NInf) => Fin 0
  | PInf, Fin b => sign_inf (Qle_bool 0 b)
  | NInf, Fin b => sign_inf (Qltb b 0)
  | (PInf | NInf), (PInf | NInf) => NaN
  end.

Definition abs (x : t) : t :=
  match x with
  | Fin q => Fin (Qabs q)
  | PInf | NInf => PInf
  | NaN => NaN
  end.

(** [x < y]; false as soon as one side is [NaN]. *)
Definition ltb (x y : t) : bool :=
  match x, y with
  | NaN, _ | _, NaN => false
  | Fin a, Fin b => Qltb a b
  | NInf, NInf | PInf, _ => false
  | NInf, _ => true
  | Fin _, PInf => true
  | Fin _, NInf => false
  end.

Definition gtb (x y : t) : bool := ltb y x.

(** [x <= y]; false as soon as one side is [NaN]. *)
Definition leb (x y : t) : bool :=
  match x, y with
  | NaN, _ | _, NaN => false
  | Fin a, Fin b => Qle_bool a b
  | NInf, _ | _, PInf => true
  | PInf, _ => false
  | Fin _, NInf => false
  end.

(** Numeric equality of two floats ([NaN] is equal to nothing, itself
    included, as in Python). *)
Definition eqb (x y : t) : bool :=
  match x, y with
  | Fin a, Fin b => Qeq_bool a b
  | PInf, PInf | NInf, NInf => true
  | _, _ => false
  end.

(** The same value: numeric equality, and [NaN] is the same value as
    [NaN]. *)
Definition same (x y : t) : Prop :=
  match x, y with
  | Fin a, Fin b => (a == b)%Q
  | PInf, PInf | NInf, NInf | NaN, NaN => True
  | _, _ => False
  end.

End PyFloat.

Abbreviation pyfloat := PyFloat.t.
Abbreviation Fin := PyFloat.Fin.
Abbreviation PInf := PyFloat.PInf.
Abbreviation NInf := PyFloat.NInf.
Abbreviation NaN := PyFloat.NaN.

Declare Scope pyfloat_scope.
Delimit Scope pyfloat_scope with F.
Bind Scope pyfloat_scope with PyFloat.t.
Infix "+" := PyFloat.add : pyfloat_scope.
Infix "-" := PyFloat.sub : pyfloat_scope.
Infix "*" := PyFloat.mul : pyfloat_scope.
Infix "/" := PyFloat.div : pyfloat_scope.
Notation "- x" := (PyFloat.neg x) : pyfloat_scope.
Infix "<?" := PyFloat.ltb : pyfloat_scope.
Infix ">?" := PyFloat.gtb : pyfloat_scope.
Infix "<=?" := PyFloat.leb : pyfloat_scope.

(* ================================================================== *)
(** ** Python: exceptions, dictionaries, indexing, [min], [max], [sorted] *)

(** The exceptions of the programs: those of Python's own operations, and
    [LibraryError] for an exception that a library raises, by the name of
    its origin. *)
Inductive exn : Type :=
| IndexError
| KeyError (key : string)
| ValueError (msg : string)
| LibraryError (name : string).

Inductive result (A : Type) : Type :=
| Ok (a : A)
| Raise (e : exn).

Arguments Ok {A} a.
Arguments Raise {A} e.

Definition bind {A B : Type} (m : result A) (k : A -> result B) : result B :=
  match m with
  | Ok a => k a
  | Raise e => Raise e
  end.

Notation "x <- m ;; k" := (bind m (fun x => k))
  (at level 61, m at next level, right associativity).
Notation "' p <- m ;; k" := (bind m (fun x => match x with p => k end))
  (at level 61, p pattern, m at next level, right associativity).

(** A [dict] with string keys keeps its keys in insertion order; assigning
    to a key that is present replaces the value where it stands. *)
Definition dict (V : Type) : Type := list (string * V).

Fixpoint dict_set {V : Type} (d : dict V) (k : string) (v : V) : dict V :=
  match d with
  | [] => [(k, v)]
  | (k', v') :: d' =>
      if String.eqb k k' then (k, v) :: d' else (k', v') :: dict_set d' k v
  end.

Fixpoint dict_find {V : Type} (d : dict V) (k : string) : option V :=
  match d with
  | [] => None
  | (k', v) :: d' => if String.eqb k k' then Some v else dict_find d' k
  end.

(** [d[k]] *)
Definition dict_get {V : Type} (d : dict V) (k : string) : result V :=
  match dict_find d k with
  | Some v => Ok v
  | None => Raise (KeyError k)
  end.

Definition keys {V : Type} (d : dict V) : list string := map fst d.

Definition len {A : Type} (l : list A) : Z := Z.of_nat (length l).

(** [s[i]] and [s.iloc[i]] for an integer [i]: a negative index counts from
    the end, an index out of range raises. *)
Definition iloc {A : Type} (s : list A) (i : Z) : result A :=
  let j := if (i <? 0)%Z then (len s + i)%Z else i in
  if (j <? 0)%Z then Raise IndexError
  else match nth_error s (Z.to_nat j) with
       | Some a => Ok a
       | None => Raise IndexError
       end.

(** [s[:n]] *)
Definition slice_to {A : Type} (s : list A) (n : Z) : list A :=
  if (n <? 0)%Z then firstn (Z.to_nat (len s + n)) s
  else firstn (Z.to_nat n) s.

(** [min(a, b)] and [max(a, b)] keep the first argument unless the second
    is strictly smaller (larger). *)
Definition py_min (a b : pyfloat) : pyfloat := if (b <? a)%F then b else a.
Definition py_max (a b : pyfloat) : pyfloat := if (b >? a)%F then b else a.

(** [sorted(l, key=key, reverse=True)].  The sort is stable and compares
    keys with [<] only; it is embedded as a stable insertion sort.  On keys
    that [<] orders totally, every stable sort returns this list.  With a
    [NaN] among the keys the order that Python returns depends on the
    comparisons that its algorithm happens to make, and it can differ from
    this one.  The properties below that state an order are about keys
    without [NaN]; the one run with a [NaN] key names the comparisons that
    decide it. *)
Section Sorted.
Variable A : Type.
Variable key : A -> pyfloat.

Fixpoint insert_desc (x : A) (l : list A) : list A :=
  match l with
  | [] => [x]
  | y :: l' =>
      if (key x <? key y)%F then y :: insert_desc x l' else x :: y :: l'
  end.

Definition sorted_reverse (l : list A) : list A :=
  fold_right insert_desc [] l.
End Sorted.

Arguments insert_desc {A} key x l.
Arguments sorted_reverse {A} key l.

(* ================================================================== *)
(** ** pandas: the [Series] operations the programs use *)

Definition Series : Type := list pyfloat.

Definition notna (x : pyfloat) : bool := negb (PyFloat.is_nan x).

Definition fsum (s : Series) : pyfloat :=
  fold_left PyFloat.add s (Fin 0).

(** [s.mean()]: missing values are skipped; the mean of no value is
    [NaN]. *)
Definition mean (s : Series) : pyfloat :=
  let vals := filter notna s in
  match vals with
  | [] => NaN
  | _ => (fsum vals / PyFloat.of_Z (len vals))%F
  end.

(** [s.tail(n)] *)
Definition tail (n : nat) (s : Series) : Series :=
  skipn (length s - n) s.

(** [s.shift(1)] *)
Definition shift (s : Series) : Series :=
  match s with
  | [] => []
  | _ => NaN :: removelast s
  end.

Fixpoint map2 {A B C : Type} (f : A -> B -> C) (l : list A) (m : list B)
  : list C :=
  match l, m with
  | a :: l', b :: m' => f a b :: map2 f l' m'
  | _, _ => []
  end.

(** [s.diff()] *)
Definition diff (s : Series) : Series := map2 PyFloat.sub s (shift s).

(** [s.pct_change()], that is [s / s.shift(1) - 1] (no filling of missing
    values). *)
Definition pct_change (s : Series) : Series :=
  map2 (fun x p => (x / p - Fin 1)%F) s (shift s).

(** [s.where(cond, other)] with the condition computed from the value. *)
Definition where_ (cond : pyfloat -> bool) (other : pyfloat) (s : Series)
  : Series :=
  map (fun x => if cond x then x else other) s.

Definition series_neg (s : Series) : Series := map PyFloat.neg s.

(** [s.rolling(window=w).mean()].  The window that ends at position [i]
    holds the last [w] values up to [i]; infinite values count as missing;
    the result is [NaN] unless the window holds [w] values that are not
    missing ([min_periods] is the window length). *)
Definition inf_to_nan (x : pyfloat) : pyfloat :=
  if PyFloat.is_inf x then NaN else x.

Definition window_at (w : nat) (s : Series) (i : nat) : Series :=
  skipn (S i - w) (firstn (S i) s).

Definition window_mean (w : nat) (win : Series) : pyfloat :=
  let vals := filter notna win in
  if (w <=? length vals)%nat
  then (fsum vals / PyFloat.of_Z (len vals))%F
  else NaN.

Definition rolling_mean (w : nat) (s : Series) : Series :=
  let s' := map inf_to_nan s in
  map (fun i => window_mean w (window_at w s' i)) (seq 0 (length s)).

(** [s.var()] with the default [ddof=1]: missing values are skipped, fewer
    than two values give [NaN]. *)
Definition var (s : Series) : pyfloat :=
  let vals := filter notna s in
  if (len vals <=? 1)%Z then NaN
  else
    let avg := (fsum vals / PyFloat.of_Z (len vals))%F in
    let sqr := map (fun x => ((avg - x) * (avg - x))%F) vals in
    (fsum sqr / PyFloat.of_Z (len vals - 1))%F.

(* ================================================================== *)
(** ** The data model of [indonesia_stock_analysis.py] *)

(** One row of the frame that [Ticker.history] returns; [Date] is the day
    number of the row's index entry. *)
Record Bar : Type := mkBar {
  Date : Z;
  Open : pyfloat;
  High : pyfloat;
  Low : pyfloat;
  Close : pyfloat;
  Volume : pyfloat
}.

(** A frame: the fetched rows, and the [Returns] column once
    [calculate_metrics] has stored it. *)
Record DataFrame : Type := mkDataFrame {
  rows : list Bar;
  Returns : option Series
}.

Definition empty (data : DataFrame) : bool :=
  match rows data with [] => true | _ => false end.

Definition column (f : Bar -> pyfloat) (data : DataFrame) : Series :=
  map f (rows data).

(** [data['Returns'] = s] *)
Definition set_Returns (data : DataFrame) (s : Series) : DataFrame :=
  mkDataFrame (rows data) (Some s).

(** [data['Returns']] *)
Definition get_Returns (data : DataFrame) : result Series :=
  match Returns data with
  | Some s => Ok s
  | None => Raise (KeyError "Returns")
  end.

(** The value of [metrics[symbol]]. *)
Record MetricRecord : Type := mkMetricRecord {
  Current_Price : pyfloat;
  Change_Pct : pyfloat;
  Avg_Volume : pyfloat;
  Recent_Volume : pyfloat;
  Volume_Trend : pyfloat;
  Volatility : pyfloat;
  SMA_20 : pyfloat;
  SMA_50 : pyfloat;
  RSI : pyfloat;
  Price_vs_SMA20 : pyfloat;
  Price_vs_SMA50 : pyfloat
}.

Definition get_indonesia_stocks : dict string :=
  [ ("BBCA.JK", "Bank Central Asia Tbk");
    ("BBRI.JK", "Bank Rakyat Indonesia Tbk");
    ("BMRI.JK", "Bank Mandiri Tbk");
    ("ASII.JK", "Astra International Tbk");
    ("TLKM.JK", "Telkom Indonesia Tbk");
    ("ICBP.JK", "Indofood CBP Sukses Makmur Tbk");
    ("UNVR.JK", "Unilever Indonesia Tbk");
    ("PGAS.JK", "Perusahaan Gas Negara Tbk");
    ("KLBF.JK", "Kalbe Farma Tbk");
    ("INDF.JK", "Indofood Sukses Makmur Tbk");
    ("SMGR.JK", "Semen Indonesia Tbk");
    ("ANTM.JK", "Aneka Tambang Tbk");
    ("PTBA.JK", "Bukit Asam Tbk");
    ("INTP.JK", "Indocement Tunggal Prakarsa Tbk");
    ("JSMR.JK", "Jasa Marga Tbk");
    ("WIKA.JK", "Wijaya Karya Tbk");
    ("ADRO.JK", "Adaro Energy Tbk");
    ("BBNI.JK", "Bank Negara Indonesia Tbk");
    ("BRIS.JK", "Bank Syariah Indonesia Tbk");
    ("GOTO.JK", "GoTo Gojek Tokopedia Tbk") ]%string.

(* ================================================================== *)
(** ** [fetch_stock_data] *)

Section Fetch.
(** [yf.Ticker(symbol).history(period=period)]: the provider answers with
    a frame or raises; within one run it answers a symbol the same way
    each time it is asked. *)
Variable history : string -> result DataFrame.

Fixpoint fetch_stock_data_from (data : dict DataFrame)
    (symbols : list string) : dict DataFrame :=
  match symbols with
  | [] => data
  | symbol :: rest =>
      match history symbol with
      | Ok hist =>
          if negb (empty hist)
          then fetch_stock_data_from (dict_set data symbol hist) rest
          else fetch_stock_data_from data rest
      | Raise _ => fetch_stock_data_from data rest
      end
  end.

Definition fetch_stock_data (symbols : list string) : dict DataFrame :=
  fetch_stock_data_from [] symbols.
End Fetch.

(* ================================================================== *)
(** ** [calculate_metrics] *)

(** The series [delta], [gain], [loss], [rs] and [rsi] of the RSI
    calculation, from the closing prices. *)
Definition delta (close : Series) : Series := diff close.

Definition gain (close : Series) : Series :=
  rolling_mean 14 (where_ (fun d => (d >? Fin 0)%F) (Fin 0) (delta close)).

Definition loss (close : Series) : Series :=
  rolling_mean 14
    (series_neg (where_ (fun d => (d <? Fin 0)%F) (Fin 0) (delta close))).

Definition rs (close : Series) : Series :=
  map2 PyFloat.div (gain close) (loss close).

Definition rsi (close : Series) : Series :=
  map (fun r => (Fin 100 - Fin 100 / (Fin 1 + r))%F) (rs close).

Section MetricEngine.
(** [np.sqrt] on the finite values that are not negative. *)
Variable np_sqrt : Q -> Q.

Definition sqrt (x : pyfloat) : pyfloat :=
  match x with
  | PyFloat.Fin q => if PyFloat.Qltb q 0 then NaN else Fin (np_sqrt q)
  | PyFloat.PInf => PInf
  | PyFloat.NInf | PyFloat.NaN => NaN
  end.

(** [s.std()] *)
Definition std (s : Series) : pyfloat := sqrt (var s).

(** The body of the loop of [calculate_metrics] for a frame that passed
    the length test: the record of the symbol and the frame as the body
    leaves it. *)
Definition symbol_metrics (data : DataFrame) : result (MetricRecord * DataFrame) :=
  let data := set_Returns data (pct_change (column Close data)) in
  let close := column Close data in
  let volume := column Volume data in
  change_pct <-
    (if (len (rows data) >=? 30)%Z
     then last <- iloc close (-1) ;; base <- iloc close (-30) ;;
          Ok ((last - base) / base * Fin 100)%F
     else last <- iloc close (-1) ;; base <- iloc close 0 ;;
          Ok ((last - base) / base * Fin 100)%F) ;;
  let avg_volume := mean volume in
  let recent_volume := mean (tail 5 volume) in
  let volume_trend := ((recent_volume - avg_volume) / avg_volume * Fin 100)%F in
  current_price <- iloc close (-1) ;;
  returns <- get_Returns data ;;
  let price_volatility := (std returns * sqrt (Fin 252) * Fin 100)%F in
  sma_20 <-
    (if (len (rows data) >=? 20)%Z
     then iloc (rolling_mean 20 close) (-1) else Ok current_price) ;;
  sma_50 <-
    (if (len (rows data) >=? 50)%Z
     then iloc (rolling_mean 50 close) (-1) else Ok current_price) ;;
  last_rsi <- iloc (rsi close) (-1) ;;
  let current_rsi := if negb (PyFloat.is_nan last_rsi) then last_rsi else Fin 50 in
  Ok ({| Current_Price := current_price;
         Change_Pct := change_pct;
         Avg_Volume := avg_volume;
         Recent_Volume := recent_volume;
         Volume_Trend := volume_trend;
         Volatility := price_volatility;
         SMA_20 := sma_20;
         SMA_50 := sma_50;
         RSI := current_rsi;
         Price_vs_SMA20 := ((current_price - sma_20) / sma_20 * Fin 100)%F;
         Price_vs_SMA50 := ((current_price - sma_50) / sma_50 * Fin 100)%F |},
      data).

(** The loop over [stock_data.items()].  The frames are the objects the
    dictionary holds, so the loop returns the dictionary of metrics
    together with the items of [stock_data] as it leaves them. *)
Fixpoint calculate_metrics_loop (metrics : dict MetricRecord)
    (items : list (string * DataFrame))
  : result (dict MetricRecord * list (string * DataFrame)) :=
  match items with
  | [] => Ok (metrics, [])
  | (symbol, data) :: rest =>
      if (len (rows data) <? 5)%Z
      then
        '(metrics', rest') <- calculate_metrics_loop metrics rest ;;
        Ok (metrics', (symbol, data) :: rest')
      else
        '(record, data') <- symbol_metrics data ;;
        '(metrics', rest') <-
          calculate_metrics_loop (dict_set metrics symbol record) rest ;;
        Ok (metrics', (symbol, data') :: rest')
  end.

Definition calculate_metrics (stock_data : dict DataFrame)
  : result (dict MetricRecord * dict DataFrame) :=
  calculate_metrics_loop [] stock_data.
End MetricEngine.

(* ================================================================== *)
(** ** [predict_stocks] *)

Definition volume_score (m : MetricRecord) : pyfloat :=
  py_min (Volume_Trend m / Fin 10)%F (Fin 10).

Definition change_score (m : MetricRecord) : pyfloat :=
  py_min (Change_Pct m / Fin 5)%F (Fin 10).

Definition rsi_score (m : MetricRecord) : pyfloat :=
  let rsi_score := (Fin 10 - PyFloat.abs (RSI m - Fin 50) / Fin 5)%F in
  py_max (Fin 0) (py_min rsi_score (Fin 10)).

Definition sma_score (m : MetricRecord) : pyfloat :=
  let sma_score := ((Price_vs_SMA20 m + Price_vs_SMA50 m) / Fin 2)%F in
  py_min (sma_score / Fin 2)%F (Fin 10).

(** The value of [score] at the end of one round of the scoring loop. *)
Definition score_of (m : MetricRecord) : pyfloat :=
  let score := Fin 0 in
  let score := (score + volume_score m * Fin (3 # 10))%F in
  let score := (score + change_score m * Fin (1 # 4))%F in
  let score := (score + rsi_score m * Fin (1 # 4))%F in
  let score := (score + sma_score m * Fin (1 # 5))%F in
  score.

Fixpoint score_loop (scores : dict pyfloat) (items : list (string * MetricRecord))
  : dict pyfloat :=
  match items with
  | [] => scores
  | (symbol, m) :: rest => score_loop (dict_set scores symbol (score_of m)) rest
  end.

Definition predict_stocks (metrics : dict MetricRecord) (top_n : Z)
  : list (string * pyfloat) :=
  match metrics with
  | [] => []
  | _ =>
      let scores := score_loop [] metrics in
      let sorted_stocks := sorted_reverse snd scores in
      slice_to sorted_stocks top_n
  end.

(* ================================================================== *)
(** ** [main] *)

(** What a run of [main] computes before it prints and plots: it stops
    early without data or without metrics, otherwise it has the frames,
    the metrics, the table sorted by change, the predictions and, for each
    prediction, the record that the report reads with [metrics[symbol]]. *)
Inductive outcome : Type :=
| NoStockData
| NoMetrics
| Completed (stock_data : dict DataFrame) (metrics : dict MetricRecord)
    (sorted_by_change : list (string * MetricRecord))
    (predictions : list (string * pyfloat))
    (report : list (string * pyfloat * MetricRecord)).

Fixpoint report_rows (metrics : dict MetricRecord)
    (predictions : list (string * pyfloat))
  : result (list (string * pyfloat * MetricRecord)) :=
  match predictions with
  | [] => Ok []
  | (symbol, score) :: rest =>
      metric <- dict_get metrics symbol ;;
      rows <- report_rows metrics rest ;;
      Ok ((symbol, score, metric) :: rows)
  end.

Section Main.
Variable history : string -> result DataFrame.
Variable np_sqrt : Q -> Q.

(** The body of [main] with the symbols and [top_n] as arguments. *)
Definition main_with (symbols : list string) (top_n : Z) : result outcome :=
  let stock_data := fetch_stock_data history symbols in
  match stock_data with
  | [] => Ok NoStockData
  | _ =>
      '(metrics, stock_data) <- calculate_metrics np_sqrt stock_data ;;
      match metrics with
      | [] => Ok NoMetrics
      | _ =>
          let sorted_by_change :=
            sorted_reverse (fun x => Change_Pct (snd x)) metrics in
          let predictions := predict_stocks metrics top_n in
          report <- report_rows metrics predictions ;;
          Ok (Completed stock_data metrics sorted_by_change predictions report)
      end
  end.

Definition main : result outcome :=
  main_with (keys get_indonesia_stocks) 5.
End Main.

(* ================================================================== *)
(** ** The forecast script [stock_analysis.py] *)

(** Day of the week of a day number, Monday is 0; day 0 is Thursday
    1970-01-01. *)
Definition weekday (d : Z) : Z := ((d + 3) mod 7)%Z.

Definition is_business_day (d : Z) : bool := (weekday d <? 5)%Z.

(** [pd.date_range(start, periods=periods, freq='B')]: the start is rolled
    forward to a business day, each further date is the next business
    day. *)
Definition rollforward (d : Z) : Z :=
  if (weekday d =? 5)%Z then (d + 2)%Z
  else if (weekday d =? 6)%Z then (d + 1)%Z
  else d.

Fixpoint date_range_B (start : Z) (periods : nat) : list Z :=
  match periods with
  | O => []
  | S n => let d := rollforward start in d :: date_range_B (d + 1) n
  end.

Section Forecast.
(** The fitted model of
    [ExponentialSmoothing(close, trend='add', seasonal=None,
    initialization_method='estimated').fit()], which the library returns
    or refuses with an exception, and its [forecast(steps)]. *)
Variable fitted : Type.
Variable ExponentialSmoothing_fit : Series -> result fitted.
Variable forecast : fitted -> nat -> Series.

(** [plt.plot(x, y)] refuses sequences of different lengths; the pairs
    it draws are the forecast. *)
Definition plot (x : list Z) (y : Series) : result (list (Z * pyfloat)) :=
  if (length x =? length y)%nat then Ok (combine x y)
  else Raise (ValueError "x and y must have same first dimension").

(** The script from the downloaded frame on. *)
Definition stock_analysis (data : DataFrame) : result (list (Z * pyfloat)) :=
  if empty data
  then Raise (ValueError "No data found for the specified period.")
  else
    fit <- ExponentialSmoothing_fit (column Close data) ;;
    let forecast := forecast fit 7 in
    last_date <- iloc (map Date (rows data)) (-1) ;;
    plot (date_range_B (last_date + 1) 7) forecast.
End Forecast.

Arguments stock_analysis {fitted} ExponentialSmoothing_fit forecast data.

(* ================================================================== *)
(** ** [create_analysis_plots] and the detailed report of [main] *)

(** The figure is the data that the function hands to the plotting
    library: the bars of the four charts with their tick labels and
    colors, and the texts at the bars.  Titles, axis labels, reference
    lines, the legend and the writing of the file are left out; a text is
    the number it shows, not the formatted string. *)

(** [s.replace('.JK', '')]: the occurrences of [.JK] are removed, from the
    left. *)
Fixpoint replace_JK (s : string) : string :=
  match s with
  | EmptyString => EmptyString
  | String c rest =>
      match rest with
      | String c2 (String c3 rest') =>
          if (Ascii.eqb c "."%char && Ascii.eqb c2 "J"%char && Ascii.eqb c3 "K"%char)%bool
          then replace_JK rest'
          else String c (replace_JK rest)
      | _ => String c (replace_JK rest)
      end
  end.

Inductive color : Type := green | red | blue | orange.

(** The vertical alignment of a text, ['bottom'] or ['top']. *)
Inductive valign : Type := bottom | top.

(** A bar of a chart: the label of its tick, its height and its color. *)
Record ChartBar (C : Type) : Type := mkChartBar {
  tick : string;
  height : pyfloat;
  bar_color : C
}.

Arguments mkChartBar {C} tick height bar_color.
Arguments tick {C} c.
Arguments height {C} c.
Arguments bar_color {C} c.

(** The text at a bar: its vertical position, the number it shows and its
    alignment. *)
Record BarText : Type := mkBarText {
  text_y : pyfloat;
  text_value : pyfloat;
  va : valign
}.

(** [[metrics[s][field] for s in symbols]] *)
Fixpoint field_of_each (field : MetricRecord -> pyfloat)
    (metrics : dict MetricRecord) (symbols : list string)
  : result (list pyfloat) :=
  match symbols with
  | [] => Ok []
  | s :: rest =>
      m <- dict_get metrics s ;;
      values <- field_of_each field metrics rest ;;
      Ok (field m :: values)
  end.

Definition change_color (x : pyfloat) : color :=
  if (x >? Fin 0)%F then green else red.

Definition volume_color (x : pyfloat) : color :=
  if (x >? Fin 0)%F then blue else orange.

Definition rsi_color (x : pyfloat) : color :=
  if (x >? Fin 70)%F then red else if (x <? Fin 30)%F then green else blue.

(** [ax.bar(range(len(labels)), values, color=colors)] with the tick
    labels [labels]. *)
Definition bar {C : Type} (labels : list string) (values : list pyfloat)
    (colors : list C) : list (ChartBar C) :=
  map (fun '(l, (v, c)) => mkChartBar l v c) (combine labels (combine values colors)).

(** The label of the value at a bar of the first chart. *)
Definition change_text (b : ChartBar color) (change : pyfloat) : BarText :=
  let height := height b in
  mkBarText (height + (if (height >? Fin 0)%F then Fin (1 # 10) else Fin (- (1 # 2))))%F
            change
            (if (height >? Fin 0)%F then bottom else top).

Definition score_text (b : ChartBar Q) (score : pyfloat) : BarText :=
  let height := height b in
  mkBarText (height + Fin (1 # 10))%F score bottom.

(** [np.linspace(0, 1, num)] *)
Definition linspace_0_1 (num : nat) : list Q :=
  map (fun i => if (num =? 1)%nat then 0%Q
                else (inject_Z (Z.of_nat i) / inject_Z (Z.of_nat (num - 1)))%Q)
      (seq 0 num).

(** The fourth chart: the bars of the predictions, colored by their
    position in the [viridis] color map, and the texts of the scores. *)
Record PredictionChart : Type := mkPredictionChart {
  prediction_bars : list (ChartBar Q);
  prediction_texts : list BarText
}.

Record Figure : Type := mkFigure {
  change_chart : list (ChartBar color);
  change_texts : list BarText;
  volume_chart : list (ChartBar color);
  rsi_chart : list (ChartBar color);
  prediction_chart : option PredictionChart
}.

Definition create_analysis_plots (stock_data : dict DataFrame)
    (metrics : dict MetricRecord) (predictions : list (string * pyfloat))
  : result Figure :=
  let symbols := keys metrics in
  changes <- field_of_each Change_Pct metrics symbols ;;
  let colors := map change_color changes in
  let bars1 := bar (map replace_JK symbols) changes colors in
  let texts1 := map (fun '(b, change) => change_text b change) (combine bars1 changes) in
  volume_trends <- field_of_each Volume_Trend metrics symbols ;;
  let colors := map volume_color volume_trends in
  let bars2 := bar (map replace_JK symbols) volume_trends colors in
  rsi_values <- field_of_each RSI metrics symbols ;;
  let colors := map rsi_color rsi_values in
  let bars3 := bar (map replace_JK symbols) rsi_values colors in
  let chart4 :=
    match predictions with
    | [] => None
    | _ =>
        let pred_symbols := map (fun p => replace_JK (fst p)) predictions in
        let pred_scores := map snd predictions in
        let colors := linspace_0_1 (length pred_scores) in
        let bars4 := bar pred_symbols pred_scores colors in
        Some (mkPredictionChart bars4
                (map (fun '(b, score) => score_text b score)
                     (combine bars4 pred_scores)))
    end in
  Ok (mkFigure bars1 texts1 bars2 bars3 chart4).

(** [indonesia_stocks.get(symbol, 'Unknown')] *)
Definition stock_name (indonesia_stocks : dict string) (symbol : string) : string :=
  match dict_find indonesia_stocks symbol with
  | Some name => name
  | None => "Unknown"
  end.

(** The lines under [Prediction Factors] in the detailed report. *)
Inductive factor : Type :=
| HighVolumeActivity
| PositivePriceMomentum
| HealthyRSI
| AboveMovingAverage.

Definition prediction_factors (metric : MetricRecord) : list factor :=
  (if (Volume_Trend metric >? Fin 0)%F then [HighVolumeActivity] else []) ++
  (if (Change_Pct metric >? Fin 0)%F then [PositivePriceMomentum] else []) ++
  (if ((Fin 30 <=? RSI metric)%F && (RSI metric <=? Fin 70)%F)%bool
   then [HealthyRSI] else []) ++
  (if (Price_vs_SMA20 metric >? Fin 0)%F then [AboveMovingAverage] else []).

(** What [main] does after the tables: the detailed report of each
    prediction, with the name of the symbol and its factors, and the
    figure. *)
Section MainReport.
Variable history : string -> result DataFrame.
Variable np_sqrt : Q -> Q.

Definition detailed_analysis (indonesia_stocks : dict string)
    (report : list (string * pyfloat * MetricRecord))
  : list (string * string * pyfloat * list factor) :=
  map (fun '(symbol, score, metric) =>
         (symbol, stock_name indonesia_stocks symbol, score,
          prediction_factors metric))
      report.

Definition main_plots (indonesia_stocks : dict string) (top_n : Z)
  : result (option (list (string * string * pyfloat * list factor) * Figure)) :=
  outcome <- main_with history np_sqrt (keys indonesia_stocks) top_n ;;
  match outcome with
  | Completed stock_data metrics _ predictions report =>
      figure <- create_analysis_plots stock_data metrics predictions ;;
      Ok (Some (detailed_analysis indonesia_stocks report, figure))
  | _ => Ok None
  end.
End MainReport.

(* ================================================================== *)
(** ** Vocabulary of the properties *)

Definition Qsum (qs : list Q) : Q := fold_left Qplus qs 0%Q.

(** A value that is missing or a finite number that is not negative. *)
Definition nonneg_or_nan (x : pyfloat) : Prop :=
  match x with
  | PyFloat.Fin q => (0 <= q)%Q
  | PyFloat.NaN => True
  | _ => False
  end.

(** A finite number between 0 and 100. *)
Definition percent (x : pyfloat) : Prop :=
  exists q, x = Fin q /\ (0 <= q <= 100)%Q.

(** The invariant of a time series: strictly increasing dates, closing
    prices above zero, volumes not below zero. *)
Definition TimeSeries (data : DataFrame) : Prop :=
  StronglySorted Z.lt (map Date (rows data)) /\
  Forall (fun b => exists c v,
            Close b = Fin c /\ (0 < c)%Q /\ Volume b = Fin v /\ (0 <= v)%Q)
         (rows data).

(** A symbol without usable data: the provider raised, or the frame has
    fewer than 5 rows (an empty frame has none). *)
Definition unusable (history : string -> result DataFrame) (s : string) : Prop :=
  match history s with
  | Raise _ => True
  | Ok data => (len (rows data) < 5)%Z
  end.

(** What [calculate_metrics] does to one item of [stock_data]: the key and
    the rows stay; a frame of fewer than 5 rows is left as it is, a longer
    one gets the [Returns] column. *)
Definition frame_effect (old new : string * DataFrame) : Prop :=
  fst new = fst old /\
  rows (snd new) = rows (snd old) /\
  ((len (rows (snd old)) < 5)%Z -> snd new = snd old) /\
  ((5 <= len (rows (snd old)))%Z ->
   Returns (snd new) = Some (pct_change (column Close (snd old)))).

(** The scores of the symbols, in the order of the mapping. *)
Definition scores_of (metrics : dict MetricRecord) : dict pyfloat :=
  map (fun e => (fst e, score_of (snd e))) metrics.

(** [b] is at most [a]: the order of a ranking from the best score down. *)
Definition score_ge (a b : string * pyfloat) : Prop :=
  (snd b <=? snd a)%F = true.

(** The entries of a ranking whose score is [v]. *)
Definition with_score (v : pyfloat) (l : list (string * pyfloat))
  : list (string * pyfloat) :=
  filter (fun e => PyFloat.eqb (snd e) v) l.

(** The provider has a frame with rows for the symbol. *)
Definition fetched (history : string -> result DataFrame) (s : string) : bool :=
  match history s with
  | Ok hist => negb (empty hist)
  | Raise _ => false
  end.

(** The frame has the 5 rows that [calculate_metrics] asks for. *)
Definition long_enough (item : string * DataFrame) : bool :=
  (5 <=? len (rows (snd item)))%Z.

(** The changes between consecutive closing prices, and the rise and the
    fall in a change. *)
Fixpoint changes (cs : list Q) : list Q :=
  match cs with
  | a :: (b :: _) as rest => (b - a)%Q :: changes rest
  | _ => []
  end.

Definition rise (d : Q) : Q := if PyFloat.Qltb 0 d then d else 0%Q.

Definition fall (d : Q) : Q := if PyFloat.Qltb d 0 then (- d)%Q else 0%Q.

(** The average of the last [w] of the values. *)
Definition window_average (w : nat) (cs : list Q) : Q :=
  (Qsum (skipn (length cs - w) cs) / inject_Z (Z.of_nat w))%Q.

(** The ticker has no dot. *)
Fixpoint no_dot (s : string) : bool :=
  match s with
  | EmptyString => true
  | String c rest => negb (Ascii.eqb c "."%char) && no_dot rest
  end.

(** [b] has at most the change of [a]: the order of the table by change. *)
Definition change_ge (a b : string * MetricRecord) : Prop :=
  (Change_Pct (snd b) <=? Change_Pct (snd a))%F = true.

(** The library cannot fit a series of fewer than [min_points] points. *)
Definition refuses_below {fitted : Type} (fit : Series -> result fitted)
    (min_points : nat) : Prop :=
  forall s : Series, length s < min_points -> exists e, fit s = Raise e.

(* ================================================================== *)
(** ** Concrete inputs *)

(** A square root for the concrete runs: [np.sqrt] rounded down to a
    multiple of [2^-20]. *)
Definition sqrt_floor (q : Q) : Q :=
  Qmake (Z.sqrt (Qnum q * 4 ^ 20 / Zpos (Qden q))) (2 ^ 20).

(** The frame with the given closing prices and volumes on consecutive
    business days from Monday 1970-01-05 on. *)
Definition frame_of (closes volumes : list Z) : DataFrame :=
  mkDataFrame
    (map (fun '(d, (c, v)) =>
            mkBar d (PyFloat.of_Z c) (PyFloat.of_Z c) (PyFloat.of_Z c)
                  (PyFloat.of_Z c) (PyFloat.of_Z v))
         (combine (date_range_B 4 (length closes)) (combine closes volumes)))
    None.

Definition rising (n : nat) : list Z :=
  map (fun i => (100 + Z.of_nat i)%Z) (seq 0 n).

(** Closing prices 100, 101, ... and a constant volume of 1000. *)
Definition rising_frame (n : nat) : DataFrame :=
  frame_of (rising n) (repeat 1000%Z n).

(** Five days without a trade: flat prices and no volume. *)
Definition idle_frame : DataFrame :=
  frame_of (repeat 100%Z 5) (repeat 0%Z 5).

(** A record whose fields all hold the same value. *)
Definition constant_record (x : pyfloat) : MetricRecord :=
  mkMetricRecord x x x x x x x x x x x.

(** Ten symbols and their records, three of them with the same fields. *)
Definition ten_metrics : dict MetricRecord :=
  combine (firstn 10 (keys get_indonesia_stocks))
          (map (fun z => constant_record (PyFloat.of_Z z))
               [3; 50; 7; 50; 1; 9; 2; 8; 50; 4]%Z).

(** A provider that fails for one symbol, has nothing for a second, three
    days for a third and sixty days for every other symbol. *)
Definition sample_history (symbol : string) : result DataFrame :=
  if String.eqb symbol "BBCA.JK" then Raise (LibraryError "HTTPError")
  else if String.eqb symbol "BBRI.JK" then Ok (frame_of [] [])
  else if String.eqb symbol "BMRI.JK" then Ok (rising_frame 3)
  else Ok (rising_frame 60).

(** A stand-in for the smoothing library in the concrete runs: it refuses
    a series of fewer than two points, and otherwise continues the line
    through the last two points. *)
Definition drift_fit (s : Series) : result (pyfloat * pyfloat) :=
  match rev s with
  | last :: previous :: _ => Ok (last, (last - previous)%F)
  | _ => Raise (LibraryError "ExponentialSmoothing")
  end.

Definition drift_forecast (model : pyfloat * pyfloat) (steps : nat) : Series :=
  map (fun k => (fst model + snd model * PyFloat.of_Z (Z.of_nat (S k)))%F)
      (seq 0 steps).

(** A stand-in for a library that asks for ten points. *)
Definition strict_fit (s : Series) : result (pyfloat * pyfloat) :=
  if (length s <? 10)%nat then Raise (LibraryError "ExponentialSmoothing")
  else drift_fit s.

(** Three frames of five days: closing prices that rise by 1 a day, the
    five days without a trade, and closing prices that rise by 10 a day. *)
Definition three_frames : dict DataFrame :=
  [("BBCA.JK"%string, rising_frame 5);
   ("BBRI.JK"%string, idle_frame);
   ("BMRI.JK"%string,
    frame_of [100; 110; 120; 130; 140]%Z (repeat 1000%Z 5))].

(* ================================================================== *)
(** ** Proof automation *)

(** Reads the first step off a run of binds that returned. *)
Ltac inv_bind H :=
  match type of H with
  | bind ?m _ = Ok _ =>
      let E := fresh "E" in
      destruct m eqn:E; [cbn [bind] in H | discriminate H]
  end.

(* ================================================================== *)
(** * Properties *)

(** ** Floats *)

Lemma Qltb_lt (a b : Q) : PyFloat.Qltb a b = true <-> (a < b)%Q.
Proof.
  unfold PyFloat.Qltb. rewrite negb_true_iff.
  destruct (Qle_bool b a) eqn:E.
  - apply Qle_bool_iff in E. split; [discriminate | intros H; exfalso; lra].
  - split; [intros _ | reflexivity].
    apply Qnot_le_lt. intros H. apply Qle_bool_iff in H. congruence.
Qed.

Lemma Qltb_ge (a b : Q) : PyFloat.Qltb a b = false <-> (b <= a)%Q.
Proof.
  unfold PyFloat.Qltb. rewrite negb_false_iff. apply Qle_bool_iff.
Qed.

Lemma Qeq_bool_false (a b : Q) : Qeq_bool a b = false <-> ~ (a == b)%Q.
Proof.
  split.
  - intros H E. apply Qeq_bool_iff in E. congruence.
  - intros H. destruct (Qeq_bool a b) eqn:E; [|reflexivity].
    apply Qeq_bool_iff in E. contradiction.
Qed.

Lemma ltb_Fin (a b : Q) : (Fin a <? Fin b)%F = true <-> (a < b)%Q.
Proof. apply Qltb_lt. Qed.

Lemma leb_Fin (a b : Q) : (Fin a <=? Fin b)%F = true <-> (a <= b)%Q.
Proof. apply Qle_bool_iff. Qed.

Lemma div_const_nan (x : pyfloat) (c : Q) :
  (0 < c)%Q -> PyFloat.is_nan (x / Fin c)%F = PyFloat.is_nan x.
Proof.
  intros Hc. destruct x as [q| | |]; cbn; try reflexivity.
  - destruct (Qeq_bool c 0) eqn:E; [|reflexivity].
    apply Qeq_bool_iff in E. lra.
  - destruct (Qle_bool 0 c) eqn:E; reflexivity.
  - destruct (PyFloat.Qltb c 0) eqn:E; reflexivity.
Qed.

Lemma div_Fin (a c : Q) :
  ~ (c == 0)%Q -> (Fin a / Fin c)%F = Fin (a / c).
Proof.
  intros H. cbn. apply Qeq_bool_false in H. rewrite H. reflexivity.
Qed.

Lemma ltb_leb (x y : pyfloat) : (x <? y)%F = true -> (x <=? y)%F = true.
Proof.
  destruct x as [a| | |], y as [b| | |]; cbn; try discriminate; try reflexivity.
  intros H. apply Qltb_lt in H. apply Qle_bool_iff. lra.
Qed.

Lemma not_ltb_leb (x y : pyfloat) :
  PyFloat.is_nan x = false -> PyFloat.is_nan y = false ->
  (x <? y)%F = false -> (y <=? x)%F = true.
Proof.
  destruct x as [a| | |], y as [b| | |]; cbn; try discriminate; try reflexivity.
  intros _ _ H. apply Qltb_ge in H. apply Qle_bool_iff. exact H.
Qed.

Lemma leb_trans (x y z : pyfloat) :
  (x <=? y)%F = true -> (y <=? z)%F = true -> (x <=? z)%F = true.
Proof.
  destruct x as [a| | |], y as [b| | |], z as [c| | |]; cbn;
    try discriminate; try reflexivity.
  intros H1 H2. apply Qle_bool_iff in H1, H2. apply Qle_bool_iff. lra.
Qed.

Lemma eqb_not_ltb (x y v : pyfloat) :
  PyFloat.eqb x v = true -> PyFloat.eqb y v = true -> (x <? y)%F = false.
Proof.
  destruct x as [a| | |], y as [b| | |], v as [c| | |]; cbn;
    try discriminate; try reflexivity.
  intros H1 H2. apply Qeq_bool_iff in H1, H2. apply Qltb_ge. lra.
Qed.

(** ** Indexing *)

Lemma iloc_from_end {A : Type} (s : list A) (k : nat) :
  1 <= k <= length s ->
  exists a, nth_error s (length s - k) = Some a /\
            iloc s (- Z.of_nat k) = Ok a.
Proof.
  intros Hk. unfold iloc, len. cbv zeta.
  rewrite (proj2 (Z.ltb_lt (- Z.of_nat k) 0)) by lia.
  rewrite (proj2 (Z.ltb_ge (Z.of_nat (length s) + - Z.of_nat k) 0)) by lia.
  replace (Z.to_nat (Z.of_nat (length s) + - Z.of_nat k))
    with (length s - k)%nat by lia.
  destruct (nth_error s (length s - k)) as [a|] eqn:E.
  - exists a. split; reflexivity.
  - apply nth_error_None in E. lia.
Qed.

Lemma iloc_last {A : Type} (s : list A) :
  1 <= length s ->
  exists a, nth_error s (length s - 1) = Some a /\ iloc s (-1) = Ok a.
Proof. intros H. apply (iloc_from_end s 1). lia. Qed.

Lemma iloc_from_start {A : Type} (s : list A) (i : nat) :
  i < length s ->
  exists a, nth_error s i = Some a /\ iloc s (Z.of_nat i) = Ok a.
Proof.
  intros Hi. unfold iloc. cbv zeta.
  rewrite !(proj2 (Z.ltb_ge (Z.of_nat i) 0)) by lia.
  rewrite Nat2Z.id.
  destruct (nth_error s i) as [a|] eqn:E.
  - exists a. split; reflexivity.
  - apply nth_error_None in E. lia.
Qed.

Lemma iloc_first {A : Type} (s : list A) :
  1 <= length s ->
  exists a, nth_error s 0 = Some a /\ iloc s 0 = Ok a.
Proof. intros H. apply (iloc_from_start s 0). lia. Qed.

Lemma iloc_In {A : Type} (s : list A) (i : Z) (a : A) :
  iloc s i = Ok a -> In a s.
Proof.
  unfold iloc. destruct (_ <? 0)%Z; [discriminate|].
  destruct (nth_error s _) eqn:E; [|discriminate].
  intros [= <-]. eapply nth_error_In; eauto.
Qed.

(** ** Series *)

Lemma map2_length {A B C : Type} (f : A -> B -> C) (l : list A) (m : list B) :
  length (map2 f l m) = Nat.min (length l) (length m).
Proof.
  revert m. induction l as [|a l IH]; intros [|b m]; simpl; auto.
Qed.

Lemma nth_error_map2 {A B C : Type} (f : A -> B -> C) l m (i : nat) :
  nth_error (map2 f l m) i =
  match nth_error l i, nth_error m i with
  | Some a, Some b => Some (f a b)
  | _, _ => None
  end.
Proof.
  revert l m. induction i as [|i IH]; intros [|a l] [|b m]; simpl; auto.
  destruct (nth_error l i); reflexivity.
Qed.

Lemma shift_length (s : Series) : length (shift s) = length s.
Proof.
  destruct s as [|x s]; [reflexivity|].
  unfold shift. rewrite removelast_firstn_len. cbn [length].
  rewrite length_firstn. cbn [length]. lia.
Qed.

Lemma diff_length (s : Series) : length (diff s) = length s.
Proof. unfold diff. rewrite map2_length, shift_length. lia. Qed.

Lemma rolling_mean_length (w : nat) (s : Series) :
  length (rolling_mean w s) = length s.
Proof. unfold rolling_mean. rewrite length_map, length_seq. reflexivity. Qed.

Lemma nth_error_rolling_mean (w : nat) (s : Series) (i : nat) :
  i < length s ->
  nth_error (rolling_mean w s) i =
  Some (window_mean w (window_at w (map inf_to_nan s) i)).
Proof.
  intros Hi. unfold rolling_mean.
  rewrite nth_error_map, nth_error_seq.
  destruct (Nat.ltb_spec i (length s)); [reflexivity | lia].
Qed.

Lemma gain_length (close : Series) : length (gain close) = length close.
Proof.
  unfold gain, where_, delta.
  rewrite rolling_mean_length, length_map, diff_length. reflexivity.
Qed.

Lemma loss_length (close : Series) : length (loss close) = length close.
Proof.
  unfold loss, series_neg, where_, delta.
  rewrite rolling_mean_length, !length_map, diff_length. reflexivity.
Qed.

Lemma rs_length (close : Series) : length (rs close) = length close.
Proof. unfold rs. rewrite map2_length, gain_length, loss_length. lia. Qed.

Lemma rsi_length (close : Series) : length (rsi close) = length close.
Proof. unfold rsi. rewrite length_map. apply rs_length. Qed.

(** ** [symbol_metrics] returns *)

Lemma column_length (f : Bar -> pyfloat) (data : DataFrame) :
  length (column f data) = length (rows data).
Proof. apply length_map. Qed.

Lemma column_set_Returns (f : Bar -> pyfloat) (data : DataFrame) (s : Series) :
  column f (set_Returns data s) = column f data.
Proof. reflexivity. Qed.

Lemma geb_true_ge (a b : Z) : (a >=? b)%Z = true <-> (b <= a)%Z.
Proof. rewrite Z.geb_leb. apply Z.leb_le. Qed.

Lemma geb_false_lt (a b : Z) : (a >=? b)%Z = false <-> (a < b)%Z.
Proof. rewrite Z.geb_leb. apply Z.leb_gt. Qed.

Section MetricEngineFacts.
Variable np_sqrt : Q -> Q.

Lemma symbol_metrics_total (data : DataFrame) :
  rows data <> [] ->
  exists m, symbol_metrics np_sqrt data =
            Ok (m, set_Returns data (pct_change (column Close data))).
Proof.
  intros Hne.
  assert (Hlen : 1 <= length (rows data))
    by (destruct (rows data); [congruence | simpl; lia]).
  unfold symbol_metrics. rewrite !column_set_Returns.
  cbn [rows set_Returns get_Returns Returns].
  set (close := column Close data).
  assert (Hc : length close = length (rows data)) by apply column_length.
  destruct (iloc_last close) as (last & _ & ->); [lia|].
  destruct (iloc_first close) as (first & _ & Hfirst); [lia|].
  assert (Hchg : exists c,
    (if (len (rows data) >=? 30)%Z
     then last0 <- Ok last ;; base <- iloc close (-30) ;;
          Ok ((last0 - base) / base * Fin 100)%F
     else last0 <- Ok last ;; base <- iloc close 0 ;;
          Ok ((last0 - base) / base * Fin 100)%F) = Ok c).
  { destruct (len (rows data) >=? 30)%Z eqn:E30.
    - apply geb_true_ge in E30. unfold len in E30.
      destruct (iloc_from_end close 30) as (base & _ & Hb); [lia|].
      change (- Z.of_nat 30)%Z with (-30)%Z in Hb.
      cbn [bind]. rewrite Hb. cbn [bind]. eauto.
    - cbn [bind]. rewrite Hfirst. cbn [bind]. eauto. }
  destruct Hchg as (c & ->). cbn [bind].
  assert (Hsma : forall w : nat, exists v,
    (if (len (rows data) >=? Z.of_nat w)%Z
     then iloc (rolling_mean w close) (-1) else Ok last) = Ok v).
  { intros w. destruct (_ >=? _)%Z; [|eauto].
    destruct (iloc_last (rolling_mean w close)) as (v & _ & Hv).
    - rewrite rolling_mean_length. lia.
    - exists v. exact Hv. }
  destruct (Hsma 20) as (s20 & H20).
  destruct (Hsma 50) as (s50 & H50).
  change (Z.of_nat 20) with 20%Z in H20. change (Z.of_nat 50) with 50%Z in H50.
  rewrite H20, H50. cbn [bind].
  destruct (iloc_last (rsi close)) as (r & _ & ->).
  { rewrite rsi_length. lia. }
  cbn [bind]. eauto.
Qed.

(** [calculate_metrics] never raises, and keeps the keys of [metrics]
    it was given. *)
Lemma calculate_metrics_loop_total (items : list (string * DataFrame)) :
  forall metrics, exists metrics' items',
    calculate_metrics_loop np_sqrt metrics items = Ok (metrics', items').
Proof.
  induction items as [|[symbol data] rest IH]; intros metrics; cbn [calculate_metrics_loop].
  - eauto.
  - destruct (Z.ltb_spec (len (rows data)) 5) as [Hlt|Hge].
    + destruct (IH metrics) as (m' & r' & ->). cbn [bind]. eauto.
    + destruct (symbol_metrics_total data) as (m & ->).
      { intros E. rewrite E in Hge. cbn in Hge. lia. }
      cbn [bind].
      destruct (IH (dict_set metrics symbol m)) as (m' & r' & ->).
      cbn [bind]. eauto.
Qed.
End MetricEngineFacts.

Section MetricEngineInversion.
Variable np_sqrt : Q -> Q.

(** The steps of [symbol_metrics], read off a run that returned. *)
Lemma symbol_metrics_inv (data : DataFrame) (m : MetricRecord) (data' : DataFrame) :
  symbol_metrics np_sqrt data = Ok (m, data') ->
  let close := column Close data in
  let volume := column Volume data in
  exists last base sma_20 sma_50 last_rsi,
    iloc close (-1) = Ok last /\
    iloc close (if (len (rows data) >=? 30)%Z then (-30)%Z else 0%Z) = Ok base /\
    (if (len (rows data) >=? 20)%Z
     then iloc (rolling_mean 20 close) (-1) else Ok last) = Ok sma_20 /\
    (if (len (rows data) >=? 50)%Z
     then iloc (rolling_mean 50 close) (-1) else Ok last) = Ok sma_50 /\
    iloc (rsi close) (-1) = Ok last_rsi /\
    data' = set_Returns data (pct_change close) /\
    m = {| Current_Price := last;
           Change_Pct := ((last - base) / base * Fin 100)%F;
           Avg_Volume := mean volume;
           Recent_Volume := mean (tail 5 volume);
           Volume_Trend :=
             ((mean (tail 5 volume) - mean volume) / mean volume * Fin 100)%F;
           Volatility :=
             (std np_sqrt (pct_change close) * sqrt np_sqrt (Fin 252) * Fin 100)%F;
           SMA_20 := sma_20;
           SMA_50 := sma_50;
           RSI := if negb (PyFloat.is_nan last_rsi) then last_rsi else Fin 50;
           Price_vs_SMA20 := ((last - sma_20) / sma_20 * Fin 100)%F;
           Price_vs_SMA50 := ((last - sma_50) / sma_50 * Fin 100)%F |}.
Proof.
  intros H close volume. unfold symbol_metrics in H.
  rewrite !column_set_Returns in H.
  cbn [rows set_Returns get_Returns Returns] in H.
  fold close in H. fold volume in H.
  inv_bind H. rename a into change_pct.
  inv_bind H. rename a into last. cbn [bind] in H.
  inv_bind H. rename a into sma_20.
  inv_bind H. rename a into sma_50.
  inv_bind H. rename a into last_rsi.
  injection H as <- <-.
  assert (Hc : exists base,
    iloc close (if (len (rows data) >=? 30)%Z then (-30)%Z else 0%Z) = Ok base /\
    change_pct = ((last - base) / base * Fin 100)%F).
  { destruct (len (rows data) >=? 30)%Z;
      cbn [bind] in E; inv_bind E;
      injection E as <-; eauto. }
  destruct Hc as (base & Hb & ->).
  exists last, base, sma_20, sma_50, last_rsi. repeat split; assumption.
Qed.
End MetricEngineInversion.

(** ** Sums and means of finite values *)

Lemma fold_add_Fin (qs : list Q) (a : Q) :
  fold_left PyFloat.add (map PyFloat.Fin qs) (Fin a) = Fin (fold_left Qplus qs a).
Proof.
  revert a. induction qs as [|q qs IH]; intros a; cbn; [reflexivity | apply IH].
Qed.

Lemma fsum_Fin (qs : list Q) : fsum (map PyFloat.Fin qs) = Fin (Qsum qs).
Proof. apply fold_add_Fin. Qed.

Lemma fold_Qplus_ge (qs : list Q) (a : Q) :
  Forall (fun q => 0 <= q)%Q qs -> (a <= fold_left Qplus qs a)%Q.
Proof.
  intros H. revert a. induction H as [|q qs Hq _ IH]; intros a; cbn.
  - lra.
  - specialize (IH (a + q)%Q). lra.
Qed.

Lemma fold_Qplus_gt (qs : list Q) (a : Q) :
  Forall (fun q => 0 < q)%Q qs -> qs <> [] -> (a < fold_left Qplus qs a)%Q.
Proof.
  intros H Hne. destruct H as [|q qs Hq H]; [congruence|]. cbn.
  assert (a + q <= fold_left Qplus qs (a + q))%Q.
  { apply fold_Qplus_ge. eapply Forall_impl; [|exact H]. cbn. intros; lra. }
  lra.
Qed.

Lemma finite_list (l : Series) :
  Forall (fun x => PyFloat.is_finite x = true) l ->
  exists qs, l = map PyFloat.Fin qs.
Proof.
  induction 1 as [|x l Hx _ (qs & ->)].
  - exists []. reflexivity.
  - destruct x as [q| | |]; try discriminate. exists (q :: qs). reflexivity.
Qed.

Lemma filter_notna_Fin (qs : list Q) :
  filter notna (map PyFloat.Fin qs) = map PyFloat.Fin qs.
Proof.
  induction qs as [|q qs IH]; cbn; [reflexivity | now rewrite IH].
Qed.

Lemma In_firstn {A : Type} (n : nat) (l : list A) (x : A) :
  In x (firstn n l) -> In x l.
Proof.
  intros H. rewrite <- (firstn_skipn n l). apply in_or_app. now left.
Qed.

Lemma In_skipn {A : Type} (n : nat) (l : list A) (x : A) :
  In x (skipn n l) -> In x l.
Proof.
  intros H. rewrite <- (firstn_skipn n l). apply in_or_app. now right.
Qed.

Lemma Forall_window_at (P : pyfloat -> Prop) (w : nat) (s : Series) (i : nat) :
  Forall P s -> Forall P (window_at w s i).
Proof.
  rewrite !Forall_forall. intros H x Hx. apply H.
  unfold window_at in Hx. eapply In_firstn, In_skipn, Hx.
Qed.

(** ** The relative strength index *)

Lemma Qdiv_nonneg (a b : Q) : (0 <= a -> 0 < b -> 0 <= a / b)%Q.
Proof.
  intros Ha Hb. apply Qle_shift_div_l; [exact Hb | lra].
Qed.

Lemma window_mean_nonneg (w : nat) (win : Series) :
  Forall nonneg_or_nan win -> nonneg_or_nan (window_mean w win).
Proof.
  intros H. unfold window_mean.
  destruct (w <=? length (filter notna win)); [|exact I].
  assert (Hf : Forall (fun x => PyFloat.is_finite x = true) (filter notna win)).
  { apply Forall_forall. intros x Hx. apply filter_In in Hx as [Hx Hn].
    rewrite Forall_forall in H. specialize (H x Hx).
    destruct x; cbn in *; try reflexivity; try contradiction; discriminate. }
  destruct (finite_list _ Hf) as (qs & Hqs).
  assert (Hpos : Forall (fun q => 0 <= q)%Q qs).
  { apply Forall_forall. intros q Hq.
    assert (Hin : In (Fin q) (filter notna win))
      by (rewrite Hqs; apply in_map; exact Hq).
    apply filter_In in Hin as [Hin _].
    rewrite Forall_forall in H. exact (H _ Hin). }
  rewrite Hqs, fsum_Fin. unfold len, PyFloat.of_Z. rewrite length_map.
  destruct qs as [|q0 qs']; [reflexivity|].
  set (qs := q0 :: qs') in *.
  cbn [PyFloat.div].
  assert (Hn : (0 < inject_Z (Z.of_nat (length qs)))%Q).
  { change 0%Q with (inject_Z 0). rewrite <- Zlt_Qlt. subst qs. cbn [length]. lia. }
  destruct (Qeq_bool _ 0) eqn:E.
  - apply Qeq_bool_iff in E. lra.
  - cbn. apply Qdiv_nonneg; [|exact Hn].
    unfold Qsum. apply (fold_Qplus_ge _ 0 Hpos).
Qed.

Lemma Forall_rolling_mean_nonneg (w : nat) (s : Series) :
  Forall (fun x => nonneg_or_nan (inf_to_nan x)) s ->
  Forall nonneg_or_nan (rolling_mean w s).
Proof.
  intros H. unfold rolling_mean. apply Forall_map, Forall_forall.
  intros i _. apply window_mean_nonneg, Forall_window_at, Forall_map, H.
Qed.

Lemma gain_nonneg (close : Series) : Forall nonneg_or_nan (gain close).
Proof.
  apply Forall_rolling_mean_nonneg. unfold where_. apply Forall_map, Forall_forall.
  intros x _. unfold PyFloat.gtb.
  destruct x as [q| | |]; cbn; try exact I; try lra.
  destruct (PyFloat.Qltb 0 q) eqn:E; cbn; [|lra].
  apply Qltb_lt in E. lra.
Qed.

Lemma loss_nonneg (close : Series) : Forall nonneg_or_nan (loss close).
Proof.
  apply Forall_rolling_mean_nonneg. unfold series_neg, where_.
  apply Forall_map, Forall_map, Forall_forall.
  intros x _.
  destruct x as [q| | |]; cbn; try exact I; try lra.
  destruct (PyFloat.Qltb q 0) eqn:E; cbn; [|lra].
  apply Qltb_lt in E. lra.
Qed.

(** One entry of [rsi], from the entries of [gain] and [loss]. *)
Lemma rsi_entry_range (g l : pyfloat) :
  nonneg_or_nan g -> nonneg_or_nan l ->
  let r := (g / l)%F in
  let v := (Fin 100 - Fin 100 / (Fin 1 + r))%F in
  (PyFloat.is_nan r = true /\ v = NaN) \/
  (PyFloat.is_nan r = false /\ percent v).
Proof.
  intros Hg Hl.
  destruct g as [a| | |], l as [b| | |]; cbn in Hg, Hl; try contradiction;
    try (left; split; reflexivity).
  cbn [PyFloat.div].
  destruct (Qeq_bool b 0) eqn:Eb.
  - destruct (Qeq_bool a 0) eqn:Ea; [left; split; reflexivity|].
    apply Qeq_bool_false in Ea.
    assert (Hlt : PyFloat.Qltb 0 a = true) by (apply Qltb_lt; lra).
    rewrite Hlt. right. split; [reflexivity|].
    cbn. eexists. split; [reflexivity|]. lra.
  - apply Qeq_bool_false in Eb. right. split; [reflexivity|].
    assert (Hr : (0 <= a / b)%Q) by (apply Qdiv_nonneg; lra).
    cbn [PyFloat.add PyFloat.div].
    destruct (Qeq_bool (1 + a / b) 0) eqn:E1.
    { apply Qeq_bool_iff in E1. lra. }
    cbn. eexists. split; [reflexivity|].
    assert (H1 : (0 <= 100 / (1 + a / b))%Q) by (apply Qdiv_nonneg; lra).
    assert (H2 : (100 / (1 + a / b) <= 100)%Q)
      by (apply Qle_shift_div_r; lra).
    lra.
Qed.

Lemma window_mean_short (w : nat) (win : Series) :
  length win < w -> window_mean w win = NaN.
Proof.
  intros H. unfold window_mean.
  pose proof (filter_length_le notna win) as Hle.
  destruct (Nat.leb_spec w (length (filter notna win))); [lia | reflexivity].
Qed.

Lemma window_at_length (w : nat) (s : Series) (i : nat) :
  length (window_at w s i) <= S i.
Proof.
  unfold window_at. rewrite length_skipn, length_firstn. lia.
Qed.

Lemma rolling_mean_short (w : nat) (s : Series) (i : nat) :
  i < length s -> S i < w -> nth_error (rolling_mean w s) i = Some NaN.
Proof.
  intros Hi Hw. rewrite nth_error_rolling_mean by exact Hi.
  rewrite window_mean_short; [reflexivity|].
  pose proof (window_at_length w (map inf_to_nan s) i). lia.
Qed.

Lemma rolling_mean_all_short (w : nat) (s : Series) :
  length s < w -> Forall (fun x => x = NaN) (rolling_mean w s).
Proof.
  intros Hw. apply Forall_forall. intros x Hx.
  apply In_nth_error in Hx. destruct Hx as (i & Hi).
  assert (Hlt : i < length (rolling_mean w s)).
  { apply nth_error_Some. congruence. }
  rewrite rolling_mean_length in Hlt.
  rewrite rolling_mean_short in Hi by lia. congruence.
Qed.

Lemma nth_error_Forall {A : Type} (P : A -> Prop) (l : list A) (i : nat) (a : A) :
  Forall P l -> nth_error l i = Some a -> P a.
Proof.
  intros H E. rewrite Forall_forall in H. eapply H, nth_error_In, E.
Qed.

Lemma nth_error_lt {A : Type} (l : list A) (i : nat) :
  i < length l -> exists a, nth_error l i = Some a.
Proof.
  intros H. destruct (nth_error l i) eqn:E; [eauto|].
  apply nth_error_None in E. lia.
Qed.

(** The entry of [rs] and of [rsi] at a position of the series. *)
Lemma rsi_nth (close : Series) (i : nat) :
  i < length close ->
  exists g l,
    nth_error (gain close) i = Some g /\
    nth_error (loss close) i = Some l /\
    nth_error (rs close) i = Some (g / l)%F /\
    nth_error (rsi close) i = Some (Fin 100 - Fin 100 / (Fin 1 + g / l))%F.
Proof.
  intros Hi.
  destruct (nth_error_lt (gain close) i) as (g & Hg); [now rewrite gain_length|].
  destruct (nth_error_lt (loss close) i) as (l & Hl); [now rewrite loss_length|].
  exists g, l.
  assert (Hrs : nth_error (rs close) i = Some (g / l)%F).
  { unfold rs. rewrite nth_error_map2, Hg, Hl. reflexivity. }
  repeat split; try assumption.
  unfold rsi. rewrite nth_error_map, Hrs. reflexivity.
Qed.

(** The last entry of [rsi] and the index that the record keeps. *)
Lemma current_rsi_range (close : Series) (r : pyfloat) :
  1 <= length close ->
  iloc (rsi close) (-1) = Ok r ->
  exists ratio,
    nth_error (rs close) (length close - 1) = Some ratio /\
    percent (if negb (PyFloat.is_nan r) then r else Fin 50) /\
    (PyFloat.is_nan ratio = true -> r = NaN).
Proof.
  intros Hlen Hr.
  destruct (rsi_nth close (length close - 1)) as (g & l & Hg & Hl & Hrs & Hrsi); [lia|].
  destruct (iloc_last (rsi close)) as (a & Ha & Ha'); [rewrite rsi_length; lia|].
  rewrite Hr in Ha'. injection Ha' as <-.
  rewrite rsi_length, Hrsi in Ha.
  assert (Hv : r = (Fin 100 - Fin 100 / (Fin 1 + g / l))%F) by congruence.
  exists (g / l)%F. split; [exact Hrs|].
  destruct (rsi_entry_range g l) as [[Hnan Hv']|[Hnan Hv']].
  - exact (nth_error_Forall _ _ _ _ (gain_nonneg close) Hg).
  - exact (nth_error_Forall _ _ _ _ (loss_nonneg close) Hl).
  - rewrite Hv, Hv'. cbn. split; [|reflexivity].
    exists 50%Q. split; [reflexivity | lra].
  - rewrite Hv. destruct Hv' as (q & Hq & Hrange). rewrite Hq. cbn.
    split; [exists q; auto | congruence].
Qed.

(** ** Time series of positive prices *)

Lemma Qsum_app (l m : list Q) : (Qsum (l ++ m) == Qsum l + Qsum m)%Q.
Proof.
  unfold Qsum. rewrite fold_left_app.
  generalize (fold_left Qplus l 0%Q) as a. intros a.
  revert a. induction m as [|q m IH]; intros a; cbn.
  - ring.
  - rewrite IH. rewrite (IH (0 + q)%Q). ring.
Qed.

Lemma Qsum_nonneg (l : list Q) : Forall (fun q => 0 <= q)%Q l -> (0 <= Qsum l)%Q.
Proof. intros H. apply (fold_Qplus_ge l 0 H). Qed.

Lemma Qsum_pos (l : list Q) :
  Forall (fun q => 0 < q)%Q l -> l <> [] -> (0 < Qsum l)%Q.
Proof. intros H Hne. apply (fold_Qplus_gt l 0 H Hne). Qed.

Lemma Qsum_skipn_le (n : nat) (l : list Q) :
  Forall (fun q => 0 <= q)%Q l -> (Qsum (skipn n l) <= Qsum l)%Q.
Proof.
  intros H. rewrite <- (firstn_skipn n l) at 2. rewrite Qsum_app.
  assert (0 <= Qsum (firstn n l))%Q.
  { apply Qsum_nonneg, Forall_forall. intros q Hq.
    rewrite Forall_forall in H. eapply H, In_firstn, Hq. }
  lra.
Qed.

Lemma inject_Z_len_pos {A : Type} (l : list A) :
  l <> [] -> (0 < inject_Z (len l))%Q.
Proof.
  intros H. change 0%Q with (inject_Z 0). rewrite <- Zlt_Qlt. unfold len.
  destruct l; [congruence | cbn; lia].
Qed.

Lemma len_map {A B : Type} (f : A -> B) (l : list A) : len (map f l) = len l.
Proof. unfold len. now rewrite length_map. Qed.

Lemma mean_Fin (qs : list Q) :
  qs <> [] ->
  mean (map PyFloat.Fin qs) = Fin (Qsum qs / inject_Z (len qs)).
Proof.
  intros Hne. unfold mean. rewrite filter_notna_Fin.
  pose proof (inject_Z_len_pos qs Hne) as Hpos.
  destruct qs as [|q qs']; [congruence|].
  cbn [map]. change (Fin q :: map PyFloat.Fin qs') with (map PyFloat.Fin (q :: qs')).
  rewrite fsum_Fin, len_map. unfold PyFloat.of_Z. apply div_Fin. lra.
Qed.

Lemma TimeSeries_columns (data : DataFrame) :
  TimeSeries data ->
  exists cs vs,
    column Close data = map PyFloat.Fin cs /\
    column Volume data = map PyFloat.Fin vs /\
    Forall (fun q => 0 < q)%Q cs /\
    Forall (fun q => 0 <= q)%Q vs /\
    length cs = length (rows data) /\
    length vs = length (rows data).
Proof.
  intros [_ H]. unfold column. induction H as [|b bs Hb _ IH].
  - exists [], []. repeat split; constructor.
  - destruct Hb as (c & v & Hc & Hc0 & Hv & Hv0).
    destruct IH as (cs & vs & E1 & E2 & H1 & H2 & L1 & L2).
    exists (c :: cs), (v :: vs). cbn. rewrite Hc, Hv, E1, E2, L1, L2.
    repeat split; try constructor; assumption.
Qed.

Lemma tail_Fin (n : nat) (qs : list Q) :
  tail n (map PyFloat.Fin qs) = map PyFloat.Fin (skipn (length qs - n) qs).
Proof. unfold tail. now rewrite length_map, skipn_map. Qed.

(** The volume trend of volumes that are not negative: a number when some
    volume is positive, [NaN] when every volume is zero. *)
Lemma volume_trend_Fin (vs : list Q) :
  5 <= length vs ->
  Forall (fun q => 0 <= q)%Q vs ->
  let volume := map PyFloat.Fin vs in
  let trend := ((mean (tail 5 volume) - mean volume) / mean volume * Fin 100)%F in
  exists a, mean volume = Fin a /\ (0 <= a)%Q /\
            (if Qeq_bool a 0 then trend = NaN
             else PyFloat.is_finite trend = true).
Proof.
  intros Hlen Hvs volume trend. subst trend volume.
  assert (Hne : vs <> []) by (destruct vs; [cbn in Hlen; lia | discriminate]).
  set (recent := skipn (length vs - 5) vs).
  assert (Hrecent : recent <> []).
  { intros E. apply (f_equal (@length Q)) in E. subst recent.
    rewrite length_skipn in E. cbn in E. lia. }
  rewrite tail_Fin. fold recent. rewrite (mean_Fin vs Hne), (mean_Fin recent Hrecent).
  pose proof (inject_Z_len_pos vs Hne) as Hn.
  pose proof (inject_Z_len_pos recent Hrecent) as Hk.
  pose proof (Qsum_nonneg vs Hvs) as Hs.
  assert (Hr : (0 <= Qsum recent <= Qsum vs)%Q).
  { split; [|apply Qsum_skipn_le, Hvs].
    apply Qsum_nonneg, Forall_forall. intros q Hq.
    rewrite Forall_forall in Hvs. eapply Hvs, In_skipn, Hq. }
  set (a := (Qsum vs / inject_Z (len vs))%Q).
  set (r := (Qsum recent / inject_Z (len recent))%Q).
  assert (Ha : (0 <= a)%Q) by (apply Qdiv_nonneg; lra).
  exists a. split; [reflexivity|]. split; [exact Ha|].
  destruct (Qeq_bool a 0) eqn:E.
  - apply Qeq_bool_iff in E.
    assert (Hs0 : (Qsum vs == 0)%Q).
    { subst a. apply Qmult_integral_l with (x := (/ inject_Z (len vs))%Q).
      - intros H0. apply Qinv_lt_0_compat in Hn. lra.
      - rewrite <- E. unfold Qdiv. ring. }
    assert (Hr0 : (r == 0)%Q).
    { subst r. assert (H0 : (Qsum recent == 0)%Q) by lra.
      rewrite H0. unfold Qdiv. ring. }
    cbn [PyFloat.sub PyFloat.add PyFloat.neg PyFloat.div].
    assert (E1 : Qeq_bool a 0 = true) by (apply Qeq_bool_iff; exact E).
    assert (E2 : Qeq_bool (r + - a) 0 = true) by (apply Qeq_bool_iff; lra).
    rewrite E1, E2. reflexivity.
  - apply Qeq_bool_false in E.
    cbn [PyFloat.sub PyFloat.add PyFloat.neg]. rewrite div_Fin by exact E. reflexivity.
Qed.

Lemma map2_removelast {A B C : Type} (f : A -> B -> C) (s : list A) :
  forall (x : B) (t : list B),
    length t = length s ->
    map2 f s (removelast (x :: t)) = map2 f s (x :: t).
Proof.
  induction s as [|y s IH]; intros x t Ht; [reflexivity|].
  destruct t as [|z t]; [discriminate|].
  cbn [removelast]. cbn [map2]. f_equal. apply IH. now injection Ht.
Qed.

Lemma pct_change_Fin (c : Q) (cs : list Q) :
  Forall (fun q => 0 < q)%Q (c :: cs) ->
  exists rs, pct_change (map PyFloat.Fin (c :: cs)) = NaN :: map PyFloat.Fin rs /\
             length rs = length cs.
Proof.
  intros H. unfold pct_change, shift. cbn [map map2].
  rewrite map2_removelast by reflexivity.
  change (Fin c :: map PyFloat.Fin cs) with (map PyFloat.Fin (c :: cs)).
  assert (Hgen : forall (xs ps : list Q),
    Forall (fun q => 0 < q)%Q ps ->
    exists rs,
      map2 (fun x p => (x / p - Fin 1)%F) (map PyFloat.Fin xs) (map PyFloat.Fin ps) =
        map PyFloat.Fin rs /\
      length rs = Nat.min (length xs) (length ps)).
  { induction xs as [|x xs IH]; intros ps Hps.
    - exists []. split; reflexivity.
    - destruct Hps as [|p ps Hp Hps].
      + exists []. split; reflexivity.
      + destruct (IH ps Hps) as (rs & E & L).
        exists ((x / p + - 1)%Q :: rs). cbn [map map2 length Nat.min].
        rewrite E, L, div_Fin by lra. split; reflexivity. }
  destruct (Hgen cs (c :: cs) H) as (rs & E & L).
  exists rs. split.
  - rewrite E. reflexivity.
  - rewrite L. cbn [length]. lia.
Qed.

Lemma Qsquare_nonneg (y : Q) : (0 <= y * y)%Q.
Proof.
  destruct (Qlt_le_dec y 0) as [H|H].
  - assert (E : (y * y == (- y) * (- y))%Q) by ring. rewrite E.
    apply Qmult_le_0_compat; lra.
  - apply Qmult_le_0_compat; exact H.
Qed.

Lemma var_Fin (rs : list Q) :
  2 <= length rs ->
  exists q, var (NaN :: map PyFloat.Fin rs) = Fin q /\ (0 <= q)%Q.
Proof.
  intros Hlen. unfold var. cbn [filter notna PyFloat.is_nan negb].
  rewrite filter_notna_Fin, len_map.
  assert (Hne : rs <> []) by (destruct rs; [cbn in Hlen; lia | discriminate]).
  pose proof (inject_Z_len_pos rs Hne) as Hn.
  assert (Hl : (2 <= len rs)%Z) by (unfold len; lia).
  rewrite (proj2 (Z.leb_gt (len rs) 1)) by lia.
  rewrite fsum_Fin. unfold PyFloat.of_Z. rewrite div_Fin by lra.
  set (avg := (Qsum rs / inject_Z (len rs))%Q).
  rewrite map_map.
  rewrite (map_ext _ (fun x => Fin ((avg + - x) * (avg + - x)))) by reflexivity.
  rewrite <- (map_map (fun x => (avg + - x) * (avg + - x))%Q PyFloat.Fin).
  rewrite fsum_Fin.
  assert (Hd : (0 < inject_Z (len rs - 1))%Q).
  { change 0%Q with (inject_Z 0). rewrite <- Zlt_Qlt. lia. }
  rewrite div_Fin by lra.
  eexists. split; [reflexivity|].
  apply Qdiv_nonneg; [|exact Hd].
  apply Qsum_nonneg, Forall_map, Forall_forall. intros x _. apply Qsquare_nonneg.
Qed.

Lemma rolling_mean_last_Fin (w : nat) (cs : list Q) :
  1 <= w <= length cs ->
  Forall (fun q => 0 < q)%Q cs ->
  exists s,
    nth_error (rolling_mean w (map PyFloat.Fin cs)) (length cs - 1) = Some (Fin s) /\
    (0 < s)%Q.
Proof.
  intros Hw Hcs.
  rewrite nth_error_rolling_mean by (rewrite length_map; lia).
  rewrite map_map. cbn [inf_to_nan PyFloat.is_inf].
  unfold window_at.
  replace (S (length cs - 1)) with (length cs) by lia.
  rewrite firstn_all2 by (rewrite length_map; lia).
  rewrite skipn_map. set (qs := skipn (length cs - w) cs).
  assert (Hq : length qs = w) by (subst qs; rewrite length_skipn; lia).
  assert (Hne : qs <> []) by (destruct qs; [cbn in Hq; lia | discriminate]).
  unfold window_mean. rewrite filter_notna_Fin, length_map, Hq, Nat.leb_refl.
  rewrite fsum_Fin, len_map. unfold PyFloat.of_Z.
  pose proof (inject_Z_len_pos qs Hne) as Hn. rewrite div_Fin by lra.
  eexists. split; [reflexivity|].
  apply Qlt_shift_div_l; [exact Hn|].
  assert (0 < Qsum qs)%Q; [|lra].
  apply Qsum_pos; [|exact Hne].
  apply Forall_forall. intros q Hin. rewrite Forall_forall in Hcs.
  eapply Hcs, In_skipn, Hin.
Qed.
Lemma pct_Fin (a b : Q) :
  (0 < b)%Q -> PyFloat.is_finite ((Fin a - Fin b) / Fin b * Fin 100)%F = true.
Proof.
  intros Hb. cbn [PyFloat.sub PyFloat.add PyFloat.neg].
  rewrite div_Fin by lra. reflexivity.
Qed.

Lemma In_map_Fin_pos (cs : list Q) (x : pyfloat) :
  Forall (fun q => 0 < q)%Q cs -> In x (map PyFloat.Fin cs) ->
  exists c, x = Fin c /\ (0 < c)%Q.
Proof.
  intros H Hin. apply in_map_iff in Hin. destruct Hin as (c & <- & Hc).
  rewrite Forall_forall in H. eauto.
Qed.

Lemma sma_Fin (w : nat) (cs : list Q) (last s : pyfloat) :
  1 <= w ->
  Forall (fun q => 0 < q)%Q cs ->
  (exists c, last = Fin c /\ (0 < c)%Q) ->
  (if (len cs >=? Z.of_nat w)%Z
   then iloc (rolling_mean w (map PyFloat.Fin cs)) (-1) else Ok last) = Ok s ->
  exists q, s = Fin q /\ (0 < q)%Q.
Proof.
  intros Hw Hcs Hlast H.
  destruct (len cs >=? Z.of_nat w)%Z eqn:E.
  - apply geb_true_ge in E. unfold len in E.
    destruct (rolling_mean_last_Fin w cs) as (q & Hq & Hpos); [lia | exact Hcs|].
    destruct (iloc_last (rolling_mean w (map PyFloat.Fin cs))) as (a & Ha & Ha').
    { rewrite rolling_mean_length, length_map. lia. }
    rewrite rolling_mean_length, length_map, Hq in Ha.
    exists q. split; [congruence | exact Hpos].
  - injection H as <-. exact Hlast.
Qed.

(** ** Sub-scores *)

(** [min(x, 10)] never exceeds 10, and is at most 10 unless [x] is
    missing. *)
Lemma py_min_cap (x : pyfloat) (c : Q) :
  (Fin c <? py_min x (Fin c))%F = false /\
  (PyFloat.is_nan x = false -> (py_min x (Fin c) <=? Fin c)%F = true).
Proof.
  unfold py_min.
  destruct x as [q| | |]; cbn.
  - destruct (PyFloat.Qltb c q) eqn:E; cbn.
    + split; [apply Qltb_ge; lra | intros _; apply Qle_bool_iff; lra].
    + apply Qltb_ge in E. split; [apply Qltb_ge; lra|].
      intros _. apply Qle_bool_iff. lra.
  - split; [apply Qltb_ge; lra | intros _; apply Qle_bool_iff; lra].
  - split; [reflexivity | reflexivity].
  - split; [reflexivity | discriminate].
Qed.

(** Below the cap [min(x, 10)] is [x]. *)
Lemma py_min_below (x : pyfloat) (c : Q) :
  (x <=? Fin c)%F = true -> py_min x (Fin c) = x.
Proof.
  unfold py_min. destruct x as [q| | |]; cbn; try discriminate; try reflexivity.
  intros H. apply Qle_bool_iff in H.
  destruct (PyFloat.Qltb c q) eqn:E; [|reflexivity].
  apply Qltb_lt in E. lra.
Qed.

(** [max(0, min(x, 10))] lies between 0 and 10, whatever [x] is. *)
Lemma clamp_range (x : pyfloat) :
  let c := py_max (Fin 0) (py_min x (Fin 10)) in
  (Fin 0 <=? c)%F = true /\ (c <=? Fin 10)%F = true.
Proof.
  unfold py_max, py_min, PyFloat.gtb.
  destruct x as [q| | |]; cbn; try (split; reflexivity).
  destruct (PyFloat.Qltb 10 q) eqn:E; cbn; [split; reflexivity|].
  apply Qltb_ge in E.
  destruct (PyFloat.Qltb 0 q) eqn:E0; cbn.
  - apply Qltb_lt in E0. split; apply Qle_bool_iff; lra.
  - split; reflexivity.
Qed.

Lemma score_sum_same (a b c d : pyfloat) :
  PyFloat.same (Fin 0 + a + b + c + d)%F (a + b + c + d)%F.
Proof.
  destruct a, b, c, d; cbn; try exact I; ring.
Qed.

Lemma below_any_bound (b : Q) :
  let x := Fin (- (10 * Qabs b) - 10) in
  (volume_score (constant_record x) <? Fin b)%F = true /\
  (change_score (constant_record x) <? Fin b)%F = true /\
  (sma_score (constant_record x) <? Fin b)%F = true.
Proof.
  pose proof (Qabs_nonneg b) as H0. pose proof (Qle_Qabs b) as H1.
  pose proof (Qle_Qabs (- b)) as H2. rewrite Qabs_opp in H2.
  set (y := (- (10 * Qabs b) - 10)%Q).
  assert (Hy : (y <= -10 /\ y / 10 < b /\ y / 5 < b /\ (y + y) / 2 / 2 < b)%Q).
  { subst y. repeat split.
    - lra.
    - apply Qlt_shift_div_r; lra.
    - apply Qlt_shift_div_r; lra.
    - apply Qlt_shift_div_r; [lra|]. apply Qlt_shift_div_r; lra. }
  destruct Hy as (Hy0 & Hy1 & Hy2 & Hy3).
  assert (H10 : (y / 10 <= 10)%Q) by (apply Qle_shift_div_r; lra).
  assert (H5 : (y / 5 <= 10)%Q) by (apply Qle_shift_div_r; lra).
  assert (H2' : ((y + y) / 2 / 2 <= 10)%Q).
  { apply Qle_shift_div_r; [lra|]. apply Qle_shift_div_r; lra. }
  cbn zeta. unfold volume_score, change_score, sma_score, constant_record.
  cbn [Volume_Trend Change_Pct Price_vs_SMA20 Price_vs_SMA50].
  cbn [PyFloat.add]. rewrite !div_Fin by lra.
  rewrite !py_min_below by (apply leb_Fin; assumption).
  repeat split; apply ltb_Fin; assumption.
Qed.

Lemma py_min_finite (x : pyfloat) (c : Q) :
  PyFloat.is_finite x = true -> PyFloat.is_finite (py_min x (Fin c)) = true.
Proof.
  destruct x as [q| | |]; try discriminate. intros _. unfold py_min. cbn.
  destruct (PyFloat.Qltb c q); reflexivity.
Qed.

(** The score of a record whose fields are finite numbers is a finite
    number. *)
Lemma score_of_finite (m : MetricRecord) :
  PyFloat.is_finite (Volume_Trend m) = true ->
  PyFloat.is_finite (Change_Pct m) = true ->
  PyFloat.is_finite (RSI m) = true ->
  PyFloat.is_finite (Price_vs_SMA20 m) = true ->
  PyFloat.is_finite (Price_vs_SMA50 m) = true ->
  PyFloat.is_finite (score_of m) = true.
Proof.
  intros Hv Hc Hr H20 H50.
  assert (Fv : PyFloat.is_finite (volume_score m) = true).
  { unfold volume_score. apply py_min_finite.
    destruct (Volume_Trend m); try discriminate. now rewrite div_Fin by lra. }
  assert (Fc : PyFloat.is_finite (change_score m) = true).
  { unfold change_score. apply py_min_finite.
    destruct (Change_Pct m); try discriminate. now rewrite div_Fin by lra. }
  assert (Fr : PyFloat.is_finite (rsi_score m) = true).
  { unfold rsi_score, py_max, PyFloat.gtb.
    destruct (RSI m) as [q| | |]; try discriminate.
    cbn [PyFloat.sub PyFloat.add PyFloat.neg PyFloat.abs].
    rewrite div_Fin by lra. cbn [PyFloat.add PyFloat.neg].
    match goal with
    | |- context [py_min ?x ?c] =>
        pose proof (py_min_finite x 10 eq_refl) as Hmin;
        destruct (py_min x c); try discriminate
    end.
    destruct (_ <? _)%F; reflexivity. }
  assert (Fs : PyFloat.is_finite (sma_score m) = true).
  { unfold sma_score. apply py_min_finite.
    destruct (Price_vs_SMA20 m), (Price_vs_SMA50 m); try discriminate.
    cbn [PyFloat.add]. now rewrite !div_Fin by lra. }
  unfold score_of.
  destruct (volume_score m), (change_score m), (rsi_score m), (sma_score m);
    try discriminate; reflexivity.
Qed.

(** ** [sorted(..., reverse=True)] *)

Section SortedFacts.
Variable A : Type.
Variable key : A -> pyfloat.

Let ge (a b : A) : Prop := (key b <=? key a)%F = true.

Lemma insert_desc_perm (x : A) (l : list A) :
  Permutation (insert_desc key x l) (x :: l).
Proof.
  induction l as [|y l IH]; cbn; [reflexivity|].
  destruct (key x <? key y)%F; [|reflexivity].
  rewrite IH. apply perm_swap.
Qed.

Lemma sorted_reverse_perm (l : list A) : Permutation (sorted_reverse key l) l.
Proof.
  induction l as [|x l IH]; cbn; [reflexivity|].
  rewrite insert_desc_perm. now constructor.
Qed.

Lemma insert_desc_sorted (x : A) (l : list A) :
  PyFloat.is_nan (key x) = false ->
  Forall (fun y => PyFloat.is_nan (key y) = false) l ->
  StronglySorted ge l -> StronglySorted ge (insert_desc key x l).
Proof.
  intros Hx Hl Hs. induction Hs as [|y l Hs IH Hy]; cbn.
  - repeat constructor.
  - inversion Hl as [|? ? Hny Hnl]; subst.
    destruct (key x <? key y)%F eqn:E.
    + constructor; [apply IH, Hnl|].
      eapply Permutation_Forall; [symmetry; apply insert_desc_perm|].
      constructor; [apply ltb_leb, E | exact Hy].
    + assert (Hxy : ge x y) by (apply not_ltb_leb; assumption).
      constructor; [constructor; assumption|].
      constructor; [exact Hxy|].
      eapply Forall_impl; [|exact Hy].
      intros z Hz. unfold ge in *. eapply leb_trans; eassumption.
Qed.

Lemma sorted_reverse_sorted (l : list A) :
  Forall (fun y => PyFloat.is_nan (key y) = false) l ->
  StronglySorted ge (sorted_reverse key l).
Proof.
  induction 1 as [|x l Hx Hl IH]; cbn; [constructor|].
  apply insert_desc_sorted; [exact Hx| |exact IH].
  eapply Permutation_Forall; [symmetry; apply sorted_reverse_perm | exact Hl].
Qed.

(** Stability: the entries with one key value keep their order. *)
Lemma insert_desc_stable (v : pyfloat) (x : A) (l : list A) :
  filter (fun e => PyFloat.eqb (key e) v) (insert_desc key x l) =
  filter (fun e => PyFloat.eqb (key e) v) (x :: l).
Proof.
  induction l as [|y l IH]; [reflexivity|].
  cbn [insert_desc]. destruct (key x <? key y)%F eqn:E; [|reflexivity].
  cbn [filter] in *. rewrite IH.
  destruct (PyFloat.eqb (key x) v) eqn:Ex, (PyFloat.eqb (key y) v) eqn:Ey;
    try reflexivity.
  rewrite (eqb_not_ltb _ _ _ Ex Ey) in E. discriminate.
Qed.

Lemma sorted_reverse_stable (v : pyfloat) (l : list A) :
  filter (fun e => PyFloat.eqb (key e) v) (sorted_reverse key l) =
  filter (fun e => PyFloat.eqb (key e) v) l.
Proof.
  induction l as [|x l IH]; [reflexivity|].
  cbn [sorted_reverse fold_right]. rewrite insert_desc_stable.
  cbn [filter]. fold (sorted_reverse key l). rewrite IH. reflexivity.
Qed.
End SortedFacts.

Lemma StronglySorted_app_inv {A : Type} (R : A -> A -> Prop) (l1 l2 : list A) :
  StronglySorted R (l1 ++ l2) ->
  forall a b, In a l1 -> In b l2 -> R a b.
Proof.
  induction l1 as [|x l1 IH]; cbn; intros Hs a b Ha Hb; [contradiction|].
  inversion Hs as [|? ? Hs' Hx]; subst.
  destruct Ha as [<-|Ha].
  - rewrite Forall_forall in Hx. apply Hx, in_or_app. now right.
  - eapply IH; eassumption.
Qed.

(** ** Dictionaries *)

Lemma dict_set_fresh {V : Type} (d : dict V) (k : string) (v : V) :
  ~ In k (keys d) -> dict_set d k v = d ++ [(k, v)].
Proof.
  induction d as [|[k' v'] d IH]; cbn; intros H; [reflexivity|].
  destruct (String.eqb_spec k k') as [->|Hne]; [tauto|].
  rewrite IH by tauto. reflexivity.
Qed.

Lemma keys_dict_set {V : Type} (d : dict V) (k : string) (v : V) (x : string) :
  In x (keys (dict_set d k v)) <-> x = k \/ In x (keys d).
Proof.
  induction d as [|[k' v'] d IH]; cbn.
  - intuition congruence.
  - destruct (String.eqb_spec k k') as [->|Hne]; cbn.
    + intuition congruence.
    + rewrite IH. intuition congruence.
Qed.

Lemma NoDup_keys_dict_set {V : Type} (d : dict V) (k : string) (v : V) :
  NoDup (keys d) -> NoDup (keys (dict_set d k v)).
Proof.
  induction d as [|[k' v'] d IH]; cbn; intros H.
  - repeat constructor. intros [].
  - inversion H as [|? ? Hk' Hd]; subst.
    destruct (String.eqb_spec k k') as [->|Hne]; cbn.
    + constructor; assumption.
    + constructor; [|apply IH, Hd].
      intros Hin. apply keys_dict_set in Hin. destruct Hin as [->|Hin]; tauto.
Qed.

Lemma score_loop_fresh (items : list (string * MetricRecord)) :
  forall scores,
    NoDup (keys scores ++ keys items) ->
    score_loop scores items = scores ++ scores_of items.
Proof.
  induction items as [|[s m] items IH]; intros scores H; cbn.
  - now rewrite app_nil_r.
  - assert (Hs : ~ In s (keys scores)).
    { intros Hin. apply NoDup_remove_2 in H. apply H, in_or_app. now left. }
    rewrite dict_set_fresh by exact Hs.
    rewrite IH.
    + rewrite <- app_assoc. reflexivity.
    + unfold keys in *. rewrite map_app, <- app_assoc. exact H.
  Qed.

Lemma slice_to_firstn {A : Type} (l : list A) (n : Z) :
  (0 <= n)%Z ->
  slice_to l n = firstn (Nat.min (Z.to_nat n) (length l)) l.
Proof.
  intros Hn. unfold slice_to.
  rewrite (proj2 (Z.ltb_ge n 0)) by lia.
  destruct (Nat.le_ge_cases (Z.to_nat n) (length l)) as [H|H].
  - now rewrite Nat.min_l.
  - rewrite Nat.min_r by exact H. rewrite firstn_all. now apply firstn_all2.
Qed.

(** ** Business days *)

Lemma rollforward_spec (d : Z) :
  (d <= rollforward d)%Z /\
  is_business_day (rollforward d) = true /\
  (forall x, (d <= x < rollforward d)%Z -> is_business_day x = false).
Proof.
  unfold rollforward, is_business_day, weekday.
  destruct (Z.eqb_spec ((d + 3) mod 7) 5) as [E5|N5];
    [|destruct (Z.eqb_spec ((d + 3) mod 7) 6) as [E6|N6]].
  - split; [lia|]. split.
    + apply Z.ltb_lt. Z.div_mod_to_equations. lia.
    + intros x Hx. apply Z.ltb_ge. Z.div_mod_to_equations. lia.
  - split; [lia|]. split.
    + apply Z.ltb_lt. Z.div_mod_to_equations. lia.
    + intros x Hx. apply Z.ltb_ge. Z.div_mod_to_equations. lia.
  - split; [lia|]. split.
    + apply Z.ltb_lt. Z.div_mod_to_equations. lia.
    + intros x Hx. lia.
Qed.

Lemma date_range_B_spec (periods : nat) :
  forall start,
    let dates := date_range_B start periods in
    length dates = periods /\
    Forall (fun d => (start <= d)%Z /\ is_business_day d = true) dates /\
    StronglySorted Z.lt dates /\
    (forall x d, In x dates -> (start <= d <= x)%Z ->
                 is_business_day d = true -> In d dates).
Proof.
  induction periods as [|n IH]; intros start; cbn [date_range_B].
  - repeat split; try constructor. intros x d [].
  - destruct (rollforward_spec start) as (Hge & Hb & Hleast).
    destruct (IH (rollforward start + 1)%Z) as (Hlen & Hall & Hsort & Hgap).
    cbn zeta. set (rest := date_range_B (rollforward start + 1) n) in *.
    repeat split.
    + cbn. now rewrite Hlen.
    + constructor; [split; [lia | exact Hb]|].
      eapply Forall_impl; [|exact Hall]. cbn. intros d [H1 H2]. split; [lia | exact H2].
    + constructor; [exact Hsort|].
      eapply Forall_impl; [|exact Hall]. cbn. intros d [H1 _]. lia.
    + intros x d Hx Hd Hbd.
      destruct (Z.eq_dec d (rollforward start)) as [->|Hne]; [now left|].
      right.
      assert (Hlt : (rollforward start < d)%Z).
      { destruct (Z.lt_ge_cases d (rollforward start)) as [Hlt|Hlt]; [|lia].
        rewrite Hleast in Hbd by lia. discriminate. }
      destruct Hx as [<-|Hx]; [lia|].
      apply (Hgap x d Hx); [lia | exact Hbd].
Qed.

Lemma map_fst_combine {A B : Type} (l : list A) (m : list B) :
  length l = length m -> map fst (combine l m) = l.
Proof.
  revert m. induction l as [|a l IH]; intros [|b m]; cbn; try discriminate; auto.
  intros [= H]. now rewrite IH.
Qed.

Lemma map_snd_combine {A B : Type} (l : list A) (m : list B) :
  length l = length m -> map snd (combine l m) = m.
Proof.
  revert m. induction l as [|a l IH]; intros [|b m]; cbn; try discriminate; auto.
  intros [= H]. now rewrite IH.
Qed.

(** ** Lookups *)

Lemma dict_find_dict_set {V : Type} (d : dict V) (k : string) (v : V) (s : string) :
  dict_find (dict_set d k v) s =
  if String.eqb s k then Some v else dict_find d s.
Proof.
  induction d as [|[k' v'] d IH]; cbn.
  - reflexivity.
  - destruct (String.eqb_spec k k') as [Hk|Hk]; cbn.
    + destruct (String.eqb_spec s k), (String.eqb_spec s k'); congruence.
    + rewrite IH.
      destruct (String.eqb_spec s k), (String.eqb_spec s k'); congruence.
Qed.

Lemma dict_find_Some_In {V : Type} (d : dict V) (s : string) (v : V) :
  dict_find d s = Some v -> In (s, v) d.
Proof.
  induction d as [|[k' v'] d IH]; cbn; [discriminate|].
  destruct (String.eqb_spec s k') as [->|Hne].
  - intros [= ->]. now left.
  - intros H. right. now apply IH.
Qed.

Lemma dict_find_None {V : Type} (d : dict V) (s : string) :
  dict_find d s = None <-> ~ In s (keys d).
Proof.
  induction d as [|[k' v'] d IH]; cbn; [tauto|].
  destruct (String.eqb_spec s k') as [->|Hne].
  - split; [discriminate | tauto].
  - rewrite IH. intuition congruence.
Qed.

Lemma In_dict_find {V : Type} (d : dict V) (s : string) (v : V) :
  NoDup (keys d) -> In (s, v) d -> dict_find d s = Some v.
Proof.
  induction d as [|[k' v'] d IH]; cbn; intros Hnd Hin; [contradiction|].
  inversion Hnd as [|? ? Hk Hd]; subst.
  destruct Hin as [[= -> ->]|Hin].
  - now rewrite String.eqb_refl.
  - destruct (String.eqb_spec s k') as [->|Hne]; [|now apply IH].
    exfalso. apply Hk. change k' with (fst (k', v)). now apply in_map.
Qed.

Lemma In_keys {V : Type} (d : dict V) (s : string) (v : V) :
  In (s, v) d -> In s (keys d).
Proof. intros H. change s with (fst (s, v)). now apply in_map. Qed.

(** ** [fetch_stock_data] *)

Section FetchFacts.
Variable history : string -> result DataFrame.

Lemma fetch_NoDup (symbols : list string) :
  forall data, NoDup (keys data) ->
               NoDup (keys (fetch_stock_data_from history data symbols)).
Proof.
  induction symbols as [|s symbols IH]; intros data H; cbn; [exact H|].
  destruct (history s) as [hist|e]; [|now apply IH].
  destruct (empty hist); cbn; [now apply IH|].
  apply IH, NoDup_keys_dict_set, H.
Qed.

(** Every frame of the result is the provider's answer for its symbol,
    and is not empty. *)
Lemma fetch_sound (symbols : list string) (s : string) (df : DataFrame) :
  forall data,
    dict_find (fetch_stock_data_from history data symbols) s = Some df ->
    dict_find data s = Some df \/
    (In s symbols /\ history s = Ok df /\ empty df = false).
Proof.
  induction symbols as [|k symbols IH]; intros data H; cbn in H; [now left|].
  destruct (history k) as [hist|e] eqn:Ek.
  - destruct (empty hist) eqn:Ee; cbn in H.
    + destruct (IH _ H) as [H'|(H1 & H2)]; [now left | right; cbn; tauto].
    + destruct (IH _ H) as [H'|(H1 & H2)]; [|right; cbn; tauto].
      rewrite dict_find_dict_set in H'.
      destruct (String.eqb_spec s k) as [->|Hne]; [|now left].
      injection H' as <-. right. cbn. tauto.
  - destruct (IH _ H) as [H'|(H1 & H2)]; [now left | right; cbn; tauto].
Qed.

Lemma fetch_keeps (symbols : list string) (s : string) (df : DataFrame) :
  history s = Ok df ->
  forall data,
    dict_find data s = Some df ->
    dict_find (fetch_stock_data_from history data symbols) s = Some df.
Proof.
  intros Hs. induction symbols as [|k symbols IH]; intros data H; cbn; [exact H|].
  destruct (history k) as [hist|e] eqn:Ek; [|now apply IH].
  destruct (empty hist); cbn; [now apply IH|].
  apply IH. rewrite dict_find_dict_set.
  destruct (String.eqb_spec s k) as [->|Hne]; [congruence | exact H].
Qed.

Lemma fetch_complete (symbols : list string) (s : string) (df : DataFrame) :
  In s symbols -> history s = Ok df -> empty df = false ->
  forall data,
    dict_find (fetch_stock_data_from history data symbols) s = Some df.
Proof.
  intros Hin Hs He.
  induction symbols as [|k symbols IH]; intros data; [contradiction|].
  cbn. destruct Hin as [->|Hin].
  - rewrite Hs, He. cbn. apply fetch_keeps; [exact Hs|].
    rewrite dict_find_dict_set, String.eqb_refl. reflexivity.
  - destruct (history k) as [hist|e]; [|now apply IH].
    destruct (empty hist); cbn; now apply IH.
Qed.
End FetchFacts.

(** ** [calculate_metrics] *)

Section CalculateMetricsFacts.
Variable np_sqrt : Q -> Q.

Lemma calculate_metrics_loop_inv (symbol : string) (data : DataFrame)
    (rest : list (string * DataFrame)) (metrics metrics' : dict MetricRecord)
    (items' : list (string * DataFrame)) :
  calculate_metrics_loop np_sqrt metrics ((symbol, data) :: rest) =
    Ok (metrics', items') ->
  exists rest',
    ((len (rows data) < 5)%Z /\
     items' = (symbol, data) :: rest' /\
     calculate_metrics_loop np_sqrt metrics rest = Ok (metrics', rest')) \/
    ((5 <= len (rows data))%Z /\
     exists m data',
       symbol_metrics np_sqrt data = Ok (m, data') /\
       items' = (symbol, data') :: rest' /\
       calculate_metrics_loop np_sqrt (dict_set metrics symbol m) rest =
         Ok (metrics', rest')).
Proof.
  cbn [calculate_metrics_loop]. intros H.
  destruct (Z.ltb_spec (len (rows data)) 5) as [Hlt|Hge].
  - inv_bind H. destruct a as [m1 r1]. injection H as <- <-.
    exists r1. left. auto.
  - inv_bind H. destruct a as [m d']. inv_bind H. destruct a as [m1 r1].
    injection H as <- <-. exists r1. right. split; [exact Hge|].
    exists m, d'. auto.
Qed.

(** The frames after the run: nothing but the [Returns] column of the
    frames of at least 5 rows has changed. *)
Lemma calculate_metrics_loop_frames (items : list (string * DataFrame)) :
  forall metrics metrics' items',
    calculate_metrics_loop np_sqrt metrics items = Ok (metrics', items') ->
    Forall2 frame_effect items items'.
Proof.
  induction items as [|[symbol data] rest IH]; intros metrics metrics' items' H.
  - cbn in H. injection H as <- <-. constructor.
  - apply calculate_metrics_loop_inv in H.
    destruct H as (rest' & [(Hlt & -> & H)|(Hge & m & data' & Hm & -> & H)]).
    + constructor; [|eapply IH, H].
      unfold frame_effect. cbn. repeat split; auto. lia.
    + constructor; [|eapply IH, H].
      apply symbol_metrics_inv in Hm.
      destruct Hm as (? & ? & ? & ? & ? & _ & _ & _ & _ & _ & -> & _).
      unfold frame_effect. cbn. repeat split; auto. lia.
Qed.

(** The keys of the metrics: those given, and the symbols of the frames
    of at least 5 rows. *)
Lemma calculate_metrics_loop_keys (items : list (string * DataFrame)) :
  forall metrics metrics' items',
    calculate_metrics_loop np_sqrt metrics items = Ok (metrics', items') ->
    forall s, In s (keys metrics') <->
              In s (keys metrics) \/
              exists data, In (s, data) items /\ (5 <= len (rows data))%Z.
Proof.
  induction items as [|[symbol data] rest IH]; intros metrics metrics' items' H s.
  - cbn in H. injection H as <- <-. cbn. split; [tauto|].
    intros [H|(d & [] & _)]. exact H.
  - apply calculate_metrics_loop_inv in H.
    destruct H as (rest' & [(Hlt & -> & H)|(Hge & m & data' & Hm & -> & H)]).
    + rewrite (IH _ _ _ H s). cbn. split.
      * intros [H1|(d & H1 & H2)]; [now left | right; eauto].
      * intros [H1|(d & [[= <- <-]|H1] & H2)]; [now left | lia | right; eauto].
    + rewrite (IH _ _ _ H s), keys_dict_set. cbn. split.
      * intros [[->|H1]|(d & H1 & H2)]; [right; eauto | now left | right; eauto].
      * intros [H1|(d & [[= <- <-]|H1] & H2)]; [tauto | tauto | right; eauto].
Qed.

Lemma calculate_metrics_loop_NoDup (items : list (string * DataFrame)) :
  forall metrics metrics' items',
    calculate_metrics_loop np_sqrt metrics items = Ok (metrics', items') ->
    NoDup (keys metrics) -> NoDup (keys metrics').
Proof.
  induction items as [|[symbol data] rest IH]; intros metrics metrics' items' H Hnd.
  - cbn in H. now injection H as <- <-.
  - apply calculate_metrics_loop_inv in H.
    destruct H as (rest' & [(Hlt & -> & H)|(Hge & m & data' & Hm & -> & H)]).
    + eapply IH; eassumption.
    + eapply IH; [eassumption|]. now apply NoDup_keys_dict_set.
Qed.

(** A symbol that the items do not hold keeps its record. *)
Lemma calculate_metrics_loop_other (items : list (string * DataFrame)) :
  forall metrics metrics' items',
    calculate_metrics_loop np_sqrt metrics items = Ok (metrics', items') ->
    forall s, ~ In s (keys items) -> dict_find metrics' s = dict_find metrics s.
Proof.
  induction items as [|[symbol data] rest IH]; intros metrics metrics' items' H s Hs.
  - cbn in H. now injection H as <- <-.
  - cbn in Hs. apply calculate_metrics_loop_inv in H.
    destruct H as (rest' & [(Hlt & -> & H)|(Hge & m & data' & Hm & -> & H)]).
    + eapply IH; [eassumption | tauto].
    + rewrite (IH _ _ _ H s) by tauto. rewrite dict_find_dict_set.
      destruct (String.eqb_spec s symbol) as [->|Hne]; [tauto | reflexivity].
Qed.

(** The record of a symbol is the record of its own frame. *)
Lemma calculate_metrics_loop_record (items : list (string * DataFrame)) :
  NoDup (keys items) ->
  forall metrics metrics' items',
    calculate_metrics_loop np_sqrt metrics items = Ok (metrics', items') ->
    forall s data,
      In (s, data) items -> (5 <= len (rows data))%Z ->
      exists m data',
        symbol_metrics np_sqrt data = Ok (m, data') /\
        dict_find metrics' s = Some m.
Proof.
  induction items as [|[symbol d] rest IH];
    intros Hnd metrics metrics' items' H s data Hin Hlen; [contradiction|].
  cbn in Hnd. inversion Hnd as [|? ? Hfresh Hnd']; subst.
  apply calculate_metrics_loop_inv in H.
  destruct H as (rest' & [(Hlt & -> & H)|(Hge & m & data' & Hm & -> & H)]).
  - destruct Hin as [[= -> ->]|Hin]; [lia|]. eapply IH; eassumption.
  - destruct Hin as [[= -> ->]|Hin]; [|eapply IH; eassumption].
    exists m, data'. split; [exact Hm|].
    rewrite (calculate_metrics_loop_other _ _ _ _ H s Hfresh).
    rewrite dict_find_dict_set, String.eqb_refl. reflexivity.
Qed.
End CalculateMetricsFacts.

(** ** [predict_stocks] and the report *)

Lemma In_slice_to {A : Type} (l : list A) (n : Z) (x : A) :
  In x (slice_to l n) -> In x l.
Proof. unfold slice_to. destruct (n <? 0)%Z; apply In_firstn. Qed.

Lemma score_loop_In (items : list (string * MetricRecord)) :
  forall scores s sc,
    In (s, sc) (score_loop scores items) ->
    In (s, sc) scores \/ exists m, In (s, m) items /\ sc = score_of m.
Proof.
  induction items as [|[k m] items IH]; intros scores s sc H; cbn in H; [now left|].
  destruct (IH _ _ _ H) as [H'|(m' & H1 & H2)]; [|right; exists m'; cbn; tauto].
  assert (Hset : forall d : dict pyfloat,
             In (s, sc) (dict_set d k (score_of m)) ->
             In (s, sc) d \/ (s, sc) = (k, score_of m)).
  { induction d as [|[k' v'] d IHd]; cbn.
    - intuition congruence.
    - destruct (String.eqb k k'); cbn; [intuition congruence|].
      intros [E|Hin]; [tauto|]. destruct (IHd Hin); tauto. }
  destruct (Hset _ H') as [Hin|[= -> ->]]; [now left|].
  right. exists m. cbn. tauto.
Qed.

Lemma predict_stocks_In (metrics : dict MetricRecord) (top_n : Z) (s : string)
    (sc : pyfloat) :
  In (s, sc) (predict_stocks metrics top_n) ->
  exists m, In (s, m) metrics /\ sc = score_of m.
Proof.
  unfold predict_stocks. destruct metrics as [|e metrics'] eqn:E; [contradiction|].
  rewrite <- E. clear E. intros H. apply In_slice_to in H.
  apply (Permutation_in _ (sorted_reverse_perm _ _ _)) in H.
  apply score_loop_In in H. destruct H as [[]|H]. exact H.
Qed.

Lemma report_rows_total (metrics : dict MetricRecord)
    (predictions : list (string * pyfloat)) :
  (forall s sc, In (s, sc) predictions -> In s (keys metrics)) ->
  exists report, report_rows metrics predictions = Ok report.
Proof.
  induction predictions as [|[s sc] rest IH]; intros H; cbn.
  - eauto.
  - unfold dict_get. destruct (dict_find metrics s) as [m|] eqn:E.
    + cbn. destruct IH as (r & ->); [intros; eapply H; right; eassumption|].
      cbn. eauto.
    + apply dict_find_None in E. exfalso. apply E. eapply H. now left.
Qed.

Section MainFacts.
Variable history : string -> result DataFrame.
Variable np_sqrt : Q -> Q.

(** A run of [main] raises nothing. *)
Lemma main_with_total (symbols : list string) (top_n : Z) :
  exists metrics stock_data',
    calculate_metrics np_sqrt (fetch_stock_data history symbols) =
      Ok (metrics, stock_data') /\
    ((fetch_stock_data history symbols = [] /\
      main_with history np_sqrt symbols top_n = Ok NoStockData) \/
     (fetch_stock_data history symbols <> [] /\ metrics = [] /\
      main_with history np_sqrt symbols top_n = Ok NoMetrics) \/
     (metrics <> [] /\
      exists report,
        main_with history np_sqrt symbols top_n =
          Ok (Completed stock_data' metrics
                (sorted_reverse (fun x => Change_Pct (snd x)) metrics)
                (predict_stocks metrics top_n) report))).
Proof.
  destruct (calculate_metrics_loop_total np_sqrt (fetch_stock_data history symbols) [])
    as (metrics & stock_data' & Hcalc).
  exists metrics, stock_data'. split; [exact Hcalc|].
  unfold main_with.
  destruct (fetch_stock_data history symbols) as [|item items] eqn:Ef; [now left|].
  right. unfold calculate_metrics. rewrite Hcalc. cbn [bind].
  destruct metrics as [|e metrics'] eqn:Em.
  - left. repeat split; congruence.
  - right. split; [congruence|]. rewrite <- Em.
    destruct (report_rows_total metrics (predict_stocks metrics top_n)) as (r & ->).
    + intros s sc Hin. apply predict_stocks_In in Hin.
      destruct Hin as (m & Hin & _). eapply In_keys, Hin.
    + cbn. eauto.
Qed.
End MainFacts.

(* ================================================================== *)
(** * The claims *)

Section MetricClaims.
Variable np_sqrt : Q -> Q.

(** C1.  For a series of at least 30 bars the change percentage is
    [(close[-1] - close[-30]) / close[-30] * 100]; for a series of at
    least 5 and fewer than 30 bars it is
    [(close[-1] - close[0]) / close[0] * 100]. *)
Theorem change_pct_formula (data : DataFrame) :
  let close := column Close data in
  let n := length (rows data) in
  5 <= n ->
  exists m data' last base,
    symbol_metrics np_sqrt data = Ok (m, data') /\
    nth_error close (n - 1) = Some last /\
    nth_error close (if 30 <=? n then n - 30 else 0) = Some base /\
    Change_Pct m = ((last - base) / base * Fin 100)%F.
Proof.
  intros close n Hn.
  destruct (symbol_metrics_total np_sqrt data) as (m & Hm).
  { intros E. subst n. rewrite E in Hn. cbn in Hn. lia. }
  destruct (symbol_metrics_inv _ _ _ _ Hm)
    as (last & base & s20 & s50 & r & Hlast & Hbase & _ & _ & _ & _ & ->).
  fold close in Hlast, Hbase.
  assert (Hc : length close = n) by apply column_length.
  eexists _, _, last, base. split; [exact Hm|].
  destruct (iloc_last close) as (a & Ha & Ha'); [lia|].
  rewrite Hlast in Ha'. injection Ha' as <-. rewrite Hc in Ha.
  split; [exact Ha|]. split; [|reflexivity].
  unfold len in Hbase. fold n in Hbase.
  destruct (Nat.leb_spec 30 n) as [H30|H30].
  - rewrite (proj2 (geb_true_ge _ _)) in Hbase by lia.
    destruct (iloc_from_end close 30) as (b & Hb & Hb'); [lia|].
    change (- Z.of_nat 30)%Z with (-30)%Z in Hb'.
    rewrite Hbase in Hb'. injection Hb' as <-. now rewrite Hc in Hb.
  - rewrite (proj2 (geb_false_lt _ _)) in Hbase by lia.
    destruct (iloc_first close) as (b & Hb & Hb'); [lia|].
    rewrite Hbase in Hb'. now injection Hb' as <-.
Qed.

(** C3.  The relative strength index of a record is a number between 0
    and 100, and it is exactly 50 when the last ratio of average gain to
    average loss is undefined. *)
Theorem rsi_in_range (data : DataFrame) :
  let close := column Close data in
  let n := length (rows data) in
  5 <= n ->
  exists m data' ratio,
    symbol_metrics np_sqrt data = Ok (m, data') /\
    percent (RSI m) /\
    nth_error (rs close) (n - 1) = Some ratio /\
    (PyFloat.is_nan ratio = true -> RSI m = Fin 50).
Proof.
  intros close n Hn.
  destruct (symbol_metrics_total np_sqrt data) as (m & Hm).
  { intros E. subst n. rewrite E in Hn. cbn in Hn. lia. }
  destruct (symbol_metrics_inv _ _ _ _ Hm)
    as (last & base & s20 & s50 & r & _ & _ & _ & _ & Hr & _ & ->).
  fold close in Hr.
  assert (Hc : length close = n) by apply column_length.
  destruct (current_rsi_range close r) as (ratio & Hratio & Hpercent & Hnan);
    [lia | exact Hr|].
  eexists _, _, ratio. split; [exact Hm|]. cbn [RSI].
  split; [exact Hpercent|]. split; [now rewrite <- Hc|].
  intros E. rewrite (Hnan E). reflexivity.
Qed.

(** Where the record is finite.  For a time series of at least 5 bars
    every field of the record but the volume trend is a finite number; the
    volume trend is a finite number when the average volume is not zero,
    and [NaN] when it is zero. *)
Theorem record_finite_but_volume_trend (data : DataFrame) :
  TimeSeries data ->
  5 <= length (rows data) ->
  exists m data',
    symbol_metrics np_sqrt data = Ok (m, data') /\
    PyFloat.is_finite (Current_Price m) = true /\
    PyFloat.is_finite (Change_Pct m) = true /\
    PyFloat.is_finite (Avg_Volume m) = true /\
    PyFloat.is_finite (Recent_Volume m) = true /\
    PyFloat.is_finite (Volatility m) = true /\
    PyFloat.is_finite (SMA_20 m) = true /\
    PyFloat.is_finite (SMA_50 m) = true /\
    percent (RSI m) /\
    PyFloat.is_finite (Price_vs_SMA20 m) = true /\
    PyFloat.is_finite (Price_vs_SMA50 m) = true /\
    (if PyFloat.eqb (Avg_Volume m) (Fin 0)
     then Volume_Trend m = NaN
     else PyFloat.is_finite (Volume_Trend m) = true).
Proof.
  intros Hts Hn.
  destruct (TimeSeries_columns data Hts) as (cs & vs & Ec & Ev & Hcs & Hvs & Lc & Lv).
  destruct (symbol_metrics_total np_sqrt data) as (m & Hm).
  { intros E. rewrite E in Hn. cbn in Hn. lia. }
  destruct (symbol_metrics_inv _ _ _ _ Hm)
    as (last & base & s20 & s50 & r & Hlast & Hbase & H20 & H50 & Hr & _ & ->).
  eexists _, _. split; [exact Hm|]. clear Hm. cbn [Current_Price Change_Pct Avg_Volume
    Recent_Volume Volume_Trend Volatility SMA_20 SMA_50 RSI Price_vs_SMA20
    Price_vs_SMA50].
  assert (Hlen : len (rows data) = len cs) by (unfold len; now rewrite Lc).
  rewrite Hlen in H20, H50. rewrite Ec in *. rewrite Ev.
  apply iloc_In, (In_map_Fin_pos cs _ Hcs) in Hlast. destruct Hlast as (c & -> & Hc).
  apply iloc_In, (In_map_Fin_pos cs _ Hcs) in Hbase. destruct Hbase as (b & -> & Hb).
  apply (sma_Fin 20 cs) in H20; [|lia | exact Hcs | eauto].
  apply (sma_Fin 50 cs) in H50; [|lia | exact Hcs | eauto].
  destruct H20 as (q20 & -> & Hq20). destruct H50 as (q50 & -> & Hq50).
  destruct (volume_trend_Fin vs) as (a & Ha & Ha0 & Htrend); [lia | exact Hvs|].
  cbv zeta in Htrend. rewrite Ha in *.
  assert (Hrecent : PyFloat.is_finite (mean (tail 5 (map PyFloat.Fin vs))) = true).
  { rewrite tail_Fin, mean_Fin; [reflexivity|].
    intros E. apply (f_equal (@length Q)) in E. rewrite length_skipn in E.
    cbn in E. lia. }
  assert (Hvol : PyFloat.is_finite
            (std np_sqrt (pct_change (map PyFloat.Fin cs)) *
             sqrt np_sqrt (Fin 252) * Fin 100)%F = true).
  { destruct cs as [|c0 cs']; [cbn in Lc; lia|].
    destruct (pct_change_Fin c0 cs' Hcs) as (rs & -> & Lrs).
    destruct (var_Fin rs) as (q & Hq & Hq0); [cbn in Lc; lia|].
    unfold std. rewrite Hq. unfold sqrt.
    rewrite (proj2 (Qltb_ge q 0) Hq0).
    change (PyFloat.Qltb 252 0) with false. reflexivity. }
  assert (H1 : 1 <= length (map PyFloat.Fin cs)) by (rewrite length_map; lia).
  destruct (current_rsi_range _ r H1 Hr) as (ratio & _ & Hpercent & _).
  repeat split; try reflexivity; try assumption; apply pct_Fin; assumption.
Qed.

(** C8, as amended.  [calculate_metrics] keeps the keys and the rows of
    every fetched frame; it leaves a frame of fewer than 5 rows as it is
    and stores the [Returns] column in every other frame. *)
Theorem calculate_metrics_frame_effect (stock_data : dict DataFrame) :
  exists metrics stock_data',
    calculate_metrics np_sqrt stock_data = Ok (metrics, stock_data') /\
    Forall2 frame_effect stock_data stock_data'.
Proof.
  destruct (calculate_metrics_loop_total np_sqrt stock_data [])
    as (metrics & stock_data' & H).
  exists metrics, stock_data'. split; [exact H|].
  eapply calculate_metrics_loop_frames, H.
Qed.

(** C10, as amended.  For a series of at least 5 and fewer than 14 bars
    the relative strength index is exactly the fallback value 50, because
    the 14-period rolling means of gains and losses are undefined at every
    position of the series. *)
Theorem rsi_fallback_below_14 (data : DataFrame) :
  5 <= length (rows data) < 14 ->
  exists m data',
    symbol_metrics np_sqrt data = Ok (m, data') /\
    RSI m = Fin 50 /\
    Forall (fun x => x = NaN) (gain (column Close data)) /\
    Forall (fun x => x = NaN) (loss (column Close data)).
Proof.
  intros Hn. set (close := column Close data).
  destruct (symbol_metrics_total np_sqrt data) as (m & Hm).
  { intros E. rewrite E in Hn. cbn in Hn. lia. }
  destruct (symbol_metrics_inv _ _ _ _ Hm)
    as (last & base & s20 & s50 & r & _ & _ & _ & _ & Hr & _ & ->).
  fold close in Hr.
  assert (Hc : length close = length (rows data)) by apply column_length.
  assert (Hgain : Forall (fun x => x = NaN) (gain close)).
  { apply rolling_mean_all_short.
    unfold where_, delta. rewrite length_map, diff_length. lia. }
  assert (Hloss : Forall (fun x => x = NaN) (loss close)).
  { apply rolling_mean_all_short.
    unfold series_neg, where_, delta. rewrite !length_map, diff_length. lia. }
  destruct (rsi_nth close (length close - 1)) as (g & l & Hg & Hl & _ & Hrsi); [lia|].
  destruct (iloc_last (rsi close)) as (a & Ha & Ha'); [rewrite rsi_length; lia|].
  rewrite Hr in Ha'. injection Ha' as <-.
  rewrite rsi_length, Hrsi in Ha.
  assert (Hv : r = (Fin 100 - Fin 100 / (Fin 1 + g / l))%F) by congruence.
  rewrite (nth_error_Forall _ _ _ _ Hgain Hg) in Hv.
  eexists _, _. split; [exact Hm|]. cbn [RSI]. rewrite Hv.
  repeat split; assumption.
Qed.
End MetricClaims.

(** C2.  The RSI sub-score lies between 0 and 10.  The volume, momentum
    and trend sub-scores never exceed 10 and are at most 10 when their
    input is a number; below the cap they are the quotient itself, and
    they fall below every bound.  A volume trend of 1000 gives the volume
    sub-score 10.  The score is the weighted sum of the four sub-scores,
    with no clamp. *)
Theorem sub_scores_bounded (m : MetricRecord) :
  ((Fin 0 <=? rsi_score m)%F = true /\ (rsi_score m <=? Fin 10)%F = true) /\
  ((Fin 10 <? volume_score m)%F = false /\
   (Fin 10 <? change_score m)%F = false /\
   (Fin 10 <? sma_score m)%F = false) /\
  (PyFloat.is_nan (Volume_Trend m) = false ->
   (volume_score m <=? Fin 10)%F = true) /\
  (PyFloat.is_nan (Change_Pct m) = false ->
   (change_score m <=? Fin 10)%F = true) /\
  (PyFloat.is_nan (Price_vs_SMA20 m + Price_vs_SMA50 m)%F = false ->
   (sma_score m <=? Fin 10)%F = true) /\
  ((Volume_Trend m / Fin 10 <=? Fin 10)%F = true ->
   volume_score m = (Volume_Trend m / Fin 10)%F) /\
  ((Change_Pct m / Fin 5 <=? Fin 10)%F = true ->
   change_score m = (Change_Pct m / Fin 5)%F) /\
  (((Price_vs_SMA20 m + Price_vs_SMA50 m) / Fin 2 / Fin 2 <=? Fin 10)%F = true ->
   sma_score m = ((Price_vs_SMA20 m + Price_vs_SMA50 m) / Fin 2 / Fin 2)%F) /\
  (forall b : Q, exists m',
     (volume_score m' <? Fin b)%F = true /\
     (change_score m' <? Fin b)%F = true /\
     (sma_score m' <? Fin b)%F = true) /\
  (PyFloat.eqb (Volume_Trend m) (Fin 1000) = true -> volume_score m = Fin 10) /\
  PyFloat.same (score_of m)
    (volume_score m * Fin (3 # 10) + change_score m * Fin (1 # 4) +
     rsi_score m * Fin (1 # 4) + sma_score m * Fin (1 # 5))%F.
Proof.
  split; [apply clamp_range|].
  split; [repeat split; apply py_min_cap|].
  split.
  { intros H. apply py_min_cap. rewrite div_const_nan by lra. exact H. }
  split.
  { intros H. apply py_min_cap. rewrite div_const_nan by lra. exact H. }
  split.
  { intros H. apply py_min_cap. rewrite !div_const_nan by lra. exact H. }
  split; [apply py_min_below|].
  split; [apply py_min_below|].
  split; [apply py_min_below|].
  split.
  { intros b. eexists. apply (below_any_bound b). }
  split.
  { unfold volume_score, py_min.
    destruct (Volume_Trend m) as [q| | |]; cbn; try discriminate.
    intros H. apply Qeq_bool_iff in H.
    assert (Hq : (10 < q / 10)%Q) by (apply Qlt_shift_div_l; lra).
    apply Qltb_lt in Hq. rewrite Hq. reflexivity. }
  apply score_sum_same.
Qed.

(** C4.  For a mapping whose scores are numbers and any requested count
    [top_n], the result of [predict_stocks] is the slice [[:top_n]] of the
    ranking of the symbols from the best score down, in which symbols with
    the same score keep the order of the mapping: the first
    [min(top_n, number of symbols)] entries for a count that is not
    negative, and all but the last [|top_n|] entries for a negative one.
    So every entry returned scores at least as much as every entry left
    out, and 3 entries are returned from 10 symbols when [top_n] is 3. *)
Theorem top_n_ranking (metrics : dict MetricRecord) (top_n : Z) :
  NoDup (keys metrics) ->
  (forall s m, In (s, m) metrics -> PyFloat.is_nan (score_of m) = false) ->
  let top := predict_stocks metrics top_n in
  exists ranked,
    Permutation ranked (scores_of metrics) /\
    StronglySorted score_ge ranked /\
    (forall v, with_score v ranked = with_score v (scores_of metrics)) /\
    top = slice_to ranked top_n /\
    ((0 <= top_n)%Z ->
     top = firstn (Nat.min (Z.to_nat top_n) (length metrics)) ranked /\
     length top = Nat.min (Z.to_nat top_n) (length metrics)) /\
    ((top_n < 0)%Z ->
     top = firstn (length metrics - Z.to_nat (- top_n)) ranked /\
     length top = length metrics - Z.to_nat (- top_n)) /\
    (forall a b, In a top -> In b (scores_of metrics) -> ~ In b top ->
                 score_ge a b) /\
    (top_n = 3%Z -> length metrics = 10 -> length top = 3).
Proof.
  intros Hnd Hnan top.
  exists (sorted_reverse snd (scores_of metrics)).
  assert (Hperm : Permutation (sorted_reverse snd (scores_of metrics)) (scores_of metrics))
    by apply sorted_reverse_perm.
  assert (Hsorted : StronglySorted score_ge (sorted_reverse snd (scores_of metrics))).
  { apply sorted_reverse_sorted. unfold scores_of. apply Forall_map, Forall_forall.
    intros [s m] Hin. cbn. eapply Hnan, Hin. }
  assert (Hlen : length (sorted_reverse snd (scores_of metrics)) = length metrics).
  { rewrite (Permutation_length Hperm). unfold scores_of. apply length_map. }
  assert (Hslice : top = slice_to (sorted_reverse snd (scores_of metrics)) top_n).
  { subst top. unfold predict_stocks. destruct metrics as [|e metrics'] eqn:Em.
    - cbn. unfold slice_to. now destruct (top_n <? 0)%Z; rewrite firstn_nil.
    - rewrite <- Em in *. now rewrite score_loop_fresh by exact Hnd. }
  assert (Hpos : (0 <= top_n)%Z ->
                 top = firstn (Nat.min (Z.to_nat top_n) (length metrics))
                         (sorted_reverse snd (scores_of metrics))).
  { intros Hn. rewrite Hslice, slice_to_firstn by exact Hn. now rewrite Hlen. }
  assert (Hneg : (top_n < 0)%Z ->
                 top = firstn (length metrics - Z.to_nat (- top_n))
                         (sorted_reverse snd (scores_of metrics))).
  { intros Hn. rewrite Hslice. unfold slice_to, len.
    rewrite (proj2 (Z.ltb_lt _ _) Hn), Hlen. f_equal. lia. }
  assert (Hprefix : exists k, top = firstn k (sorted_reverse snd (scores_of metrics))).
  { destruct (Z.lt_ge_cases top_n 0) as [Hn|Hn]; eexists; [apply Hneg | apply Hpos];
      lia. }
  split; [exact Hperm|]. split; [exact Hsorted|].
  split; [intros v; apply sorted_reverse_stable|].
  split; [exact Hslice|]. split; [|split; [|split]].
  - intros Hn. split; [now apply Hpos|].
    rewrite (Hpos Hn), length_firstn, Hlen. lia.
  - intros Hn. split; [now apply Hneg|].
    rewrite (Hneg Hn), length_firstn, Hlen. lia.
  - intros a b Ha Hb Hnb. destruct Hprefix as (k & Htop).
    set (ranked := sorted_reverse snd (scores_of metrics)) in *.
    apply (StronglySorted_app_inv score_ge (firstn k ranked) (skipn k ranked)).
    + now rewrite firstn_skipn.
    + now rewrite <- Htop.
    + assert (Hin : In b ranked) by (eapply Permutation_in; [symmetry|]; eassumption).
      rewrite <- (firstn_skipn k ranked) in Hin. apply in_app_or in Hin.
      destruct Hin as [Hin|Hin]; [|exact Hin]. rewrite <- Htop in Hin. contradiction.
  - intros -> H10. rewrite (Hpos ltac:(lia)), length_firstn, Hlen, H10. reflexivity.
Qed.

Section ForecastClaims.
Variable fitted : Type.
Variable ExponentialSmoothing_fit : Series -> result fitted.
Variable forecast : fitted -> nat -> Series.

(** C5.  For a frame that is not empty and on which the model is fitted,
    the script ends with 7 pairs of a date and a forecast value; the
    dates increase strictly, none is a Saturday or a Sunday, all lie
    after the last historical day and no business day between that day
    and a forecast date is left out. *)
Theorem forecast_dates (data : DataFrame) (model : fitted) :
  rows data <> [] ->
  ExponentialSmoothing_fit (column Close data) = Ok model ->
  (forall m steps, length (forecast m steps) = steps) ->
  exists out last_bar,
    stock_analysis ExponentialSmoothing_fit forecast data = Ok out /\
    nth_error (rows data) (length (rows data) - 1) = Some last_bar /\
    length out = 7 /\
    map snd out = forecast model 7 /\
    StronglySorted Z.lt (map fst out) /\
    Forall (fun d => is_business_day d = true) (map fst out) /\
    Forall (fun d => (Date last_bar < d)%Z) (map fst out) /\
    (forall x d, In x (map fst out) -> (Date last_bar < d <= x)%Z ->
                 is_business_day d = true -> In d (map fst out)).
Proof.
  intros Hne Hfit Hsteps.
  assert (Hlen : 1 <= length (rows data))
    by (destruct (rows data); [congruence | cbn; lia]).
  destruct (iloc_last (map Date (rows data))) as (last & Hnth & Hiloc).
  { now rewrite length_map. }
  rewrite length_map, nth_error_map in Hnth.
  destruct (nth_error (rows data) (length (rows data) - 1)) as [bar|] eqn:Ebar;
    [|discriminate].
  injection Hnth as <-.
  destruct (date_range_B_spec 7 (Date bar + 1)) as (Hl & Hall & Hsort & Hgap).
  set (dates := date_range_B (Date bar + 1) 7) in *.
  exists (combine dates (forecast model 7)), bar.
  assert (Hsame : length dates = length (forecast model 7))
    by now rewrite Hl, Hsteps.
  rewrite map_fst_combine, map_snd_combine by exact Hsame.
  repeat split.
  - assert (Hemp : empty data = false)
      by (unfold empty; destruct (rows data); congruence).
    unfold stock_analysis. rewrite Hemp, Hfit. cbn [bind]. rewrite Hiloc. cbn [bind].
    fold dates. unfold plot. rewrite Hsame, Nat.eqb_refl. reflexivity.
  - rewrite length_combine, <- Hsame, Hl. reflexivity.
  - exact Hsort.
  - eapply Forall_impl; [|exact Hall]. cbn. tauto.
  - eapply Forall_impl; [|exact Hall]. cbn. intros d [H _]. lia.
  - intros x d Hx Hd Hbd. apply (Hgap x d Hx); [lia | exact Hbd].
Qed.
End ForecastClaims.

Section PipelineClaims.
Variable history : string -> result DataFrame.
Variable np_sqrt : Q -> Q.

(** C6.  A run raises nothing.  A symbol whose fetch raised, or whose
    frame is empty or has fewer than 5 rows, is in neither the metrics
    nor the ranking; the record of every other symbol is the record of
    its own frame, and its score in the ranking is the score of that
    record. *)
Theorem failed_symbols_are_dropped (symbols : list string) (top_n : Z) :
  exists metrics stock_data' outcome,
    calculate_metrics np_sqrt (fetch_stock_data history symbols) =
      Ok (metrics, stock_data') /\
    main_with history np_sqrt symbols top_n = Ok outcome /\
    (forall stock_data'' metrics'' by_change predictions report,
       outcome = Completed stock_data'' metrics'' by_change predictions report ->
       metrics'' = metrics /\ predictions = predict_stocks metrics top_n) /\
    (forall s, unusable history s ->
               ~ In s (keys metrics) /\
               ~ In s (map fst (predict_stocks metrics top_n))) /\
    (forall s data,
       In s symbols -> history s = Ok data -> (5 <= len (rows data))%Z ->
       exists m data',
         symbol_metrics np_sqrt data = Ok (m, data') /\
         dict_find metrics s = Some m /\
         (forall sc, In (s, sc) (predict_stocks metrics top_n) ->
                     sc = score_of m)).
Proof.
  destruct (main_with_total history np_sqrt symbols top_n)
    as (metrics & stock_data' & Hcalc & Hmain).
  assert (Hnd : NoDup (keys (fetch_stock_data history symbols))).
  { apply fetch_NoDup. constructor. }
  assert (Hndm : NoDup (keys metrics)).
  { eapply calculate_metrics_loop_NoDup; [exact Hcalc | constructor]. }
  assert (Hout : exists outcome,
    main_with history np_sqrt symbols top_n = Ok outcome /\
    (forall stock_data'' metrics'' by_change predictions report,
       outcome = Completed stock_data'' metrics'' by_change predictions report ->
       metrics'' = metrics /\ predictions = predict_stocks metrics top_n)).
  { destruct Hmain as [(_ & H)|[(_ & _ & H)|(_ & r & H)]].
    - exists NoStockData. split; [exact H | discriminate].
    - exists NoMetrics. split; [exact H | discriminate].
    - eexists. split; [exact H|]. intros ? ? ? ? ? [= <- <- <- <- <-]. auto. }
  destruct Hout as (outcome & Hrun & Hcompleted).
  assert (Hkeys : forall s, In s (keys metrics) ->
    exists data, history s = Ok data /\ (5 <= len (rows data))%Z).
  { intros s Hs.
    apply (calculate_metrics_loop_keys _ _ _ _ _ Hcalc) in Hs.
    destruct Hs as [[]|(data & Hin & Hlen)].
    exists data. split; [|exact Hlen].
    apply In_dict_find in Hin; [|exact Hnd].
    apply fetch_sound in Hin. destruct Hin as [Hin|(_ & Hh & _)]; [discriminate|].
    exact Hh. }
  exists metrics, stock_data', outcome.
  split; [exact Hcalc|]. split; [exact Hrun|]. split; [exact Hcompleted|]. split.
  - intros s Hbad.
    assert (Hnot : ~ In s (keys metrics)).
    { intros Hs. destruct (Hkeys s Hs) as (data & Hh & Hlen).
      unfold unusable in Hbad. rewrite Hh in Hbad. lia. }
    split; [exact Hnot|].
    intros Hin. apply in_map_iff in Hin. destruct Hin as ([s' sc] & <- & Hin).
    apply predict_stocks_In in Hin. destruct Hin as (m & Hin & _).
    apply Hnot. eapply In_keys, Hin.
  - intros s data Hs Hh Hlen.
    assert (He : empty data = false).
    { unfold empty. destruct (rows data); [cbn in Hlen; lia | reflexivity]. }
    pose proof (fetch_complete history symbols s data Hs Hh He []) as Hfind.
    apply dict_find_Some_In in Hfind.
    destruct (calculate_metrics_loop_record np_sqrt _ Hnd _ _ _ Hcalc s data Hfind Hlen)
      as (m & data' & Hm & Hrec).
    exists m, data'. split; [exact Hm|]. split; [exact Hrec|].
    intros sc Hin. apply predict_stocks_In in Hin.
    destruct Hin as (m' & Hin & ->).
    apply (In_dict_find _ _ _ Hndm) in Hin. congruence.
Qed.

Variable fitted : Type.
Variable ExponentialSmoothing_fit : Series -> result fitted.
Variable forecast : fitted -> nat -> Series.

(** The failures of the forecast script, all of them: it refuses an
    empty frame with a [ValueError] of its own before the model is fitted,
    it passes on the error of a library that cannot fit the model, and the
    plot refuses a forecast that has not 7 values. *)
Lemma stock_analysis_raises (data : DataFrame) (e : exn) :
  stock_analysis ExponentialSmoothing_fit forecast data = Raise e <->
  (rows data = [] /\
   e = ValueError "No data found for the specified period.") \/
  (rows data <> [] /\ ExponentialSmoothing_fit (column Close data) = Raise e) \/
  (rows data <> [] /\
   exists model,
     ExponentialSmoothing_fit (column Close data) = Ok model /\
     length (forecast model 7) <> 7 /\
     e = ValueError "x and y must have same first dimension").
Proof.
  unfold stock_analysis, empty.
  destruct (rows data) as [|bar bars] eqn:E.
  - split.
    + intros [= <-]. left. split; reflexivity.
    + intros [(_ & ->)|[(H & _)|(H & _)]]; [reflexivity | congruence | congruence].
  - rewrite <- E.
    assert (Hne : rows data <> []) by (rewrite E; discriminate).
    destruct (iloc_last (map Date (rows data))) as (d & _ & Hd).
    { rewrite length_map, E. cbn. lia. }
    destruct (date_range_B_spec 7 (d + 1)) as (Hlen & _).
    destruct (ExponentialSmoothing_fit (column Close data)) as [model|e'] eqn:Hfit;
      cbn [bind].
    + rewrite Hd. cbn [bind]. unfold plot. rewrite Hlen.
      destruct (Nat.eqb_spec 7 (length (forecast model 7))) as [H7|H7].
      * split; [discriminate|].
        intros [(H & _)|[(_ & H)|(_ & m & [= <-] & H & _)]];
          [congruence | discriminate | congruence].
      * split.
        -- intros [= <-]. right. right. split; [exact Hne|].
           exists model. repeat split. congruence.
        -- intros [(H & _)|[(_ & H)|(_ & m & _ & _ & ->)]];
             [congruence | discriminate | reflexivity].
    + split.
      * intros [= <-]. right. left. split; [exact Hne | reflexivity].
      * intros [(H & _)|[(_ & [= ->])|(_ & m & H & _)]];
          [congruence | reflexivity | discriminate].
Qed.

(** C9.  Let the library be unable to fit a series of fewer than
    [min_points] points, whatever that number is.  On a frame of fewer
    rows the forecast script fails and gives no forecast: with its own
    [ValueError] (no data found) when the frame is empty, and with the
    error that the library raises otherwise.  The failure stays in the
    script.  The metric and ranking pipeline that is given the same frame
    for one of its symbols returns without an error, and it treats the
    symbol by its own rule: the symbol has its record in the metrics when
    the frame has 5 rows, and is left out when it has fewer. *)
Theorem forecast_failure_is_local (min_points : nat) (data : DataFrame)
    (symbols : list string) (top_n : Z) :
  refuses_below ExponentialSmoothing_fit min_points ->
  length (rows data) < min_points ->
  (exists e,
     stock_analysis ExponentialSmoothing_fit forecast data = Raise e /\
     (rows data = [] ->
      e = ValueError "No data found for the specified period.") /\
     (rows data <> [] ->
      ExponentialSmoothing_fit (column Close data) = Raise e)) /\
  (exists outcome,
     main_with history np_sqrt symbols top_n = Ok outcome /\
     forall s,
       In s symbols -> history s = Ok data ->
       if (len (rows data) <? 5)%Z
       then forall stock_data metrics by_change predictions report,
              outcome = Completed stock_data metrics by_change predictions report ->
              ~ In s (keys metrics)
       else exists stock_data metrics by_change predictions report m data',
              outcome = Completed stock_data metrics by_change predictions report /\
              symbol_metrics np_sqrt data = Ok (m, data') /\
              dict_find metrics s = Some m).
Proof.
  intros Hlib Hshort. split.
  - destruct (rows data) as [|bar bars] eqn:E.
    + exists (ValueError "No data found for the specified period.").
      split; [|split; [reflexivity | congruence]].
      apply stock_analysis_raises. left. split; [exact E | reflexivity].
    + destruct (Hlib (column Close data)) as (e & He).
      { rewrite column_length, E. exact Hshort. }
      exists e. split; [|split; [discriminate | intros _; exact He]].
      apply stock_analysis_raises. right. left. split; [|exact He].
      rewrite E. discriminate.
  - destruct (main_with_total history np_sqrt symbols top_n)
      as (metrics & stock_data' & Hcalc & Hmain).
    assert (Hnd : NoDup (keys (fetch_stock_data history symbols)))
      by (apply fetch_NoDup; constructor).
    assert (Hkeep : forall s, In s symbols -> history s = Ok data ->
                              (5 <= len (rows data))%Z ->
                              exists m data',
                                symbol_metrics np_sqrt data = Ok (m, data') /\
                                dict_find metrics s = Some m).
    { intros s Hs Hh Hlen.
      assert (He : empty data = false).
      { unfold empty. destruct (rows data); [cbn in Hlen; lia | reflexivity]. }
      pose proof (fetch_complete history symbols s data Hs Hh He []) as Hfind.
      apply dict_find_Some_In in Hfind.
      exact (calculate_metrics_loop_record np_sqrt _ Hnd _ _ _ Hcalc s data
               Hfind Hlen). }
    assert (Hdrop : forall s, history s = Ok data -> (len (rows data) < 5)%Z ->
                              ~ In s (keys metrics)).
    { intros s Hh Hlen Hin.
      apply (calculate_metrics_loop_keys _ _ _ _ _ Hcalc) in Hin.
      destruct Hin as [[]|(data0 & Hin & Hlen0)].
      apply In_dict_find in Hin; [|exact Hnd].
      apply fetch_sound in Hin. destruct Hin as [Hin|(_ & Hh0 & _)]; [discriminate|].
      assert (data0 = data) by congruence. subst data0. lia. }
    destruct Hmain as [(Hf & H)|[(_ & Hm & H)|(_ & report & H)]].
    + exists NoStockData. split; [exact H|]. intros s Hs Hh.
      destruct (len (rows data) <? 5)%Z eqn:E5; [discriminate|].
      apply Z.ltb_ge in E5. exfalso.
      destruct (Hkeep s Hs Hh E5) as (m & data' & _ & Hfind).
      assert (He : empty data = false).
      { unfold empty. destruct (rows data); [cbn in E5; lia | reflexivity]. }
      pose proof (fetch_complete history symbols s data Hs Hh He []) as Hfd.
      fold (fetch_stock_data history symbols) in Hfd. rewrite Hf in Hfd.
      discriminate.
    + exists NoMetrics. split; [exact H|]. intros s Hs Hh.
      destruct (len (rows data) <? 5)%Z eqn:E5; [discriminate|].
      apply Z.ltb_ge in E5. exfalso.
      destruct (Hkeep s Hs Hh E5) as (m & data' & _ & Hfind).
      rewrite Hm in Hfind. discriminate.
    + eexists. split; [exact H|]. intros s Hs Hh.
      destruct (len (rows data) <? 5)%Z eqn:E5.
      * apply Z.ltb_lt in E5. intros sd m bc p r [= <- <- <- <- <-].
        apply (Hdrop s Hh E5).
      * apply Z.ltb_ge in E5.
        destruct (Hkeep s Hs Hh E5) as (m & data' & Hsm & Hfind).
        eexists _, _, _, _, _, m, data'. split; [reflexivity|]. split; assumption.
Qed.
End PipelineClaims.

(** ** Concrete runs *)

(** C1 at sixty rising closing prices: the change is taken from the close
    of index 30. *)
Lemma change_pct_formula_witness :
  5 <= length (rows (rising_frame 60)) /\
  exists m data' last base,
    symbol_metrics sqrt_floor (rising_frame 60) = Ok (m, data') /\
    nth_error (column Close (rising_frame 60)) 59 = Some last /\
    nth_error (column Close (rising_frame 60)) 30 = Some base /\
    Change_Pct m = ((last - base) / base * Fin 100)%F.
Proof.
  split; [cbn; lia|].
  apply (change_pct_formula sqrt_floor (rising_frame 60)). cbn. lia.
Defined.

(** C3 at sixty rising closing prices. *)
Lemma rsi_in_range_witness :
  5 <= length (rows (rising_frame 60)) /\
  exists m data' ratio,
    symbol_metrics sqrt_floor (rising_frame 60) = Ok (m, data') /\
    percent (RSI m) /\
    nth_error (rs (column Close (rising_frame 60))) 59 = Some ratio /\
    (PyFloat.is_nan ratio = true -> RSI m = Fin 50).
Proof.
  split; [cbn; lia|].
  apply (rsi_in_range sqrt_floor (rising_frame 60)). cbn. lia.
Defined.

(** C10 as amended, at thirteen rising closing prices. *)
Lemma rsi_fallback_below_14_witness :
  5 <= length (rows (rising_frame 13)) < 14 /\
  exists m data',
    symbol_metrics sqrt_floor (rising_frame 13) = Ok (m, data') /\
    RSI m = Fin 50 /\
    Forall (fun x => x = NaN) (gain (column Close (rising_frame 13))) /\
    Forall (fun x => x = NaN) (loss (column Close (rising_frame 13))).
Proof.
  split; [cbn; lia|].
  apply (rsi_fallback_below_14 sqrt_floor (rising_frame 13)). cbn. lia.
Defined.

(** C10 as stated fails at fourteen rising closing prices: the first
    change of the series is replaced by 0, so the window of 14 is full and
    the index is 100. *)
Lemma rsi_14_bars_is_100 :
  length (rows (rising_frame 14)) = 14 /\
  exists m data',
    symbol_metrics sqrt_floor (rising_frame 14) = Ok (m, data') /\
    PyFloat.eqb (RSI m) (Fin 100) = true /\
    PyFloat.eqb (RSI m) (Fin 50) = false.
Proof.
  split; [reflexivity|].
  destruct (symbol_metrics_total sqrt_floor (rising_frame 14)) as (m & Hm);
    [discriminate|].
  exists m, (set_Returns (rising_frame 14) (pct_change (column Close (rising_frame 14)))).
  split; [exact Hm|].
  apply symbol_metrics_inv in Hm.
  destruct Hm as (last & base & s20 & s50 & r & _ & _ & _ & _ & Hr & _ & ->).
  cbn [RSI]. vm_compute in Hr. injection Hr as <-. split; reflexivity.
Qed.

(** C7: five days without a trade satisfy the invariant of a time series,
    and the volume trend of the record is [NaN]. *)
Lemma volume_trend_nan_without_volume :
  TimeSeries idle_frame /\
  exists m data',
    symbol_metrics sqrt_floor idle_frame = Ok (m, data') /\
    PyFloat.eqb (Avg_Volume m) (Fin 0) = true /\
    Volume_Trend m = NaN.
Proof.
  split.
  - split.
    + cbn. repeat constructor.
    + cbn.
      repeat (apply Forall_cons;
              [eexists _, _; split; [reflexivity | split; [reflexivity|]];
               split; [reflexivity | unfold Qle; cbn; lia]|]).
      apply Forall_nil.
  - destruct (symbol_metrics_total sqrt_floor idle_frame) as (m & Hm);
      [discriminate|].
    eexists m, _. split; [exact Hm|].
    apply symbol_metrics_inv in Hm.
    destruct Hm as (last & base & s20 & s50 & r & _ & _ & _ & _ & _ & _ & ->).
    split; reflexivity.
Qed.

(** C8 as stated fails: the frame of a symbol is not the same after
    [calculate_metrics]. *)
Lemma calculate_metrics_changes_frame :
  exists metrics data',
    calculate_metrics sqrt_floor [("BBCA.JK"%string, rising_frame 5)] =
      Ok (metrics, [("BBCA.JK"%string, data')]) /\
    Returns (rising_frame 5) = None /\
    Returns data' = Some (pct_change (column Close (rising_frame 5))) /\
    data' <> rising_frame 5.
Proof.
  destruct (symbol_metrics_total sqrt_floor (rising_frame 5)) as (m & Hm);
    [discriminate|].
  eexists [(_, m)], _. split.
  - unfold calculate_metrics. cbn [calculate_metrics_loop].
    change (len (rows (rising_frame 5)) <? 5)%Z with false.
    rewrite Hm. reflexivity.
  - repeat split. intros H. apply (f_equal Returns) in H. discriminate H.
Qed.

(** C2 at a record whose volume trend is 1000: the volume sub-score is
    the cap. *)
Lemma sub_scores_bounded_witness :
  let m := constant_record (Fin 1000) in
  PyFloat.eqb (Volume_Trend m) (Fin 1000) = true /\
  PyFloat.is_nan (Volume_Trend m) = false /\
  volume_score m = Fin 10 /\
  (volume_score m <=? Fin 10)%F = true.
Proof.
  destruct (sub_scores_bounded (constant_record (Fin 1000)))
    as (_ & _ & Hcap & _ & _ & _ & _ & _ & _ & H1000 & _).
  split; [reflexivity|]. split; [reflexivity|].
  split; [apply H1000 | apply Hcap]; reflexivity.
Defined.

(** C6 with the sample provider: the three symbols without usable data
    are not in the metrics, and a symbol with sixty days has the record of
    its own frame. *)
Lemma failed_symbols_are_dropped_witness :
  unusable sample_history "BBCA.JK" /\
  unusable sample_history "BBRI.JK" /\
  unusable sample_history "BMRI.JK" /\
  exists metrics stock_data',
    calculate_metrics sqrt_floor
      (fetch_stock_data sample_history (keys get_indonesia_stocks)) =
      Ok (metrics, stock_data') /\
    ~ In "BBCA.JK"%string (keys metrics) /\
    ~ In "BBRI.JK"%string (keys metrics) /\
    ~ In "BMRI.JK"%string (keys metrics) /\
    exists m data',
      symbol_metrics sqrt_floor (rising_frame 60) = Ok (m, data') /\
      dict_find metrics "ASII.JK" = Some m.
Proof.
  assert (H1 : unusable sample_history "BBCA.JK") by exact I.
  assert (H2 : unusable sample_history "BBRI.JK") by (cbn; lia).
  assert (H3 : unusable sample_history "BMRI.JK") by (cbn; lia).
  split; [exact H1|]. split; [exact H2|]. split; [exact H3|].
  destruct (failed_symbols_are_dropped sample_history sqrt_floor
              (keys get_indonesia_stocks) 5)
    as (metrics & stock_data' & outcome & Hcalc & _ & _ & Hbad & Hgood).
  exists metrics, stock_data'. split; [exact Hcalc|].
  split; [apply (Hbad _ H1)|]. split; [apply (Hbad _ H2)|].
  split; [apply (Hbad _ H3)|].
  destruct (Hgood "ASII.JK"%string (rising_frame 60)) as (m & data' & Hm & Hfind & _).
  - cbn. auto.
  - reflexivity.
  - cbn. lia.
  - exists m, data'. split; assumption.
Defined.

(** C4 as stated fails on a mapping with a score that is no number, and
    for a negative count.  The frame without a trade gives its symbol the
    score [NaN] (C7).  A comparison with [NaN] is false, and the two
    comparisons that the sort makes on these three scores, 2.7 with [NaN]
    and [NaN] with 4.5, both have it on one side: the order stays as the
    mapping has it.  So the one entry returned for the count 1 scores 2.7,
    and the symbol that scores 4.5 is left out.  For the count -1 the
    result has two entries. *)
Lemma top_1_is_not_the_best :
  exists metrics stock_data' low high,
    calculate_metrics sqrt_floor three_frames = Ok (metrics, stock_data') /\
    keys metrics = ["BBCA.JK"; "BBRI.JK"; "BMRI.JK"]%string /\
    predict_stocks metrics 1 = [("BBCA.JK"%string, low)] /\
    In ("BMRI.JK"%string, high) (scores_of metrics) /\
    PyFloat.eqb low (Fin (27 # 10)) = true /\
    PyFloat.eqb high (Fin (9 # 2)) = true /\
    (low <? high)%F = true /\
    (Z.min (-1) (len metrics) < 0)%Z /\
    length (predict_stocks metrics (-1)) = 2.
Proof.
  destruct (calculate_metrics sqrt_floor three_frames) as [[metrics sd]|e] eqn:E;
    [|vm_compute in E; discriminate E].
  vm_compute in E. injection E as <- <-.
  eexists _, _, _, _. split; [reflexivity|].
  split; [reflexivity|]. split; [vm_compute; reflexivity|].
  split; [right; right; left; vm_compute; reflexivity|].
  repeat split.
Qed.

(** C4 at ten symbols and [top_n = 3]: three entries are returned. *)
Lemma top_n_ranking_witness :
  NoDup (keys ten_metrics) /\
  (forall s m, In (s, m) ten_metrics -> PyFloat.is_nan (score_of m) = false) /\
  length (predict_stocks ten_metrics 3) = 3 /\
  map fst (predict_stocks ten_metrics 3) =
    ["BBRI.JK"; "ASII.JK"; "KLBF.JK"]%string.
Proof.
  assert (H1 : NoDup (keys ten_metrics)).
  { cbn. repeat (constructor; [cbn; intuition discriminate|]). constructor. }
  assert (H3 : forall s m, In (s, m) ten_metrics ->
                           PyFloat.is_nan (score_of m) = false).
  { intros s m H. cbn in H.
    repeat (destruct H as [H|H]; [injection H as <- <-; reflexivity|]).
    contradiction. }
  split; [exact H1|]. split; [exact H3|].
  destruct (top_n_ranking ten_metrics 3 H1 H3)
    as (ranked & _ & _ & _ & _ & _ & _ & _ & Hthree).
  split; [apply Hthree; reflexivity | reflexivity].
Defined.

(** C5 as stated fails at a frame of one row: it is not empty, and a
    library that cannot fit the model to one closing price leaves the
    script without a forecast. *)
Lemma one_row_has_no_forecast :
  rows (rising_frame 1) <> [] /\
  (forall (fitted : Type) (fit : Series -> result fitted)
          (forecast : fitted -> nat -> Series) (e : exn),
     fit (column Close (rising_frame 1)) = Raise e ->
     stock_analysis fit forecast (rising_frame 1) = Raise e) /\
  stock_analysis drift_fit drift_forecast (rising_frame 1) =
    Raise (LibraryError "ExponentialSmoothing").
Proof.
  split; [discriminate|]. split; [|reflexivity].
  intros fitted fit forecast e H. unfold stock_analysis.
  change (empty (rising_frame 1)) with false. now rewrite H.
Qed.

(** C5 with the stand-in model on five rising closing prices, the last of
    them on Friday 1970-01-09: seven dates from Monday 1970-01-12 on. *)
Lemma forecast_dates_witness :
  rows (rising_frame 5) <> [] /\
  drift_fit (column Close (rising_frame 5)) =
    Ok (PyFloat.of_Z 104, (PyFloat.of_Z 104 - PyFloat.of_Z 103)%F) /\
  (forall m steps, length (drift_forecast m steps) = steps) /\
  exists out,
    stock_analysis drift_fit drift_forecast (rising_frame 5) = Ok out /\
    length out = 7 /\
    map fst out = [11; 12; 13; 14; 15; 18; 19]%Z.
Proof.
  assert (H1 : rows (rising_frame 5) <> []) by discriminate.
  assert (H2 : drift_fit (column Close (rising_frame 5)) =
               Ok (PyFloat.of_Z 104, (PyFloat.of_Z 104 - PyFloat.of_Z 103)%F))
    by reflexivity.
  assert (H3 : forall m steps, length (drift_forecast m steps) = steps).
  { intros m steps. unfold drift_forecast. now rewrite length_map, length_seq. }
  split; [exact H1|]. split; [exact H2|]. split; [exact H3|].
  destruct (forecast_dates _ drift_fit drift_forecast (rising_frame 5) _ H1 H2 H3)
    as (out & bar & Hout & _ & Hlen & _).
  exists out. split; [exact Hout|]. split; [exact Hlen|].
  vm_compute in Hout. injection Hout as <-. reflexivity.
Defined.

(** C9 as stated fails at the empty series, which has too few points for
    every library: the script raises the [ValueError] of its own guard,
    before the model is fitted, and the code has no error class besides
    those of Python and of the libraries. *)
Lemma no_data_is_a_ValueError :
  length (rows (frame_of [] [])) < 2 /\
  (forall (fitted : Type) (fit : Series -> result fitted)
          (forecast : fitted -> nat -> Series),
     stock_analysis fit forecast (frame_of [] []) =
       Raise (ValueError "No data found for the specified period.")) /\
  stock_analysis drift_fit drift_forecast (frame_of [] []) =
    Raise (ValueError "No data found for the specified period.").
Proof.
  split; [cbn; lia|]. split; [intros; reflexivity | reflexivity].
Qed.

(** C9 at five rising closing prices and a library that asks for ten
    points: the forecast fails with the error of the library, and the
    pipeline computes the record of the symbol. *)
Lemma forecast_failure_is_local_witness :
  refuses_below strict_fit 10 /\
  length (rows (rising_frame 5)) < 10 /\
  stock_analysis strict_fit drift_forecast (rising_frame 5) =
    Raise (LibraryError "ExponentialSmoothing") /\
  exists outcome,
    main_with (fun _ => Ok (rising_frame 5)) sqrt_floor ["ASII.JK"%string] 5 =
      Ok outcome /\
    exists stock_data metrics by_change predictions report m data',
      outcome = Completed stock_data metrics by_change predictions report /\
      symbol_metrics sqrt_floor (rising_frame 5) = Ok (m, data') /\
      dict_find metrics "ASII.JK" = Some m.
Proof.
  assert (H1 : refuses_below strict_fit 10).
  { intros s Hs. exists (LibraryError "ExponentialSmoothing"). unfold strict_fit.
    now rewrite (proj2 (Nat.ltb_lt _ _) Hs). }
  assert (H2 : length (rows (rising_frame 5)) < 10) by (cbn; lia).
  split; [exact H1|]. split; [exact H2|].
  destruct (forecast_failure_is_local (fun _ => Ok (rising_frame 5)) sqrt_floor
              _ strict_fit drift_forecast 10 (rising_frame 5)
              ["ASII.JK"%string] 5 H1 H2)
    as ((e & He & _ & Hlib) & outcome & Hmain & Hsym).
  split.
  - rewrite He. f_equal.
    assert (H : strict_fit (column Close (rising_frame 5)) = Raise e)
      by (apply Hlib; discriminate).
    vm_compute in H. now injection H as <-.
  - exists outcome. split; [exact Hmain|].
    apply (Hsym "ASII.JK"%string); [now left | reflexivity].
Defined.

(** The scenario of sixty closing prices rising by 1 from 100 with a
    constant volume: the change is (159 - 130) / 130 * 100, about 22.3,
    the 20-bar average is the mean of the last 20 closes, the volume trend
    is 0 and the index is 100, not the fallback. *)
Example linear_series_scenario :
  match symbol_metrics sqrt_floor (rising_frame 60) with
  | Ok (m, _) =>
      PyFloat.eqb (Current_Price m) (Fin 159) = true /\
      PyFloat.eqb (Change_Pct m) (Fin (2900 # 130)) = true /\
      PyFloat.eqb (SMA_20 m) (Fin (299 # 2)) = true /\
      PyFloat.eqb (SMA_50 m) (Fin (269 # 2)) = true /\
      PyFloat.eqb (Volume_Trend m) (Fin 0) = true /\
      PyFloat.eqb (RSI m) (Fin 100) = true
  | Raise _ => False
  end.
Proof. lazy. repeat split. Qed.

(** A run on the twenty symbols with the sample provider: the three
    symbols without usable data are dropped, seventeen records are
    computed, and the five predictions are the first five of them, since
    all seventeen score the same. *)
Example sample_run :
  match main sample_history sqrt_floor with
  | Ok (Completed _ metrics _ predictions _) =>
      keys metrics = skipn 3 (keys get_indonesia_stocks) /\
      map fst predictions =
        ["ASII.JK"; "TLKM.JK"; "ICBP.JK"; "UNVR.JK"; "PGAS.JK"]%string
  | _ => False
  end.
Proof. lazy. split; reflexivity. Qed.

(* ================================================================== *)
(** * Further properties of the code *)

(** ** [fetch_stock_data] *)

Section FetchProperties.
Variable history : string -> result DataFrame.

(** X1.  The dictionary that [fetch_stock_data] returns holds a frame under
    a symbol exactly when the symbol was asked for and the provider
    answered with that frame, which has rows. *)
Theorem fetch_stock_data_lookup (symbols : list string) (s : string)
    (df : DataFrame) :
  dict_find (fetch_stock_data history symbols) s = Some df <->
  In s symbols /\ history s = Ok df /\ empty df = false.
Proof.
  split.
  - intros H. apply fetch_sound in H. destruct H as [H|H]; [discriminate | exact H].
  - intros (H1 & H2 & H3). now apply fetch_complete.
Qed.

Lemma dict_set_keys_fresh {V : Type} (d : dict V) (k : string) (v : V) :
  ~ In k (keys d) -> keys (dict_set d k v) = keys d ++ [k].
Proof.
  intros H. rewrite dict_set_fresh by exact H. unfold keys. now rewrite map_app.
Qed.

Lemma fetch_keys_from (symbols : list string) :
  NoDup symbols ->
  forall data,
    (forall s, In s symbols -> ~ In s (keys data)) ->
    keys (fetch_stock_data_from history data symbols) =
    keys data ++ filter (fetched history) symbols.
Proof.
  induction 1 as [|s symbols Hs Hnd IH]; intros data Hfresh;
    cbn [fetch_stock_data_from filter].
  - now rewrite app_nil_r.
  - assert (Hrest : forall x, In x symbols -> ~ In x (keys data))
      by (intros x Hx; apply Hfresh; now right).
    assert (Hf : fetched history s =
                 match history s with Ok hist => negb (empty hist) | Raise _ => false end)
      by reflexivity.
    rewrite Hf. destruct (history s) as [hist|e] eqn:E; [|now apply IH].
    destruct (empty hist); cbn [negb]; [now apply IH|].
    rewrite IH.
    + rewrite dict_set_keys_fresh by (apply Hfresh; now left).
      now rewrite <- app_assoc.
    + intros x Hx Hin. apply keys_dict_set in Hin.
      destruct Hin as [->|Hin]; [contradiction|].
      exact (Hrest x Hx Hin).
Qed.

(** X2.  For symbols that are all different, the keys of the fetched
    dictionary are the symbols the provider has rows for, in the order in
    which they were asked. *)
Theorem fetch_stock_data_keys (symbols : list string) :
  NoDup symbols ->
  keys (fetch_stock_data history symbols) = filter (fetched history) symbols.
Proof.
  intros H. unfold fetch_stock_data.
  rewrite (fetch_keys_from symbols H []); [reflexivity|]. intros s _ [].
Qed.
End FetchProperties.

(** ** [calculate_metrics] *)

Section CalculateMetricsProperties.
Variable np_sqrt : Q -> Q.

Lemma calculate_metrics_loop_key_order (items : list (string * DataFrame)) :
  NoDup (keys items) ->
  forall metrics metrics' items',
    (forall s, In s (keys items) -> ~ In s (keys metrics)) ->
    calculate_metrics_loop np_sqrt metrics items = Ok (metrics', items') ->
    keys metrics' = keys metrics ++ keys (filter long_enough items).
Proof.
  induction items as [|[symbol data] rest IH];
    intros Hnd metrics metrics' items' Hfresh H.
  - cbn in H. injection H as <- <-. cbn. now rewrite app_nil_r.
  - cbn [keys map fst] in Hnd. inversion Hnd as [|? ? Hs Hnd']; subst.
    apply calculate_metrics_loop_inv in H.
    cbn [filter]. unfold long_enough at 1. cbn [snd].
    destruct H as (rest' & [(Hlt & -> & H)|(Hge & m & data' & Hm & -> & H)]).
    + rewrite (proj2 (Z.leb_gt 5 (len (rows data)))) by lia.
      apply (IH Hnd' _ _ _) in H; [exact H|].
      intros s Hin. apply Hfresh. now right.
    + rewrite (proj2 (Z.leb_le 5 (len (rows data)))) by lia.
      apply (IH Hnd' _ _ _) in H.
      * rewrite H, dict_set_keys_fresh by (apply Hfresh; now left).
        cbn [keys map fst]. now rewrite <- app_assoc.
      * intros s Hin Hk. apply keys_dict_set in Hk.
        destruct Hk as [->|Hk]; [contradiction|].
        eapply Hfresh; [right; exact Hin | exact Hk].
Qed.

(** X3.  The metrics keep the order of [stock_data]: their keys are the
    symbols of the frames of at least 5 rows, in the order of the
    dictionary. *)
Theorem calculate_metrics_keys (stock_data : dict DataFrame) :
  NoDup (keys stock_data) ->
  exists metrics stock_data',
    calculate_metrics np_sqrt stock_data = Ok (metrics, stock_data') /\
    keys metrics = keys (filter long_enough stock_data).
Proof.
  intros Hnd.
  destruct (calculate_metrics_loop_total np_sqrt stock_data [])
    as (metrics & stock_data' & H).
  exists metrics, stock_data'. split; [exact H|].
  apply (calculate_metrics_loop_key_order stock_data Hnd [] metrics stock_data');
    [|exact H].
  intros s _ [].
Qed.

Lemma symbol_metrics_set_Returns (data : DataFrame) (s : Series) :
  symbol_metrics np_sqrt (set_Returns data s) = symbol_metrics np_sqrt data.
Proof. reflexivity. Qed.

Lemma calculate_metrics_loop_again (items : list (string * DataFrame)) :
  forall metrics metrics' items',
    calculate_metrics_loop np_sqrt metrics items = Ok (metrics', items') ->
    calculate_metrics_loop np_sqrt metrics items' = Ok (metrics', items').
Proof.
  induction items as [|[symbol data] rest IH]; intros metrics metrics' items' H.
  - cbn in H. injection H as <- <-. reflexivity.
  - apply calculate_metrics_loop_inv in H.
    destruct H as (rest' & [(Hlt & -> & H)|(Hge & m & data' & Hm & -> & H)]).
    + cbn [calculate_metrics_loop].
      rewrite (proj2 (Z.ltb_lt (len (rows data)) 5)) by lia.
      rewrite (IH _ _ _ H). reflexivity.
    + pose proof (symbol_metrics_inv _ _ _ _ Hm) as Hinv. cbv zeta in Hinv.
      destruct Hinv as (? & ? & ? & ? & ? & _ & _ & _ & _ & _ & Hd & _).
      cbn [calculate_metrics_loop].
      assert (Hrows : rows data' = rows data) by (rewrite Hd; reflexivity).
      rewrite Hrows, (proj2 (Z.ltb_ge (len (rows data)) 5)) by lia.
      rewrite Hd at 1. rewrite symbol_metrics_set_Returns, Hm. cbn [bind].
      rewrite (IH _ _ _ H). reflexivity.
Qed.

(** X4.  A second run of [calculate_metrics] on the frames that the first
    run left behind gives the same metrics and changes no frame any more:
    the [Returns] column is computed from the rows, which stay. *)
Theorem calculate_metrics_twice (stock_data : dict DataFrame) :
  exists metrics stock_data',
    calculate_metrics np_sqrt stock_data = Ok (metrics, stock_data') /\
    calculate_metrics np_sqrt stock_data' = Ok (metrics, stock_data').
Proof.
  destruct (calculate_metrics_loop_total np_sqrt stock_data [])
    as (metrics & stock_data' & H).
  exists metrics, stock_data'. split; [exact H|].
  exact (calculate_metrics_loop_again stock_data _ _ _ H).
Qed.
End CalculateMetricsProperties.

(** ** [main] *)

Lemma report_rows_inv (metrics : dict MetricRecord)
    (predictions : list (string * pyfloat)) :
  forall report,
    report_rows metrics predictions = Ok report ->
    map fst report = predictions /\
    (forall s sc record, In (s, sc, record) report ->
                         dict_find metrics s = Some record).
Proof.
  induction predictions as [|[s sc] rest IH]; intros report H; cbn in H.
  - injection H as <-. split; [reflexivity | intros ? ? ? []].
  - unfold dict_get in H. destruct (dict_find metrics s) as [m|] eqn:E; [|discriminate].
    cbn [bind] in H. inv_bind H. injection H as <-.
    destruct (IH _ eq_refl) as (Hmap & Hrec). split.
    + cbn. now rewrite Hmap.
    + intros s' sc' r' [[= <- <- <-]|Hin]; [exact E | eapply Hrec, Hin].
Qed.

Lemma NoDup_firstn {A : Type} (n : nat) (l : list A) :
  NoDup l -> NoDup (firstn n l).
Proof.
  intros H. rewrite <- (firstn_skipn n l) in H.
  eapply NoDup_app_remove_r, H.
Qed.

Lemma slice_to_firstn_any {A : Type} (l : list A) (n : Z) :
  exists k, slice_to l n = firstn k l.
Proof. unfold slice_to. destruct (n <? 0)%Z; eauto. Qed.

Lemma predict_stocks_slice (metrics : dict MetricRecord) (top_n : Z) :
  NoDup (keys metrics) ->
  predict_stocks metrics top_n =
  slice_to (sorted_reverse snd (scores_of metrics)) top_n.
Proof.
  intros Hnd. unfold predict_stocks.
  destruct metrics as [|e rest] eqn:E.
  - cbn. unfold slice_to. now destruct (top_n <? 0)%Z; rewrite firstn_nil.
  - rewrite <- E in *. now rewrite score_loop_fresh by exact Hnd.
Qed.

Lemma ranking_length (metrics : dict MetricRecord) :
  length (sorted_reverse snd (scores_of metrics)) = length metrics.
Proof.
  rewrite (Permutation_length (sorted_reverse_perm _ _ _)).
  unfold scores_of. apply length_map.
Qed.

Lemma predict_stocks_NoDup (metrics : dict MetricRecord) (top_n : Z) :
  NoDup (keys metrics) -> NoDup (map fst (predict_stocks metrics top_n)).
Proof.
  intros Hnd. rewrite predict_stocks_slice by exact Hnd.
  destruct (slice_to_firstn_any (sorted_reverse snd (scores_of metrics)) top_n)
    as (k & ->).
  rewrite <- firstn_map. apply NoDup_firstn.
  eapply Permutation_NoDup.
  - symmetry. apply Permutation_map, sorted_reverse_perm.
  - unfold scores_of. rewrite map_map. exact Hnd.
Qed.

(** X5.  [top_n] only cuts the ranking: the ranking of all symbols holds
    every symbol with its score, and the predictions for any [top_n] are
    the slice [[:top_n]] of it.  So [top_n = 0] predicts nothing, and a
    negative [top_n] does not fail: it leaves out that many symbols from
    the end of the ranking. *)
Theorem predict_stocks_top_n (metrics : dict MetricRecord) (top_n : Z) :
  NoDup (keys metrics) ->
  let ranking := predict_stocks metrics (len metrics) in
  Permutation ranking (scores_of metrics) /\
  predict_stocks metrics top_n = slice_to ranking top_n /\
  (top_n = 0%Z -> predict_stocks metrics top_n = []) /\
  ((top_n < 0)%Z ->
   predict_stocks metrics top_n =
     firstn (length metrics - Z.to_nat (- top_n)) ranking /\
   length (predict_stocks metrics top_n) = length metrics - Z.to_nat (- top_n)).
Proof.
  intros Hnd ranking.
  assert (Hfull : ranking = sorted_reverse snd (scores_of metrics)).
  { unfold ranking. rewrite predict_stocks_slice by exact Hnd.
    unfold slice_to, len. rewrite (proj2 (Z.ltb_ge _ _)) by lia.
    rewrite Nat2Z.id, <- (ranking_length metrics). apply firstn_all. }
  assert (Hlen : length ranking = length metrics)
    by (rewrite Hfull; apply ranking_length).
  split; [rewrite Hfull; apply sorted_reverse_perm|].
  split; [rewrite Hfull; now apply predict_stocks_slice|].
  split.
  - intros ->. rewrite predict_stocks_slice by exact Hnd. reflexivity.
  - intros Hneg. rewrite predict_stocks_slice by exact Hnd. rewrite <- Hfull.
    unfold slice_to, len. rewrite (proj2 (Z.ltb_lt _ _) Hneg), Hlen.
    replace (Z.to_nat (Z.of_nat (length metrics) + top_n))
      with (length metrics - Z.to_nat (- top_n)) by lia.
    split; [reflexivity|]. rewrite length_firstn, Hlen. lia.
Qed.

Section MainProperties.
Variable history : string -> result DataFrame.
Variable np_sqrt : Q -> Q.

Lemma fetch_nil_iff (symbols : list string) :
  fetch_stock_data history symbols = [] <->
  forall s, In s symbols -> fetched history s = false.
Proof.
  split.
  - intros E s Hs. unfold fetched.
    destruct (history s) as [df|e] eqn:Eh; [|reflexivity].
    destruct (empty df) eqn:Ee; [reflexivity|].
    pose proof (fetch_complete history symbols s df Hs Eh Ee []) as H.
    fold (fetch_stock_data history symbols) in H. rewrite E in H. discriminate.
  - intros H. destruct (fetch_stock_data history symbols) as [|[k df] rest] eqn:E;
      [reflexivity|].
    assert (Hfind : dict_find (fetch_stock_data history symbols) k = Some df).
    { rewrite E. cbn. now rewrite String.eqb_refl. }
    apply fetch_sound in Hfind. destruct Hfind as [Hf|(Hin & Hh & He)]; [discriminate|].
    specialize (H k Hin). unfold fetched in H. rewrite Hh, He in H. discriminate.
Qed.

(** X6.  How a run of [main] ends.  It stops with no stock data exactly
    when the provider has rows for none of the symbols; it stops with no
    metrics exactly when it has rows for some symbol but 5 rows for none;
    in every other case it reaches the report. *)
Theorem main_with_outcome (symbols : list string) (top_n : Z) :
  exists outcome,
    main_with history np_sqrt symbols top_n = Ok outcome /\
    (outcome = NoStockData <->
     forall s, In s symbols -> fetched history s = false) /\
    (outcome = NoMetrics <->
     (exists s, In s symbols /\ fetched history s = true) /\
     (forall s df, In s symbols -> history s = Ok df -> (len (rows df) < 5)%Z)) /\
    ((exists stock_data metrics by_change predictions report,
        outcome = Completed stock_data metrics by_change predictions report) <->
     exists s df, In s symbols /\ history s = Ok df /\ (5 <= len (rows df))%Z).
Proof.
  destruct (main_with_total history np_sqrt symbols top_n)
    as (metrics & stock_data' & Hcalc & Hmain).
  assert (Hnd : NoDup (keys (fetch_stock_data history symbols)))
    by (apply fetch_NoDup; constructor).
  assert (Hnil : fetch_stock_data history symbols = [] ->
                 forall s df, In s symbols -> history s = Ok df ->
                              (len (rows df) < 5)%Z).
  { intros E s df Hs Hh. pose proof (proj1 (fetch_nil_iff symbols) E s Hs) as Hf.
    unfold fetched in Hf. rewrite Hh in Hf. unfold empty in Hf.
    destruct (rows df); [cbn; lia | discriminate]. }
  assert (Hmet : metrics = [] <->
                 forall s df, In s symbols -> history s = Ok df ->
                              (len (rows df) < 5)%Z).
  { split.
    - intros -> s df Hs Hh.
      destruct (Z.lt_ge_cases (len (rows df)) 5) as [Hlt|Hge]; [exact Hlt|].
      assert (He : empty df = false).
      { unfold empty. destruct (rows df); [cbn in Hge; lia | reflexivity]. }
      pose proof (fetch_complete history symbols s df Hs Hh He []) as Hfind.
      apply dict_find_Some_In in Hfind.
      destruct (calculate_metrics_loop_record np_sqrt _ Hnd _ _ _ Hcalc s df Hfind Hge)
        as (m & d' & _ & Hrec). discriminate.
    - intros H. destruct metrics as [|[k m] rest]; [reflexivity|].
      assert (Hk : In k (keys ((k, m) :: rest))) by now left.
      apply (calculate_metrics_loop_keys _ _ _ _ _ Hcalc) in Hk.
      destruct Hk as [[]|(data & Hin & Hlen)].
      apply In_dict_find in Hin; [|exact Hnd].
      apply fetch_sound in Hin. destruct Hin as [Hin|(Hs & Hh & _)]; [discriminate|].
      specialize (H k data Hs Hh). lia. }
  assert (Hsome : fetch_stock_data history symbols <> [] <->
                  exists s, In s symbols /\ fetched history s = true).
  { rewrite fetch_nil_iff. split.
    - intros H. destruct (existsb (fetched history) symbols) eqn:E.
      + apply existsb_exists in E. exact E.
      + exfalso. apply H. intros s Hs.
        destruct (fetched history s) eqn:Ef; [|reflexivity].
        assert (existsb (fetched history) symbols = true)
          by (apply existsb_exists; eauto).
        congruence.
    - intros (s & Hs & Hf) H. rewrite (H s Hs) in Hf. discriminate. }
  assert (Hlong : metrics <> [] <->
                  exists s df, In s symbols /\ history s = Ok df /\
                               (5 <= len (rows df))%Z).
  { split.
    - intros Hne. destruct metrics as [|[k m] rest]; [congruence|].
      assert (Hk : In k (keys ((k, m) :: rest))) by now left.
      apply (calculate_metrics_loop_keys _ _ _ _ _ Hcalc) in Hk.
      destruct Hk as [[]|(data & Hin & Hlen)].
      apply In_dict_find in Hin; [|exact Hnd].
      apply fetch_sound in Hin. destruct Hin as [Hin|(Hs & Hh & _)]; [discriminate|].
      eauto.
    - intros (s & df & Hs & Hh & Hlen) E.
      pose proof (proj1 Hmet E s df Hs Hh). lia. }
  destruct Hmain as [(Hf & H)|[(Hf & Hm & H)|(Hm & r & H)]].
  - exists NoStockData. split; [exact H|]. split; [|split].
    + split; [intros _; now apply fetch_nil_iff | reflexivity].
    + split; [discriminate|]. intros [Hex _]. apply (proj2 Hsome) in Hex. contradiction.
    + split; [intros (? & ? & ? & ? & ? & ?); discriminate|].
      intros (s & df & Hs & Hh & Hlen). specialize (Hnil Hf s df Hs Hh). lia.
  - exists NoMetrics. split; [exact H|]. split; [|split].
    + split; [discriminate|]. intros Hall. apply fetch_nil_iff in Hall. contradiction.
    + split; [|reflexivity]. intros _. split; [now apply (proj1 Hsome) | now apply (proj1 Hmet)].
    + split; [intros (? & ? & ? & ? & ? & ?); discriminate|].
      intros Hex. apply (proj2 Hlong) in Hex. contradiction.
  - eexists. split; [exact H|]. split; [|split].
    + split; [discriminate|]. intros Hall. exfalso.
      apply (proj1 Hlong) in Hm. destruct Hm as (s & df & Hs & Hh & Hlen).
      specialize (Hall s Hs). unfold fetched in Hall. rewrite Hh in Hall.
      unfold empty in Hall. destruct (rows df); [cbn in Hlen; lia | discriminate].
    + split; [discriminate|]. intros [_ Hall]. apply (proj2 Hmet) in Hall. contradiction.
    + split; [intros _; now apply (proj1 Hlong) | intros _; eauto 10].
Qed.

Lemma main_with_completed (symbols : list string) (top_n : Z)
    (stock_data : dict DataFrame) (metrics : dict MetricRecord)
    (by_change : list (string * MetricRecord))
    (predictions : list (string * pyfloat))
    (report : list (string * pyfloat * MetricRecord)) :
  main_with history np_sqrt symbols top_n =
    Ok (Completed stock_data metrics by_change predictions report) ->
  calculate_metrics np_sqrt (fetch_stock_data history symbols) =
    Ok (metrics, stock_data) /\
  metrics <> [] /\
  NoDup (keys metrics) /\
  incl (keys metrics) symbols /\
  by_change = sorted_reverse (fun x => Change_Pct (snd x)) metrics /\
  predictions = predict_stocks metrics top_n /\
  report_rows metrics predictions = Ok report.
Proof.
  intros H. unfold main_with in H.
  destruct (fetch_stock_data history symbols) as [|i is_] eqn:Ef; [discriminate|].
  rewrite <- Ef in *.
  destruct (calculate_metrics np_sqrt (fetch_stock_data history symbols))
    as [[m sd]|e] eqn:Hcalc; [|discriminate].
  cbn [bind] in H.
  destruct m as [|e es] eqn:Em; [discriminate|]. rewrite <- Em in *.
  destruct (report_rows m (predict_stocks m top_n)) as [r|x] eqn:Hrep; [|discriminate].
  cbn [bind] in H. injection H as <- <- <- <- <-.
  assert (Hnd : NoDup (keys (fetch_stock_data history symbols)))
    by (apply fetch_NoDup; constructor).
  split; [reflexivity|]. split; [rewrite Em; discriminate|].
  split; [eapply calculate_metrics_loop_NoDup; [exact Hcalc | constructor]|].
  split; [|repeat split; exact Hrep].
  intros s Hin. apply (calculate_metrics_loop_keys _ _ _ _ _ Hcalc) in Hin.
  destruct Hin as [[]|(data & Hin & _)].
  apply In_dict_find in Hin; [|exact Hnd].
  apply fetch_sound in Hin. destruct Hin as [Hin|(Hin & _)]; [discriminate | exact Hin].
Qed.

Lemma predict_stocks_keys (metrics : dict MetricRecord) (top_n : Z) :
  incl (map fst (predict_stocks metrics top_n)) (keys metrics).
Proof.
  intros s Hs. apply in_map_iff in Hs. destruct Hs as ([s' sc] & <- & Hin).
  apply predict_stocks_In in Hin. destruct Hin as (m & Hin & _).
  eapply In_keys, Hin.
Qed.

(** X7.  What a run that reaches the report has computed: the table by
    change is a rearrangement of the metrics, the predictions are those of
    [predict_stocks], no symbol is predicted twice, every predicted
    symbol is one of the symbols asked for, and the report has one row
    per prediction, in the same order, with the record that the metrics
    hold for the symbol, whose score is the score shown. *)
Theorem main_with_report (symbols : list string) (top_n : Z) :
  exists outcome,
    main_with history np_sqrt symbols top_n = Ok outcome /\
    match outcome with
    | Completed stock_data metrics by_change predictions report =>
        Permutation by_change metrics /\
        predictions = predict_stocks metrics top_n /\
        NoDup (map fst predictions) /\
        incl (map fst predictions) symbols /\
        map fst report = predictions /\
        (forall s sc record,
           In (s, sc, record) report ->
           dict_find metrics s = Some record /\ sc = score_of record)
    | _ => True
    end.
Proof.
  destruct (main_with_total history np_sqrt symbols top_n)
    as (metrics & stock_data' & _ & Hmain).
  destruct Hmain as [(_ & H)|[(_ & _ & H)|(_ & report & H)]].
  - exists NoStockData. split; [exact H | exact I].
  - exists NoMetrics. split; [exact H | exact I].
  - eexists. split; [exact H|]. cbv beta iota.
    destruct (main_with_completed _ _ _ _ _ _ _ H)
      as (_ & _ & Hndm & Hincl & _ & _ & Hrep).
    destruct (report_rows_inv _ _ _ Hrep) as (Hmap & Hrec).
    split; [apply sorted_reverse_perm|]. split; [reflexivity|].
    split; [now apply predict_stocks_NoDup|]. split; [|split; [exact Hmap|]].
    + intros s Hs. apply Hincl. eapply predict_stocks_keys, Hs.
    + intros s sc record Hin. split; [eapply Hrec, Hin|].
      assert (Hp : In (s, sc) (predict_stocks metrics top_n)).
      { rewrite <- Hmap. change (s, sc) with (fst (s, sc, record)). now apply in_map. }
      apply predict_stocks_In in Hp. destruct Hp as (m & Hm & ->).
      apply (In_dict_find _ _ _ Hndm) in Hm.
      rewrite (Hrec _ _ _ Hin) in Hm. now injection Hm as ->.
Qed.
End MainProperties.

(** ** The score *)

Lemma add_NaN_l (x : pyfloat) : (NaN + x)%F = NaN.
Proof. now destruct x. Qed.

Lemma add_NaN_r (x : pyfloat) : (x + NaN)%F = NaN.
Proof. now destruct x. Qed.

Lemma py_min_Fin (x c : Q) :
  exists y, py_min (Fin x) (Fin c) = Fin y /\ (y <= c)%Q /\ (y <= x)%Q /\
            (y == c <-> c <= x)%Q /\ (x <= c -> y == x)%Q.
Proof.
  unfold py_min. cbn. destruct (PyFloat.Qltb c x) eqn:E.
  - apply Qltb_lt in E. exists c. repeat split; try lra.
  - apply Qltb_ge in E. exists x. repeat split; try lra.
Qed.

Lemma rsi_score_Fin (m : MetricRecord) (r : Q) :
  RSI m = Fin r ->
  exists y, rsi_score m = Fin y /\ (0 <= y <= 10)%Q /\ (y == 10 <-> r == 50)%Q /\
            (Qabs (r - 50) <= 50 -> y == 10 - Qabs (r - 50) / 5)%Q /\
            (50 <= Qabs (r - 50) -> y == 0)%Q.
Proof.
  intros Hr. unfold rsi_score. rewrite Hr.
  cbn [PyFloat.sub PyFloat.neg PyFloat.add PyFloat.abs].
  rewrite div_Fin by (intros H; discriminate H).
  cbn [PyFloat.sub PyFloat.neg PyFloat.add]. unfold Qminus.
  destruct (py_min_Fin (10 + - (Qabs (r + - (50)) / 5)) 10)
    as (y & -> & Hy1 & Hy2 & Hy3 & Hy4).
  pose proof (Qabs_nonneg (r + - (50))) as Habs.
  assert (Hdiv : (Qabs (r + - (50)) / 5 == Qabs (r + - (50)) * (1 # 5))%Q)
    by (unfold Qdiv; reflexivity).
  assert (Hzero : (Qabs (r + - (50)) == 0 <-> r == 50)%Q).
  { split.
    - pattern (Qabs (r + - (50))). apply Qabs_case; intros; lra.
    - intros H. rewrite H. reflexivity. }
  assert (Hy : (y == 10 + - (Qabs (r + - (50)) / 5))%Q) by (apply Hy4; lra).
  unfold py_max, PyFloat.gtb. cbn [PyFloat.ltb].
  destruct (PyFloat.Qltb 0 y) eqn:E.
  - apply Qltb_lt in E. exists y. split; [reflexivity|]. split; [lra|].
    split; [|split; intros H; lra].
    rewrite Hy3, <- Hzero. split; intros H; lra.
  - apply Qltb_ge in E. exists 0%Q. split; [reflexivity|]. split; [lra|].
    split; [|split; intros H; lra].
    rewrite <- Hzero. split; intros H; [lra|].
    assert (y == 10)%Q by (apply Hy3; lra). lra.
Qed.

(** X8.  The score of a record of finite numbers is a finite number of at
    most 10, and it is 10 exactly when every component is at its cap: a
    volume trend of at least 100, a change of at least 50, an RSI of 50
    and deviations from the two averages that add up to at least 40. *)
Theorem score_at_most_10 (m : MetricRecord) (vt cp r p20 p50 : Q) :
  Volume_Trend m = Fin vt ->
  Change_Pct m = Fin cp ->
  RSI m = Fin r ->
  Price_vs_SMA20 m = Fin p20 ->
  Price_vs_SMA50 m = Fin p50 ->
  exists score,
    score_of m = Fin score /\
    (score <= 10)%Q /\
    (score == 10 <-> 100 <= vt /\ 50 <= cp /\ r == 50 /\ 40 <= p20 + p50)%Q.
Proof.
  intros Hvt Hcp Hr H20 H50.
  destruct (rsi_score_Fin m r Hr) as (yr & Er & Hr1 & Hr2 & _).
  unfold score_of. rewrite Er. unfold volume_score, change_score, sma_score.
  rewrite Hvt, Hcp, H20, H50. cbn [PyFloat.add].
  rewrite !div_Fin by (intros H; discriminate H).
  destruct (py_min_Fin (vt / 10) 10) as (yv & -> & Hv1 & Hv2 & Hv3 & _).
  destruct (py_min_Fin (cp / 5) 10) as (yc & -> & Hc1 & Hc2 & Hc3 & _).
  destruct (py_min_Fin ((p20 + p50) / 2 / 2) 10) as (ys & -> & Hs1 & Hs2 & Hs3 & _).
  cbn [PyFloat.mul PyFloat.add]. eexists. split; [reflexivity|].
  assert (Ev : (vt / 10 == vt * (1 # 10))%Q) by (unfold Qdiv; reflexivity).
  assert (Ec : (cp / 5 == cp * (1 # 5))%Q) by (unfold Qdiv; reflexivity).
  assert (Es : ((p20 + p50) / 2 / 2 == (p20 + p50) * (1 # 4))%Q)
    by (unfold Qdiv; change (/ 2)%Q with (1 # 2)%Q; ring).
  split; [lra|]. split.
  - intros H.
    assert (yv == 10)%Q by lra. assert (yc == 10)%Q by lra.
    assert (yr == 10)%Q by lra. assert (ys == 10)%Q by lra.
    assert (10 <= vt / 10)%Q by now apply Hv3.
    assert (10 <= cp / 5)%Q by now apply Hc3.
    assert (10 <= (p20 + p50) / 2 / 2)%Q by now apply Hs3.
    assert (r == 50)%Q by now apply Hr2.
    repeat split; lra.
  - intros (H1 & H2 & H3 & H4).
    assert (yv == 10)%Q by (apply Hv3; lra).
    assert (yc == 10)%Q by (apply Hc3; lra).
    assert (yr == 10)%Q by now apply Hr2.
    assert (ys == 10)%Q by (apply Hs3; lra).
    lra.
Qed.

(** X9.  Missing values in the score.  A missing volume trend, change or
    deviation from an average makes the whole score missing, whatever the
    other fields hold; a missing RSI does not: its component counts as
    0. *)
Theorem score_of_missing_values (m : MetricRecord) :
  (PyFloat.is_nan (Volume_Trend m) || PyFloat.is_nan (Change_Pct m) ||
   PyFloat.is_nan (Price_vs_SMA20 m) || PyFloat.is_nan (Price_vs_SMA50 m) = true ->
   score_of m = NaN) /\
  (PyFloat.is_nan (RSI m) = true -> rsi_score m = Fin 0).
Proof.
  split.
  - intros H. unfold score_of, volume_score, change_score, sma_score.
    repeat (apply orb_prop in H; destruct H as [H|H]).
    + destruct (Volume_Trend m); try discriminate.
      change (py_min (NaN / Fin 10)%F (Fin 10)) with NaN.
      change (NaN * Fin (3 # 10))%F with NaN.
      now rewrite add_NaN_r, !add_NaN_l.
    + destruct (Change_Pct m); try discriminate.
      change (py_min (NaN / Fin 5)%F (Fin 10)) with NaN.
      change (NaN * Fin (1 # 4))%F with NaN.
      now rewrite add_NaN_r, !add_NaN_l.
    + destruct (Price_vs_SMA20 m); try discriminate.
      rewrite add_NaN_l.
      change (py_min (NaN / Fin 2 / Fin 2)%F (Fin 10)) with NaN.
      change (NaN * Fin (1 # 5))%F with NaN.
      now rewrite add_NaN_r.
    + destruct (Price_vs_SMA50 m); try discriminate.
      rewrite add_NaN_r.
      change (py_min (NaN / Fin 2 / Fin 2)%F (Fin 10)) with NaN.
      change (NaN * Fin (1 # 5))%F with NaN.
      now rewrite add_NaN_r.
  - intros H. unfold rsi_score. destruct (RSI m); try discriminate. reflexivity.
Qed.

Lemma py_min_monotone (x x' c : Q) (y y' : Q) :
  (x <= x')%Q ->
  py_min (Fin x) (Fin c) = Fin y -> py_min (Fin x') (Fin c) = Fin y' ->
  (y <= y')%Q.
Proof.
  intros Hx Hy Hy'.
  destruct (py_min_Fin x c) as (z & Ez & Hz1 & Hz2 & _ & _).
  destruct (py_min_Fin x' c) as (z' & Ez' & _ & _ & Hz3 & Hz4).
  assert (z = y) by congruence. assert (z' = y') by congruence. subst z z'.
  destruct (Qlt_le_dec c x') as [H|H].
  - assert (y' == c)%Q by (apply Hz3; lra). lra.
  - rewrite (Hz4 H). lra.
Qed.

(** X20.  The score moves with its inputs.  Between two records of
    finite numbers, the score does not fall when the volume trend, the
    change and the sum of the deviations from the averages do not fall
    and the RSI does not move away from 50. *)
Theorem score_of_monotone (m m' : MetricRecord)
    (vt vt' cp cp' r r' p20 p20' p50 p50' : Q) :
  Volume_Trend m = Fin vt -> Volume_Trend m' = Fin vt' ->
  Change_Pct m = Fin cp -> Change_Pct m' = Fin cp' ->
  RSI m = Fin r -> RSI m' = Fin r' ->
  Price_vs_SMA20 m = Fin p20 -> Price_vs_SMA20 m' = Fin p20' ->
  Price_vs_SMA50 m = Fin p50 -> Price_vs_SMA50 m' = Fin p50' ->
  (vt <= vt')%Q ->
  (cp <= cp')%Q ->
  (Qabs (r' - 50) <= Qabs (r - 50))%Q ->
  (p20 + p50 <= p20' + p50')%Q ->
  (score_of m <=? score_of m')%F = true.
Proof.
  intros Hvt Hvt' Hcp Hcp' Hr Hr' H20 H20' H50 H50' Lvt Lcp Lr Ls.
  destruct (rsi_score_Fin m r Hr) as (yr & Er & Br & _ & Hin & Hout).
  destruct (rsi_score_Fin m' r' Hr') as (yr' & Er' & Br' & _ & Hin' & Hout').
  assert (Lrsi : (yr <= yr')%Q).
  { destruct (Qlt_le_dec 50 (Qabs (r - 50))) as [H|H].
    - rewrite Hout by lra. lra.
    - rewrite Hin, Hin' by lra.
      assert (E : forall a, (a / 5 == a * (1 # 5))%Q) by (intros a; unfold Qdiv; reflexivity).
      rewrite !E. lra. }
  unfold score_of. rewrite Er, Er'. unfold volume_score, change_score, sma_score.
  rewrite Hvt, Hvt', Hcp, Hcp', H20, H20', H50, H50'. cbn [PyFloat.add].
  rewrite !div_Fin by (intros H; discriminate H).
  destruct (py_min_Fin (vt / 10) 10) as (yv & Ev & _).
  destruct (py_min_Fin (vt' / 10) 10) as (yv' & Ev' & _).
  destruct (py_min_Fin (cp / 5) 10) as (yc & Ec & _).
  destruct (py_min_Fin (cp' / 5) 10) as (yc' & Ec' & _).
  destruct (py_min_Fin ((p20 + p50) / 2 / 2) 10) as (ys & Es & _).
  destruct (py_min_Fin ((p20' + p50') / 2 / 2) 10) as (ys' & Es' & _).
  assert (Lv : (yv <= yv')%Q).
  { apply (py_min_monotone (vt / 10) (vt' / 10) 10); try assumption.
    unfold Qdiv. apply Qmult_le_compat_r; [exact Lvt | discriminate]. }
  assert (Lc : (yc <= yc')%Q).
  { apply (py_min_monotone (cp / 5) (cp' / 5) 10); try assumption.
    unfold Qdiv. apply Qmult_le_compat_r; [exact Lcp | discriminate]. }
  assert (Lsma : (ys <= ys')%Q).
  { apply (py_min_monotone ((p20 + p50) / 2 / 2) ((p20' + p50') / 2 / 2) 10);
      try assumption.
    unfold Qdiv. repeat (apply Qmult_le_compat_r; [|discriminate]). exact Ls. }
  rewrite Ev, Ev', Ec, Ec', Es, Es'. cbn [PyFloat.mul PyFloat.add].
  apply leb_Fin. lra.
Qed.

(** ** The indicators of [calculate_metrics] *)

Lemma diff_Fin (c : Q) (cs : list Q) :
  diff (map PyFloat.Fin (c :: cs)) = NaN :: map PyFloat.Fin (changes (c :: cs)).
Proof.
  unfold diff, shift. cbn [map map2].
  rewrite map2_removelast by reflexivity.
  change (Fin c - NaN)%F with NaN. f_equal.
  revert c. induction cs as [|b cs IH]; intros c; [reflexivity|].
  cbn [map map2 changes]. f_equal. apply IH.
Qed.

Lemma gain_source_Fin (c : Q) (cs : list Q) :
  where_ (fun d => (d >? Fin 0)%F) (Fin 0) (diff (map PyFloat.Fin (c :: cs))) =
  map PyFloat.Fin (map rise (0%Q :: changes (c :: cs))).
Proof.
  rewrite diff_Fin. unfold where_. cbn [map]. f_equal.
  rewrite !map_map. apply map_ext. intros d.
  unfold rise, PyFloat.gtb. cbn [PyFloat.ltb]. now destruct (PyFloat.Qltb 0 d).
Qed.

Lemma loss_source_Fin (c : Q) (cs : list Q) :
  series_neg
    (where_ (fun d => (d <? Fin 0)%F) (Fin 0) (diff (map PyFloat.Fin (c :: cs)))) =
  map PyFloat.Fin (map fall (0%Q :: changes (c :: cs))).
Proof.
  rewrite diff_Fin. unfold where_, series_neg. cbn [map]. f_equal.
  rewrite !map_map. apply map_ext. intros d.
  unfold fall. cbn [PyFloat.ltb]. now destruct (PyFloat.Qltb d 0).
Qed.

Lemma changes_length (cs : list Q) : length (changes cs) = length cs - 1.
Proof.
  induction cs as [|a [|b cs] IH]; try reflexivity.
  cbn [changes length] in *. lia.
Qed.

Lemma rolling_mean_last_value (w : nat) (xs : list Q) :
  1 <= w <= length xs ->
  nth_error (rolling_mean w (map PyFloat.Fin xs)) (length xs - 1) =
  Some (Fin (Qsum (skipn (length xs - w) xs) / inject_Z (Z.of_nat w))).
Proof.
  intros Hw.
  rewrite nth_error_rolling_mean by (rewrite length_map; lia).
  rewrite map_map. cbn [inf_to_nan PyFloat.is_inf].
  unfold window_at.
  replace (S (length xs - 1)) with (length xs) by lia.
  rewrite firstn_all2 by (rewrite length_map; lia).
  rewrite skipn_map. set (qs := skipn (length xs - w) xs).
  assert (Hq : length qs = w) by (subst qs; rewrite length_skipn; lia).
  assert (Hne : qs <> []) by (destruct qs; [cbn in Hq; lia | discriminate]).
  unfold window_mean. rewrite filter_notna_Fin, length_map, Hq, Nat.leb_refl.
  rewrite fsum_Fin, len_map. unfold PyFloat.of_Z.
  pose proof (inject_Z_len_pos qs Hne) as Hn. rewrite div_Fin by lra.
  unfold len. now rewrite Hq.
Qed.

Lemma rise_nonneg (d : Q) : (0 <= rise d)%Q.
Proof.
  unfold rise. destruct (PyFloat.Qltb 0 d) eqn:E; [|lra].
  apply Qltb_lt in E. lra.
Qed.

Lemma fall_nonneg (d : Q) : (0 <= fall d)%Q.
Proof.
  unfold fall. destruct (PyFloat.Qltb d 0) eqn:E; [|lra].
  apply Qltb_lt in E. lra.
Qed.

Lemma Qsum_map_nonneg (f : Q -> Q) (l : list Q) :
  (forall d, 0 <= f d)%Q -> (0 <= Qsum (map f l))%Q.
Proof.
  intros H. apply Qsum_nonneg, Forall_map, Forall_forall. intros d _. apply H.
Qed.

(** The last entry of the RSI series of finite closing prices, from the
    rises [g] and the falls [l] of the last 14 changes. *)
Lemma rsi_last_value (c : Q) (cs : list Q) :
  14 <= length (c :: cs) ->
  let recent := skipn (length (c :: cs) - 14) (0%Q :: changes (c :: cs)) in
  let g := Qsum (map rise recent) in
  let l := Qsum (map fall recent) in
  exists r,
    nth_error (rsi (map PyFloat.Fin (c :: cs))) (length (c :: cs) - 1) = Some r /\
    (((g + l == 0)%Q /\ r = NaN) \/
     (~ (g + l == 0)%Q /\ exists q, r = Fin q /\ (q == 100 * g / (g + l))%Q)).
Proof.
  intros Hn recent g l.
  set (close := map PyFloat.Fin (c :: cs)).
  assert (Hlen : length (0%Q :: changes (c :: cs)) = length (c :: cs)).
  { cbn [length]. rewrite changes_length. cbn [length]. lia. }
  destruct (rsi_nth close (length (c :: cs) - 1)) as (g' & l' & Hg & Hl & _ & Hr).
  { unfold close. rewrite length_map. lia. }
  assert (Eg : g' = Fin (g / inject_Z 14)).
  { unfold gain, delta, close in Hg. rewrite gain_source_Fin in Hg.
    rewrite <- Hlen, <- (length_map rise) in Hg.
    rewrite rolling_mean_last_value in Hg by (rewrite length_map; lia).
    rewrite length_map, Hlen, skipn_map in Hg. now injection Hg as <-. }
  assert (El : l' = Fin (l / inject_Z 14)).
  { unfold loss, delta, close in Hl. rewrite loss_source_Fin in Hl.
    rewrite <- Hlen, <- (length_map fall) in Hl.
    rewrite rolling_mean_last_value in Hl by (rewrite length_map; lia).
    rewrite length_map, Hlen, skipn_map in Hl. now injection Hl as <-. }
  subst g' l'. eexists. split; [exact Hr|].
  assert (Hg0 : (0 <= g)%Q) by apply Qsum_map_nonneg, rise_nonneg.
  assert (Hl0 : (0 <= l)%Q) by apply Qsum_map_nonneg, fall_nonneg.
  clearbody g l. clear recent.
  assert (E14 : (inject_Z 14 == 14)%Q) by reflexivity.
  assert (Hdg : (g / inject_Z 14 == g * (1 # 14))%Q) by (rewrite E14; reflexivity).
  assert (Hdl : (l / inject_Z 14 == l * (1 # 14))%Q) by (rewrite E14; reflexivity).
  cbn [PyFloat.div].
  destruct (Qeq_bool (l / inject_Z 14) 0) eqn:Hlz.
  - apply Qeq_bool_iff in Hlz. assert (l == 0)%Q by lra.
    destruct (Qeq_bool (g / inject_Z 14) 0) eqn:Hgz.
    + apply Qeq_bool_iff in Hgz. left. split; [lra | reflexivity].
    + apply Qeq_bool_false in Hgz. right. split; [lra|].
      assert (Hpos : PyFloat.Qltb 0 (g / inject_Z 14) = true) by (apply Qltb_lt; lra).
      rewrite Hpos. cbn. eexists. split; [reflexivity|].
      setoid_replace (g + l)%Q with g by lra. field. lra.
  - apply Qeq_bool_false in Hlz. assert (0 < l)%Q by lra.
    right. split; [lra|]. cbn [PyFloat.add].
    assert (Hratio : (0 <= g / inject_Z 14 / (l / inject_Z 14))%Q).
    { apply Qdiv_nonneg; lra. }
    rewrite (proj2 (Qeq_bool_false _ 0)) by lra.
    cbn [PyFloat.sub PyFloat.neg PyFloat.add].
    eexists. split; [reflexivity|]. rewrite E14. field. lra.
Qed.

Section IndicatorProperties.
Variable np_sqrt : Q -> Q.

(** X10.  The RSI of finite closing prices in closed form.  With at least
    14 rows, let [g] be the sum of the rises and [l] the sum of the falls
    over the last 14 changes, where the missing change before the first
    row counts as no change.  The RSI is [100 * g / (g + l)], and it is 50
    when the price did not move at all.  So it is 100 when the price never
    fell and rose at least once, and 0 when it never rose and fell at
    least once. *)
Theorem rsi_closed_form (data : DataFrame) (cs : list Q) :
  column Close data = map PyFloat.Fin cs ->
  14 <= length cs ->
  let recent := skipn (length cs - 14) (0%Q :: changes cs) in
  let g := Qsum (map rise recent) in
  let l := Qsum (map fall recent) in
  exists m data' q,
    symbol_metrics np_sqrt data = Ok (m, data') /\
    RSI m = Fin q /\
    ((g + l == 0)%Q -> q = 50%Q) /\
    (~ (g + l == 0)%Q -> (q == 100 * g / (g + l))%Q) /\
    ((l == 0)%Q -> (0 < g)%Q -> (q == 100)%Q) /\
    ((g == 0)%Q -> (0 < l)%Q -> (q == 0)%Q).
Proof.
  intros Hclose Hn recent g l.
  assert (Hrows : rows data <> []).
  { intros E. unfold column in Hclose. rewrite E in Hclose.
    destruct cs; [cbn in Hn; lia | discriminate]. }
  destruct (symbol_metrics_total np_sqrt data Hrows) as (m & Hm).
  pose proof (symbol_metrics_inv np_sqrt data m _ Hm) as Hinv. cbv zeta in Hinv.
  destruct Hinv as (last & base & s20 & s50 & last_rsi & _ & _ & _ & _ & Hrsi & _ & Em).
  assert (Hfield : RSI m = if negb (PyFloat.is_nan last_rsi) then last_rsi else Fin 50)
    by (rewrite Em; reflexivity).
  destruct cs as [|c cs]; [cbn in Hn; lia|].
  destruct (rsi_last_value c cs Hn) as (r & Hr & Hcases).
  fold recent g l in Hcases.
  assert (last_rsi = r).
  { rewrite Hclose in Hrsi.
    destruct (iloc_last (rsi (map PyFloat.Fin (c :: cs)))) as (a & Ha & Hi).
    - rewrite rsi_length, length_map. cbn [length]. lia.
    - rewrite rsi_length, length_map in Ha. congruence. }
  subst last_rsi.
  assert (Hg0 : (0 <= g)%Q) by apply Qsum_map_nonneg, rise_nonneg.
  assert (Hl0 : (0 <= l)%Q) by apply Qsum_map_nonneg, fall_nonneg.
  destruct Hcases as [(Hz & ->)|(Hnz & q & -> & Hq)].
  - exists m, (set_Returns data (pct_change (column Close data))), 50%Q.
    split; [exact Hm|]. split; [exact Hfield|].
    split; [reflexivity|]. split; [contradiction|]. split; intros; lra.
  - exists m, (set_Returns data (pct_change (column Close data))), q.
    split; [exact Hm|]. split; [exact Hfield|].
    split; [contradiction|]. split; [intros _; exact Hq|]. split.
    + intros Hl Hg. rewrite Hq. setoid_replace (g + l)%Q with g by lra. field. lra.
    + intros Hg Hl. rewrite Hq. setoid_replace g with 0%Q by lra. field. lra.
Qed.
End IndicatorProperties.

Lemma pct_bound (a b : Q) :
  (0 < a)%Q -> (0 < b)%Q ->
  exists q, ((Fin a - Fin b) / Fin b * Fin 100)%F = Fin q /\ (-100 < q)%Q.
Proof.
  intros Ha Hb. cbn [PyFloat.sub PyFloat.add PyFloat.neg].
  rewrite div_Fin by lra. eexists. split; [reflexivity|].
  assert (H : (0 < a / b)%Q) by (apply Qlt_shift_div_l; lra).
  setoid_replace ((a + - b) / b * 100)%Q with (a / b * 100 - 100)%Q by (field; lra).
  lra.
Qed.

Lemma volume_trend_bound (vs : list Q) :
  5 <= length vs ->
  Forall (fun q => 0 <= q)%Q vs ->
  let volume := map PyFloat.Fin vs in
  let trend := ((mean (tail 5 volume) - mean volume) / mean volume * Fin 100)%F in
  exists a, mean volume = Fin a /\ (0 <= a)%Q /\
            (if Qeq_bool a 0 then trend = NaN
             else exists q, trend = Fin q /\ (-100 <= q)%Q).
Proof.
  intros Hlen Hvs volume trend. subst trend volume.
  destruct (volume_trend_Fin vs Hlen Hvs) as (a & Ha & Ha0 & Htrend).
  cbv zeta in Htrend. exists a. split; [exact Ha|]. split; [exact Ha0|].
  destruct (Qeq_bool a 0) eqn:E; [exact Htrend|].
  apply Qeq_bool_false in E. rewrite Ha. clear Htrend.
  set (recent := skipn (length vs - 5) vs).
  assert (Hrecent : recent <> []).
  { intros E'. apply (f_equal (@length Q)) in E'. subst recent.
    rewrite length_skipn in E'. cbn in E'. lia. }
  rewrite tail_Fin. fold recent. rewrite (mean_Fin recent Hrecent).
  pose proof (inject_Z_len_pos recent Hrecent) as Hk.
  assert (Hr : (0 <= Qsum recent)%Q).
  { apply Qsum_nonneg, Forall_forall. intros q Hq.
    rewrite Forall_forall in Hvs. eapply Hvs, In_skipn, Hq. }
  set (r := (Qsum recent / inject_Z (len recent))%Q).
  assert (Hr0 : (0 <= r)%Q) by (apply Qdiv_nonneg; lra).
  cbn [PyFloat.sub PyFloat.add PyFloat.neg]. rewrite div_Fin by exact E.
  eexists. split; [reflexivity|].
  assert (H : (0 <= r / a)%Q) by (apply Qdiv_nonneg; lra).
  setoid_replace ((r + - a) / a * 100)%Q with (r / a * 100 - 100)%Q by (field; lra).
  lra.
Qed.

Section RecordProperties.
Variable np_sqrt : Q -> Q.

(** The record of a time series in numbers: the price is above zero, the
    change and the deviations from the averages are above -100, the RSI is
    between 0 and 100, and the volume trend is missing without volume and
    at least -100 otherwise. *)
Lemma symbol_metrics_bounds (data : DataFrame) :
  TimeSeries data ->
  5 <= length (rows data) ->
  exists m data' price cp p20 p50 r,
    symbol_metrics np_sqrt data = Ok (m, data') /\
    Current_Price m = Fin price /\ (0 < price)%Q /\
    Change_Pct m = Fin cp /\ (-100 < cp)%Q /\
    Price_vs_SMA20 m = Fin p20 /\ (-100 < p20)%Q /\
    Price_vs_SMA50 m = Fin p50 /\ (-100 < p50)%Q /\
    RSI m = Fin r /\ (0 <= r <= 100)%Q /\
    (if PyFloat.eqb (Avg_Volume m) (Fin 0)
     then Volume_Trend m = NaN
     else exists vt, Volume_Trend m = Fin vt /\ (-100 <= vt)%Q).
Proof.
  intros Hts Hn.
  destruct (TimeSeries_columns data Hts) as (cs & vs & Ec & Ev & Hcs & Hvs & Lc & Lv).
  destruct (symbol_metrics_total np_sqrt data) as (m & Hm).
  { intros E. rewrite E in Hn. cbn in Hn. lia. }
  destruct (symbol_metrics_inv _ _ _ _ Hm)
    as (last & base & s20 & s50 & r & Hlast & Hbase & H20 & H50 & Hr & _ & ->).
  assert (Hlen : len (rows data) = len cs) by (unfold len; now rewrite Lc).
  rewrite Hlen in H20, H50. rewrite Ec in *. rewrite Ev in *.
  apply iloc_In, (In_map_Fin_pos cs _ Hcs) in Hlast. destruct Hlast as (c & -> & Hc).
  apply iloc_In, (In_map_Fin_pos cs _ Hcs) in Hbase. destruct Hbase as (b & -> & Hb).
  apply (sma_Fin 20 cs) in H20; [|lia | exact Hcs | eauto].
  apply (sma_Fin 50 cs) in H50; [|lia | exact Hcs | eauto].
  destruct H20 as (q20 & -> & Hq20). destruct H50 as (q50 & -> & Hq50).
  destruct (volume_trend_bound vs) as (a & Ha & Ha0 & Htrend); [lia | exact Hvs|].
  cbv zeta in Htrend.
  assert (H1 : 1 <= length (map PyFloat.Fin cs)) by (rewrite length_map; lia).
  destruct (current_rsi_range _ r H1 Hr) as (ratio & _ & (q & Hq & Hq100) & _).
  destruct (pct_bound c b Hc Hb) as (cp & Ecp & Hcp).
  destruct (pct_bound c q20 Hc Hq20) as (p20 & Ep20 & Hp20).
  destruct (pct_bound c q50 Hc Hq50) as (p50 & Ep50 & Hp50).
  eexists _, _, c, cp, p20, p50, q. split; [exact Hm|].
  cbn [Current_Price Change_Pct Avg_Volume Volume_Trend RSI Price_vs_SMA20
       Price_vs_SMA50].
  rewrite Ha. cbn [PyFloat.eqb]. rewrite Ha in Htrend.
  repeat split; try assumption; try lra.
Qed.

(** X11.  The score of a time series.  For a frame with at least 5 rows
    that keeps the invariant of a time series, [calculate_metrics]
    followed by the scoring of [predict_stocks] gives a finite score above
    -18 and of at most 10 when some volume was traded, and a missing score
    when none was. *)
Theorem score_of_time_series (data : DataFrame) :
  TimeSeries data ->
  5 <= length (rows data) ->
  exists m data',
    symbol_metrics np_sqrt data = Ok (m, data') /\
    (if PyFloat.eqb (Avg_Volume m) (Fin 0)
     then score_of m = NaN
     else exists score, score_of m = Fin score /\ (-18 < score <= 10)%Q).
Proof.
  intros Hts Hn.
  destruct (symbol_metrics_bounds data Hts Hn)
    as (m & data' & price & cp & p20 & p50 & r & Hm & _ & _ & Hcp & Bcp & H20 & B20
        & H50 & B50 & Hr & Br & Hvt).
  exists m, data'. split; [exact Hm|].
  destruct (PyFloat.eqb (Avg_Volume m) (Fin 0)).
  - unfold score_of, volume_score. rewrite Hvt.
    change (py_min (NaN / Fin 10)%F (Fin 10)) with NaN.
    change (NaN * Fin (3 # 10))%F with NaN.
    now rewrite add_NaN_r, !add_NaN_l.
  - destruct Hvt as (vt & Hvt & Bvt).
    destruct (rsi_score_Fin m r Hr) as (yr & Er & Hr1 & _).
    unfold score_of. rewrite Er. unfold volume_score, change_score, sma_score.
    rewrite Hvt, Hcp, H20, H50. cbn [PyFloat.add].
    rewrite !div_Fin by (intros H; discriminate H).
    destruct (py_min_Fin (vt / 10) 10) as (yv & -> & Hv1 & Hv2 & Hv3 & Hv4).
    destruct (py_min_Fin (cp / 5) 10) as (yc & -> & Hc1 & Hc2 & Hc3 & Hc4).
    destruct (py_min_Fin ((p20 + p50) / 2 / 2) 10) as (ys & -> & Hs1 & Hs2 & Hs3 & Hs4).
    cbn [PyFloat.mul PyFloat.add]. eexists. split; [reflexivity|].
    assert (Ev : (vt / 10 == vt * (1 # 10))%Q) by (unfold Qdiv; reflexivity).
    assert (Ec : (cp / 5 == cp * (1 # 5))%Q) by (unfold Qdiv; reflexivity).
    assert (Es : ((p20 + p50) / 2 / 2 == (p20 + p50) * (1 # 4))%Q)
      by (unfold Qdiv; change (/ 2)%Q with (1 # 2)%Q; ring).
    assert (Lv : (-10 <= yv)%Q).
    { destruct (Qlt_le_dec 10 (vt / 10)) as [H|H].
      - assert (yv == 10)%Q by (apply Hv3; lra). lra.
      - rewrite (Hv4 H). lra. }
    assert (Lc : (-20 < yc)%Q).
    { destruct (Qlt_le_dec 10 (cp / 5)) as [H|H].
      - assert (yc == 10)%Q by (apply Hc3; lra). lra.
      - rewrite (Hc4 H). lra. }
    assert (Ls : (-50 < ys)%Q).
    { destruct (Qlt_le_dec 10 ((p20 + p50) / 2 / 2)) as [H|H].
      - assert (ys == 10)%Q by (apply Hs3; lra). lra.
      - rewrite (Hs4 H). lra. }
    split; lra.
Qed.

Lemma sma_value (w : nat) (cs : list Q) (price : Q) (s : pyfloat) :
  1 <= w ->
  (if (len cs >=? Z.of_nat w)%Z
   then iloc (rolling_mean w (map PyFloat.Fin cs)) (-1) else Ok (Fin price)) = Ok s ->
  s = Fin (if w <=? length cs then window_average w cs else price).
Proof.
  intros Hw H. destruct (len cs >=? Z.of_nat w)%Z eqn:E.
  - apply geb_true_ge in E. unfold len in E.
    rewrite (proj2 (Nat.leb_le w (length cs))) by lia.
    destruct (iloc_last (rolling_mean w (map PyFloat.Fin cs))) as (a & Ha & Ha').
    { rewrite rolling_mean_length, length_map. lia. }
    rewrite rolling_mean_length, length_map, rolling_mean_last_value in Ha by lia.
    unfold window_average. congruence.
  - apply geb_false_lt in E. unfold len in E.
    rewrite (proj2 (Nat.leb_gt w (length cs))) by lia. congruence.
Qed.

(** X12.  The moving averages of finite closing prices.  [SMA_20] is the
    average of the last 20 closing prices when the frame has 20 rows and
    the current price otherwise, and likewise [SMA_50] with 50.  With
    fewer than 20 rows both are the current price, so the deviations
    vanish and the component of the score for the averages is 0. *)
Theorem moving_averages (data : DataFrame) (cs : list Q) :
  column Close data = map PyFloat.Fin cs ->
  1 <= length cs ->
  exists m data' price,
    symbol_metrics np_sqrt data = Ok (m, data') /\
    nth_error cs (length cs - 1) = Some price /\
    Current_Price m = Fin price /\
    SMA_20 m = Fin (if 20 <=? length cs then window_average 20 cs else price) /\
    SMA_50 m = Fin (if 50 <=? length cs then window_average 50 cs else price) /\
    (length cs < 20 -> ~ (price == 0)%Q ->
     PyFloat.eqb (sma_score m) (Fin 0) = true).
Proof.
  intros Hclose Hn.
  assert (Hrows : length (rows data) = length cs).
  { rewrite <- (column_length Close), Hclose. apply length_map. }
  destruct (symbol_metrics_total np_sqrt data) as (m & Hm).
  { intros E. rewrite E in Hrows. cbn in Hrows. lia. }
  destruct (symbol_metrics_inv _ _ _ _ Hm)
    as (last & base & s20 & s50 & r & Hlast & _ & H20 & H50 & _ & _ & Em).
  assert (Hlen : len (rows data) = len cs) by (unfold len; now rewrite Hrows).
  rewrite Hlen in H20, H50. rewrite Hclose in *.
  destruct (iloc_last (map PyFloat.Fin cs)) as (a & Ha & Ha').
  { rewrite length_map. lia. }
  rewrite length_map, nth_error_map in Ha.
  destruct (nth_error cs (length cs - 1)) as [price|] eqn:Eprice; [|discriminate].
  injection Ha as <-.
  assert (last = Fin price) by congruence. subst last.
  apply (sma_value 20) in H20; [|lia]. apply (sma_value 50) in H50; [|lia].
  eexists m, _, price. split; [exact Hm|]. split; [reflexivity|].
  rewrite Em. cbn [Current_Price SMA_20 SMA_50].
  split; [reflexivity|]. split; [exact H20|]. split; [exact H50|].
  intros Hshort Hprice.
  rewrite (proj2 (Nat.leb_gt 20 (length cs))) in H20 by lia.
  rewrite (proj2 (Nat.leb_gt 50 (length cs))) in H50 by lia.
  subst s20 s50. unfold sma_score. cbn [Price_vs_SMA20 Price_vs_SMA50].
  cbn [PyFloat.sub PyFloat.neg PyFloat.add].
  rewrite !div_Fin by first [exact Hprice | intros H; discriminate H].
  cbn [PyFloat.mul PyFloat.add].
  rewrite !div_Fin by (intros H; discriminate H).
  match goal with
  | |- context [py_min (Fin ?x) (Fin 10)] =>
      destruct (py_min_Fin x 10) as (y & -> & _ & _ & _ & Hy);
      assert (Hx : (x == 0)%Q) by (field; exact Hprice)
  end.
  cbn [PyFloat.eqb]. apply Qeq_bool_iff. rewrite Hy; lra.
Qed.

(** X13.  The shortest frame that [calculate_metrics] accepts.  With
    exactly 5 rows the recent volume is the average volume, so the volume
    trend says nothing: it is 0, or missing when no volume was traded. *)
Theorem five_rows_volume_trend (data : DataFrame) :
  TimeSeries data ->
  length (rows data) = 5 ->
  exists m data',
    symbol_metrics np_sqrt data = Ok (m, data') /\
    Recent_Volume m = Avg_Volume m /\
    (if PyFloat.eqb (Avg_Volume m) (Fin 0)
     then Volume_Trend m = NaN
     else PyFloat.eqb (Volume_Trend m) (Fin 0) = true).
Proof.
  intros Hts Hn.
  destruct (TimeSeries_columns data Hts) as (cs & vs & _ & Ev & _ & Hvs & _ & Lv).
  destruct (symbol_metrics_total np_sqrt data) as (m & Hm).
  { intros E. rewrite E in Hn. discriminate. }
  destruct (symbol_metrics_inv _ _ _ _ Hm)
    as (last & base & s20 & s50 & r & _ & _ & _ & _ & _ & _ & Em).
  eexists m, _. split; [exact Hm|]. rewrite Em.
  cbn [Recent_Volume Avg_Volume Volume_Trend]. rewrite Ev.
  assert (Htail : tail 5 (map PyFloat.Fin vs) = map PyFloat.Fin vs).
  { unfold tail. rewrite length_map, Lv, Hn. reflexivity. }
  rewrite Htail. split; [reflexivity|].
  assert (Hne : vs <> []) by (intros E; rewrite E in Lv; cbn in Lv; lia).
  rewrite (mean_Fin vs Hne). cbn [PyFloat.eqb].
  set (a := (Qsum vs / inject_Z (len vs))%Q).
  destruct (Qeq_bool a 0) eqn:E.
  - cbn [PyFloat.sub PyFloat.neg PyFloat.add PyFloat.div]. rewrite E.
    assert (E' : Qeq_bool (a + - a) 0 = true) by (apply Qeq_bool_iff; ring).
    now rewrite E'.
  - apply Qeq_bool_false in E.
    cbn [PyFloat.sub PyFloat.neg PyFloat.add]. rewrite div_Fin by exact E.
    cbn [PyFloat.mul PyFloat.eqb]. apply Qeq_bool_iff. field. exact E.
Qed.
End RecordProperties.

(** ** The labels, the factors and the figure *)

Lemma replace_JK_other (c : ascii) (rest : string) :
  Ascii.eqb c "."%char = false ->
  replace_JK (String c rest) = String c (replace_JK rest).
Proof.
  intros H. destruct rest as [|c2 [|c3 rest']]; cbn [replace_JK]; try reflexivity.
  now rewrite H.
Qed.

(** X14.  The labels of the tables and the charts.  For a ticker without
    a dot, the label of the symbol [ticker.JK] is the ticker, and the
    label of the ticker alone is the ticker again; so two symbols of that
    form never share a label. *)
Theorem replace_JK_suffix (ticker : string) :
  no_dot ticker = true ->
  replace_JK (ticker ++ ".JK") = ticker /\
  replace_JK ticker = ticker /\
  (forall other, no_dot other = true ->
                 replace_JK (ticker ++ ".JK") = replace_JK (other ++ ".JK") ->
                 ticker = other).
Proof.
  assert (H1 : forall t, no_dot t = true -> replace_JK (t ++ ".JK") = t).
  { induction t as [|c t IH]; intros H; [reflexivity|].
    cbn [no_dot] in H. apply andb_prop in H. destruct H as [Hc Ht].
    apply negb_true_iff in Hc. cbn [String.append].
    rewrite replace_JK_other by exact Hc. now rewrite IH. }
  assert (H2 : forall t, no_dot t = true -> replace_JK t = t).
  { induction t as [|c t IH]; intros H; [reflexivity|].
    cbn [no_dot] in H. apply andb_prop in H. destruct H as [Hc Ht].
    apply negb_true_iff in Hc.
    rewrite replace_JK_other by exact Hc. now rewrite IH. }
  intros H. split; [now apply H1|]. split; [now apply H2|].
  intros other Ho E. rewrite (H1 _ H), (H1 _ Ho) in E. exact E.
Qed.

Lemma In_prediction_factors (m : MetricRecord) :
  (In HighVolumeActivity (prediction_factors m) <->
   (Volume_Trend m >? Fin 0)%F = true) /\
  (In PositivePriceMomentum (prediction_factors m) <->
   (Change_Pct m >? Fin 0)%F = true) /\
  (In HealthyRSI (prediction_factors m) <->
   ((Fin 30 <=? RSI m)%F && (RSI m <=? Fin 70)%F)%bool = true) /\
  (In AboveMovingAverage (prediction_factors m) <->
   (Price_vs_SMA20 m >? Fin 0)%F = true).
Proof.
  unfold prediction_factors.
  destruct (Volume_Trend m >? Fin 0)%F, (Change_Pct m >? Fin 0)%F,
    ((Fin 30 <=? RSI m)%F && (RSI m <=? Fin 70)%F)%bool,
    (Price_vs_SMA20 m >? Fin 0)%F; cbn;
    repeat split; intros H; try reflexivity; try discriminate; auto;
    repeat (destruct H as [H|H]; try discriminate); try contradiction.
Qed.

Lemma pct_gtb (a b : Q) :
  (0 < b)%Q ->
  ((Fin a - Fin b) / Fin b * Fin 100 >? Fin 0)%F = (Fin b <? Fin a)%F.
Proof.
  intros Hb. cbn [PyFloat.sub PyFloat.add PyFloat.neg].
  rewrite div_Fin by lra. unfold PyFloat.gtb. cbn [PyFloat.mul PyFloat.ltb].
  apply eq_true_iff_eq. rewrite !Qltb_lt.
  assert (Hk : (0 < 100 / b)%Q) by (apply Qlt_shift_div_l; lra).
  setoid_replace ((a + - b) / b * 100)%Q with ((a - b) * (100 / b))%Q by (field; lra).
  split; intros H.
  - destruct (Qlt_le_dec b a) as [Hlt|Hle]; [exact Hlt|]. exfalso.
    assert (0 <= (b - a) * (100 / b))%Q by (apply Qmult_le_0_compat; lra).
    assert ((a - b) * (100 / b) == - ((b - a) * (100 / b)))%Q by ring.
    lra.
  - apply Qmult_lt_0_compat; lra.
Qed.

Lemma rsi_color_blue (r : Q) :
  rsi_color (Fin r) = blue <->
  ((Fin 30 <=? Fin r)%F && (Fin r <=? Fin 70)%F)%bool = true.
Proof.
  unfold rsi_color, PyFloat.gtb. cbn [PyFloat.ltb PyFloat.leb]. unfold PyFloat.Qltb.
  destruct (Qle_bool r 70), (Qle_bool 30 r); cbn; split; intros H;
    try reflexivity; discriminate.
Qed.

Section ReportProperties.
Variable np_sqrt : Q -> Q.

(** The record of a time series, field by field. *)
Lemma symbol_metrics_shape (data : DataFrame) :
  TimeSeries data ->
  5 <= length (rows data) ->
  exists m data' c b q20 a r,
    symbol_metrics np_sqrt data = Ok (m, data') /\
    iloc (column Close data)
         (if (len (rows data) >=? 30)%Z then (-30)%Z else 0%Z) = Ok (Fin b) /\
    (0 < c)%Q /\ (0 < b)%Q /\ (0 < q20)%Q /\ (0 <= a)%Q /\ (0 <= r)%Q /\
    ((a == 0)%Q -> (r == 0)%Q) /\
    Current_Price m = Fin c /\
    Change_Pct m = ((Fin c - Fin b) / Fin b * Fin 100)%F /\
    SMA_20 m = Fin q20 /\
    Price_vs_SMA20 m = ((Fin c - Fin q20) / Fin q20 * Fin 100)%F /\
    Avg_Volume m = Fin a /\
    Recent_Volume m = Fin r /\
    Volume_Trend m = ((Fin r - Fin a) / Fin a * Fin 100)%F /\
    percent (RSI m) /\
    (length (rows data) < 20 -> q20 = c).
Proof.
  intros Hts Hn.
  destruct (TimeSeries_columns data Hts) as (cs & vs & Ec & Ev & Hcs & Hvs & Lc & Lv).
  destruct (symbol_metrics_total np_sqrt data) as (m & Hm).
  { intros E. rewrite E in Hn. cbn in Hn. lia. }
  destruct (symbol_metrics_inv _ _ _ _ Hm)
    as (last & base & s20 & s50 & rsi_last & Hlast & Hbase & H20 & _ & Hr & _ & Em).
  pose proof Hbase as Hbase'.
  rewrite Ec in Hlast, Hbase, H20, Hr.
  apply iloc_In, (In_map_Fin_pos cs _ Hcs) in Hlast. destruct Hlast as (c & -> & Hc).
  apply iloc_In, (In_map_Fin_pos cs _ Hcs) in Hbase. destruct Hbase as (b & -> & Hb).
  assert (Hshort : length (rows data) < 20 -> s20 = Fin c).
  { intros Hlt. rewrite Z.geb_leb, (proj2 (Z.leb_gt _ _)) in H20
      by (unfold len; lia).
    congruence. }
  assert (Hlen : len (rows data) = len cs) by (unfold len; now rewrite Lc).
  rewrite Hlen in H20.
  apply (sma_Fin 20 cs) in H20; [|lia | exact Hcs | eauto].
  destruct H20 as (q20 & -> & Hq20).
  assert (Hne : vs <> []) by (intros E; rewrite E in Lv; cbn in Lv; lia).
  set (recent := skipn (length vs - 5) vs).
  assert (Hrecent : recent <> []).
  { intros E. apply (f_equal (@length Q)) in E. subst recent.
    rewrite length_skipn in E. cbn in E. lia. }
  pose proof (inject_Z_len_pos vs Hne) as Hk.
  pose proof (inject_Z_len_pos recent Hrecent) as Hk'.
  pose proof (Qsum_nonneg vs Hvs) as Hs.
  assert (Hsr : (0 <= Qsum recent <= Qsum vs)%Q).
  { split; [|apply Qsum_skipn_le, Hvs].
    apply Qsum_nonneg, Forall_forall. intros q Hq.
    rewrite Forall_forall in Hvs. eapply Hvs, In_skipn, Hq. }
  assert (H1 : 1 <= length (map PyFloat.Fin cs)) by (rewrite length_map; lia).
  destruct (current_rsi_range _ rsi_last H1 Hr) as (ratio & _ & Hpercent & _).
  exists m, (set_Returns data (pct_change (column Close data))), c, b, q20,
    (Qsum vs / inject_Z (len vs))%Q, (Qsum recent / inject_Z (len recent))%Q.
  split; [exact Hm|]. split; [exact Hbase'|].
  split; [exact Hc|]. split; [exact Hb|]. split; [exact Hq20|].
  split; [apply Qdiv_nonneg; lra|]. split; [apply Qdiv_nonneg; lra|].
  split.
  { intros Ha.
    assert (Hs0 : (Qsum vs == 0)%Q).
    { apply Qmult_integral_l with (x := (/ inject_Z (len vs))%Q).
      - intros H0. apply Qinv_lt_0_compat in Hk. lra.
      - rewrite <- Ha. unfold Qdiv. ring. }
    assert (H0 : (Qsum recent == 0)%Q) by lra.
    rewrite H0. unfold Qdiv. ring. }
  rewrite Em. cbn [Current_Price Change_Pct Avg_Volume Recent_Volume Volume_Trend
                   SMA_20 RSI Price_vs_SMA20].
  rewrite Ev, tail_Fin. fold recent.
  rewrite (mean_Fin vs Hne), (mean_Fin recent Hrecent).
  repeat split; try reflexivity; try exact Hpercent.
  intros Hlt. specialize (Hshort Hlt). congruence.
Qed.

(** X15.  The factors that the detailed report lists say what their text
    says.  For the record of a time series: high volume activity is
    listed exactly when the recent volume is above the average volume,
    positive momentum exactly when the price is above the price that the
    change is measured from, the healthy RSI exactly when the bar of the
    RSI chart is blue, and the moving average exactly when the price is
    above [SMA_20]; this last one is never listed for a frame of fewer
    than 20 rows. *)
Theorem prediction_factors_truthful (data : DataFrame) :
  TimeSeries data ->
  5 <= length (rows data) ->
  exists m data' base,
    symbol_metrics np_sqrt data = Ok (m, data') /\
    iloc (column Close data)
         (if (len (rows data) >=? 30)%Z then (-30)%Z else 0%Z) = Ok base /\
    (In HighVolumeActivity (prediction_factors m) <->
     (Avg_Volume m <? Recent_Volume m)%F = true) /\
    (In PositivePriceMomentum (prediction_factors m) <->
     (base <? Current_Price m)%F = true) /\
    (In HealthyRSI (prediction_factors m) <-> rsi_color (RSI m) = blue) /\
    (In AboveMovingAverage (prediction_factors m) <->
     (SMA_20 m <? Current_Price m)%F = true) /\
    (length (rows data) < 20 -> ~ In AboveMovingAverage (prediction_factors m)).
Proof.
  intros Hts Hn.
  destruct (symbol_metrics_shape data Hts Hn)
    as (m & data' & c & b & q20 & a & r & Hm & Hbase & Hc & Hb & Hq20 & Ha & Hr & Har
        & Eprice & Echange & Esma & Edev & Eavg & Erecent & Etrend & (q & Ersi & _)
        & Hshort).
  destruct (In_prediction_factors m) as (Fv & Fc & Fr & Fs).
  exists m, data', (Fin b). split; [exact Hm|]. split; [exact Hbase|].
  rewrite Fv, Fc, Fr, Fs, Etrend, Echange, Edev, Eavg, Erecent, Eprice, Esma, Ersi.
  rewrite (pct_gtb c b Hb), (pct_gtb c q20 Hq20), rsi_color_blue.
  split.
  { destruct (Qeq_dec a 0) as [E|E].
    - specialize (Har E). cbn [PyFloat.sub PyFloat.add PyFloat.neg PyFloat.div].
      rewrite (proj2 (Qeq_bool_iff a 0) E).
      assert (E' : Qeq_bool (r + - a) 0 = true) by (apply Qeq_bool_iff; lra).
      rewrite E'. cbn. split; [discriminate|]. rewrite Qltb_lt. lra.
    - rewrite pct_gtb by lra. reflexivity. }
  split; [reflexivity|]. split; [reflexivity|]. split; [reflexivity|].
  intros Hlt. rewrite (Hshort Hlt). cbn [PyFloat.ltb]. rewrite Qltb_lt. lra.
Qed.
End ReportProperties.

Lemma field_of_each_found (field : MetricRecord -> pyfloat)
    (metrics : dict MetricRecord) (items : list (string * MetricRecord)) :
  (forall s m, In (s, m) items -> dict_find metrics s = Some m) ->
  field_of_each field metrics (keys items) =
  Ok (map (fun e => field (snd e)) items).
Proof.
  induction items as [|[s m] items IH]; intros H; [reflexivity|].
  cbn [keys map fst field_of_each]. unfold dict_get.
  rewrite (H s m) by now left. cbn [bind].
  unfold keys in IH. rewrite IH by (intros; apply H; now right). reflexivity.
Qed.

Lemma bar_of_items {A C : Type} (label : string -> string)
    (value : string * A -> pyfloat) (paint : pyfloat -> C)
    (items : list (string * A)) :
  bar (map label (map fst items)) (map value items) (map paint (map value items)) =
  map (fun e => mkChartBar (label (fst e)) (value e) (paint (value e))) items.
Proof.
  unfold bar. induction items as [|e items IH]; [reflexivity|].
  cbn [map combine]. now rewrite IH.
Qed.

Lemma texts_of_bars {A C : Type} (text : ChartBar C -> pyfloat -> BarText)
    (f : A -> ChartBar C) (value : A -> pyfloat) (items : list A) :
  (forall e, height (f e) = value e) ->
  map (fun '(b, v) => text b v) (combine (map f items) (map value items)) =
  map (fun b => text b (height b)) (map f items).
Proof.
  intros H. induction items as [|e items IH]; [reflexivity|].
  cbn [map combine]. now rewrite IH, H.
Qed.

Lemma bar_ticks {C : Type} (labels : list string) (values : list pyfloat)
    (colors : list C) :
  length values = length labels -> length colors = length labels ->
  map tick (bar labels values colors) = labels /\
  map height (bar labels values colors) = values /\
  map bar_color (bar labels values colors) = colors.
Proof.
  unfold bar. revert values colors.
  induction labels as [|l labels IH]; intros [|v values] [|c colors] Hv Hc;
    try discriminate; [repeat split|].
  cbn [combine map tick height bar_color].
  destruct (IH values colors) as (H1 & H2 & H3);
    [now injection Hv | now injection Hc|].
  now rewrite H1, H2, H3.
Qed.

Lemma texts_of_heights {C : Type} (text : ChartBar C -> pyfloat -> BarText)
    (bars : list (ChartBar C)) :
  map (fun '(b, v) => text b v) (combine bars (map height bars)) =
  map (fun b => text b (height b)) bars.
Proof.
  induction bars as [|b bars IH]; [reflexivity|].
  cbn [map combine]. now rewrite IH.
Qed.

Lemma linspace_0_1_length (num : nat) : length (linspace_0_1 num) = num.
Proof. unfold linspace_0_1. now rewrite length_map, length_seq. Qed.

(** The figure of metrics whose symbols are distinct. *)
Lemma create_analysis_plots_total (stock_data : dict DataFrame)
    (metrics : dict MetricRecord) (predictions : list (string * pyfloat)) :
  NoDup (keys metrics) ->
  exists figure,
    create_analysis_plots stock_data metrics predictions = Ok figure /\
    length (change_chart figure) = length metrics /\
    length (volume_chart figure) = length metrics /\
    length (rsi_chart figure) = length metrics /\
    (1 <= length predictions ->
     exists chart,
       prediction_chart figure = Some chart /\
       length (prediction_bars chart) = length predictions).
Proof.
  intros Hnd. unfold create_analysis_plots.
  assert (Hfind : forall s m, In (s, m) metrics -> dict_find metrics s = Some m)
    by (intros s m; apply In_dict_find, Hnd).
  rewrite !(field_of_each_found _ metrics metrics Hfind). cbn [bind].
  unfold keys. rewrite !(bar_of_items replace_JK).
  eexists. split; [reflexivity|].
  cbn [change_chart volume_chart rsi_chart prediction_chart].
  rewrite !length_map. repeat split.
  intros Hp. destruct predictions as [|p ps] eqn:E; [cbn in Hp; lia|].
  rewrite <- E. eexists. split; [reflexivity|]. cbn [prediction_bars].
  destruct (bar_ticks (map (fun p => replace_JK (fst p)) predictions)
              (map snd predictions)
              (linspace_0_1 (length predictions))) as (H1 & _).
  - now rewrite !length_map.
  - now rewrite linspace_0_1_length, !length_map.
  - etransitivity; [symmetry; apply (length_map tick)|].
    rewrite H1. apply length_map.
Qed.

(** X16.  The figure in closed form.  For metrics whose symbols are
    distinct, [create_analysis_plots] raises no error, whatever the frames
    and the predictions are.  Each of the first three charts has one bar
    per symbol of the metrics, in their order, labelled with the symbol
    without [.JK] and as high as the field of that symbol; each text of
    the first chart shows the height of its bar.  The fourth chart is
    left out exactly when there are no predictions; otherwise it has one
    bar per prediction, in their order, as high as the score, with colors
    spread evenly over the color map. *)
Theorem create_analysis_plots_figure (stock_data : dict DataFrame)
    (metrics : dict MetricRecord) (predictions : list (string * pyfloat)) :
  NoDup (keys metrics) ->
  exists figure,
    create_analysis_plots stock_data metrics predictions = Ok figure /\
    change_chart figure =
      map (fun e => mkChartBar (replace_JK (fst e)) (Change_Pct (snd e))
                      (change_color (Change_Pct (snd e)))) metrics /\
    volume_chart figure =
      map (fun e => mkChartBar (replace_JK (fst e)) (Volume_Trend (snd e))
                      (volume_color (Volume_Trend (snd e)))) metrics /\
    rsi_chart figure =
      map (fun e => mkChartBar (replace_JK (fst e)) (RSI (snd e))
                      (rsi_color (RSI (snd e)))) metrics /\
    change_texts figure =
      map (fun b => change_text b (height b)) (change_chart figure) /\
    (prediction_chart figure = None <-> predictions = []) /\
    (forall chart,
       prediction_chart figure = Some chart ->
       map tick (prediction_bars chart) =
         map (fun p => replace_JK (fst p)) predictions /\
       map height (prediction_bars chart) = map snd predictions /\
       map bar_color (prediction_bars chart) = linspace_0_1 (length predictions) /\
       prediction_texts chart =
         map (fun b => score_text b (height b)) (prediction_bars chart)).
Proof.
  intros Hnd. unfold create_analysis_plots.
  assert (Hfind : forall s m, In (s, m) metrics -> dict_find metrics s = Some m)
    by (intros s m; apply In_dict_find, Hnd).
  rewrite !(field_of_each_found _ metrics metrics Hfind). cbn [bind].
  unfold keys. rewrite !(bar_of_items replace_JK).
  eexists. split; [reflexivity|].
  cbn [change_chart volume_chart rsi_chart change_texts prediction_chart].
  split; [reflexivity|]. split; [reflexivity|]. split; [reflexivity|].
  split; [|split].
  - apply (texts_of_bars change_text
             (fun e => mkChartBar (replace_JK (fst e)) (Change_Pct (snd e))
                         (change_color (Change_Pct (snd e))))
             (fun e => Change_Pct (snd e))).
    reflexivity.
  - destruct predictions; split; intros H; try reflexivity; discriminate.
  - intros chart H. destruct predictions as [|p ps] eqn:E; [discriminate|].
    rewrite <- E in *. injection H as <-. cbn [prediction_bars prediction_texts].
    destruct (bar_ticks (map (fun p => replace_JK (fst p)) predictions)
                (map snd predictions)
                (linspace_0_1 (length (map snd predictions)))) as (H1 & H2 & H3).
    + now rewrite !length_map.
    + now rewrite linspace_0_1_length, !length_map.
    + rewrite length_map in *. split; [exact H1|]. split; [exact H2|].
      split; [exact H3|].
      rewrite <- H2 at 2. apply texts_of_heights.
Qed.

Lemma dict_find_In_keys {V : Type} (d : dict V) (s : string) :
  In s (keys d) -> exists v, dict_find d s = Some v.
Proof.
  intros H. destruct (dict_find d s) as [v|] eqn:E; [eauto|].
  apply dict_find_None in E. contradiction.
Qed.

Section PlotProperties.
Variable history : string -> result DataFrame.
Variable np_sqrt : Q -> Q.

(** X17.  The end of [main].  With a [top_n] of at least 1, as [main]
    has, a run that comes to the detailed report and the figure raises no
    error there: the figure has at most one bar per listed stock in each
    chart, the fourth chart is drawn, with between 1 and [top_n] bars,
    the detailed report has an entry for each of these bars, and the name
    of every entry is found in the list of stocks, so that the name
    [Unknown] is not shown. *)
Theorem main_plots_figure (indonesia_stocks : dict string) (top_n : Z) :
  (1 <= top_n)%Z ->
  exists result,
    main_plots history np_sqrt indonesia_stocks top_n = Ok result /\
    match result with
    | None => True
    | Some (details, figure) =>
        length (change_chart figure) <= length indonesia_stocks /\
        length (volume_chart figure) = length (change_chart figure) /\
        length (rsi_chart figure) = length (change_chart figure) /\
        (exists chart,
           prediction_chart figure = Some chart /\
           1 <= length (prediction_bars chart) <= Z.to_nat top_n /\
           length details = length (prediction_bars chart)) /\
        Forall (fun '(symbol, name, _, _) =>
                  dict_find indonesia_stocks symbol = Some name) details
    end.
Proof.
  intros Htop. unfold main_plots.
  destruct (main_with_total history np_sqrt (keys indonesia_stocks) top_n)
    as (metrics & stock_data' & _ & Hmain).
  destruct Hmain as [(_ & H)|[(_ & _ & H)|(Hne & report & H)]].
  - rewrite H. exists None. split; [reflexivity | exact I].
  - rewrite H. exists None. split; [reflexivity | exact I].
  - rewrite H. cbn [bind].
    destruct (main_with_completed _ _ _ _ _ _ _ _ _ H)
      as (_ & _ & Hnd & Hincl & _ & _ & Hrep).
    destruct (report_rows_inv _ _ _ Hrep) as (Hmap & Hrec).
    destruct (create_analysis_plots_total stock_data' metrics
                (predict_stocks metrics top_n) Hnd)
      as (figure & Hfig & Hc & Hv & Hr & Hp).
    rewrite Hfig. cbn [bind]. eexists. split; [reflexivity|]. cbv beta iota.
    assert (Hlen : length (predict_stocks metrics top_n) =
                   Nat.min (Z.to_nat top_n) (length metrics)).
    { rewrite predict_stocks_slice by exact Hnd.
      rewrite slice_to_firstn by lia.
      rewrite length_firstn, ranking_length. lia. }
    assert (Hpos : 1 <= length metrics).
    { destruct metrics; [congruence | cbn; lia]. }
    split; [|split; [now rewrite Hv, Hc | split; [now rewrite Hr, Hc|]]].
    { rewrite Hc. unfold keys in Hincl.
      rewrite <- (length_map fst metrics), <- (length_map fst indonesia_stocks).
      apply NoDup_incl_length; assumption. }
    split.
    + destruct Hp as (chart & Hchart & Hbars); [lia|].
      exists chart. split; [exact Hchart|]. rewrite Hbars, Hlen.
      split; [lia|]. unfold detailed_analysis.
      rewrite length_map, <- (length_map fst report), Hmap. exact Hlen.
    + unfold detailed_analysis. apply Forall_map, Forall_forall.
      intros [[s sc] m] Hin. unfold stock_name.
      assert (Hs : In s (keys indonesia_stocks)).
      { apply Hincl. apply Hrec in Hin. eapply In_keys, dict_find_Some_In, Hin. }
      destruct (dict_find_In_keys _ _ Hs) as (name & ->). reflexivity.
Qed.
End PlotProperties.

(** ** The dates of the forecast *)

Lemma weekday_shift (q z : Z) : weekday (7 * q + z) = weekday z.
Proof.
  unfold weekday. replace (7 * q + z + 3)%Z with (z + 3 + q * 7)%Z by lia.
  apply Z_mod_plus_full.
Qed.

Lemma rollforward_shift (q z : Z) :
  rollforward (7 * q + z) = (7 * q + rollforward z)%Z.
Proof.
  unfold rollforward. rewrite weekday_shift.
  destruct (weekday z =? 5)%Z; [lia|]. destruct (weekday z =? 6)%Z; lia.
Qed.

Lemma date_range_B_shift (periods : nat) (q : Z) :
  forall z,
    date_range_B (7 * q + z) periods =
    map (fun d => (7 * q + d)%Z) (date_range_B z periods).
Proof.
  induction periods as [|n IH]; intros z; [reflexivity|].
  cbn [date_range_B map]. cbv zeta. rewrite rollforward_shift. f_equal.
  rewrite <- IH. f_equal. lia.
Qed.

(** The first and the last of seven business days from [start] on. *)
Lemma date_range_B_week (start : Z) :
  exists first final,
    nth_error (date_range_B start 7) 0 = Some first /\
    nth_error (date_range_B start 7) 6 = Some final /\
    first = rollforward start /\
    (start <= first <= start + 2)%Z /\
    final = (if (weekday first =? 4)%Z then first + 10 else first + 8)%Z.
Proof.
  pose proof (Z.div_mod start 7) as Hdm.
  pose proof (Z.mod_pos_bound start 7) as Hb.
  set (q := (start / 7)%Z) in *. set (z := (start mod 7)%Z) in *.
  assert (Hs : start = (7 * q + z)%Z) by lia.
  rewrite Hs, date_range_B_shift, rollforward_shift.
  assert (Hz : (z = 0 \/ z = 1 \/ z = 2 \/ z = 3 \/ z = 4 \/ z = 5 \/ z = 6)%Z)
    by lia.
  clearbody z q. clear Hdm Hb Hs.
  destruct Hz as [H|[H|[H|[H|[H|[H|H]]]]]]; subst z;
    (eexists _, _; split; [reflexivity|]; split; [reflexivity|];
     split; [reflexivity|]; rewrite weekday_shift; split; [cbn; lia|];
     vm_compute weekday; cbn; lia).
Qed.

Section ForecastProperties.
Variable fitted : Type.
Variable ExponentialSmoothing_fit : Series -> result fitted.
Variable forecast : fitted -> nat -> Series.

(** X18.  How far the forecast reaches.  When the script draws the
    forecast, the first of its seven dates is the first business day
    after the last date of the data, at most three days later, and the
    last one is 8 days after the first, or 10 days when the first is a
    Friday: the seven values of the forecast are spread over 9 to 11
    days after the data. *)
Theorem forecast_horizon (data : DataFrame) (model : fitted) :
  rows data <> [] ->
  ExponentialSmoothing_fit (column Close data) = Ok model ->
  (forall m steps, length (forecast m steps) = steps) ->
  exists out last_bar first final,
    stock_analysis ExponentialSmoothing_fit forecast data = Ok out /\
    nth_error (rows data) (length (rows data) - 1) = Some last_bar /\
    nth_error (map fst out) 0 = Some first /\
    nth_error (map fst out) 6 = Some final /\
    first = rollforward (Date last_bar + 1) /\
    (Date last_bar + 1 <= first <= Date last_bar + 3)%Z /\
    final = (if (weekday first =? 4)%Z then first + 10 else first + 8)%Z /\
    (Date last_bar + 9 <= final <= Date last_bar + 11)%Z.
Proof.
  intros Hrows Hfit Hlen.
  unfold stock_analysis, empty.
  destruct (rows data) as [|b bs] eqn:E; [congruence|]. rewrite <- E in *.
  rewrite Hfit. cbn [bind].
  destruct (iloc_last (map Date (rows data))) as (d & Hd & Hiloc).
  { rewrite length_map, E. cbn. lia. }
  rewrite Hiloc. cbn [bind]. unfold plot.
  pose proof (date_range_B_spec 7 (d + 1)) as (Hl & _).
  rewrite Hl, Hlen, Nat.eqb_refl.
  rewrite length_map, nth_error_map in Hd.
  destruct (nth_error (rows data) (length (rows data) - 1)) as [last_bar|] eqn:Elast;
    [|discriminate].
  injection Hd as <-.
  destruct (date_range_B_week (Date last_bar + 1))
    as (first & final & H0 & H6 & Hfirst & Hbound & Hfinal).
  exists (combine (date_range_B (Date last_bar + 1) 7) (forecast model 7)),
    last_bar, first, final.
  rewrite map_fst_combine by (rewrite Hl, Hlen; reflexivity).
  split; [reflexivity|]. split; [reflexivity|].
  split; [exact H0|]. split; [exact H6|]. split; [exact Hfirst|].
  split; [lia|]. split; [exact Hfinal|].
  rewrite Hfinal. destruct (weekday first =? 4)%Z eqn:Ew; [|lia].
  apply Z.eqb_eq in Ew. split; [lia|].
  assert (first = Date last_bar + 1)%Z; [|lia].
  rewrite Hfirst in *. unfold rollforward in *.
  destruct (weekday (Date last_bar + 1) =? 5)%Z eqn:E5.
  - apply Z.eqb_eq in E5. exfalso. unfold weekday in *.
    pose proof (Z.mod_pos_bound (Date last_bar + 1 + 3) 7).
    replace (Date last_bar + 1 + 2 + 3)%Z with (Date last_bar + 1 + 3 + 2)%Z in Ew by lia.
    rewrite <- Zplus_mod_idemp_l, E5 in Ew. discriminate.
  - destruct (weekday (Date last_bar + 1) =? 6)%Z eqn:E6; [|reflexivity].
    apply Z.eqb_eq in E6. exfalso. unfold weekday in *.
    replace (Date last_bar + 1 + 1 + 3)%Z with (Date last_bar + 1 + 3 + 1)%Z in Ew by lia.
    rewrite <- Zplus_mod_idemp_l, E6 in Ew. discriminate.
Qed.
End ForecastProperties.

(** ** The order of the tables *)

Lemma StronglySorted_firstn {A : Type} (R : A -> A -> Prop) (n : nat) (l : list A) :
  StronglySorted R l -> StronglySorted R (firstn n l).
Proof.
  intros H. revert n. induction H as [|x l Hs IH Hx]; intros [|n]; cbn;
    try constructor; [apply IH|].
  apply Forall_forall. intros y Hy. rewrite Forall_forall in Hx.
  eapply Hx, In_firstn, Hy.
Qed.

Section TableProperties.
Variable history : string -> result DataFrame.
Variable np_sqrt : Q -> Q.

Lemma metrics_of_frames (symbols : list string) (metrics : dict MetricRecord)
    (stock_data' : dict DataFrame) (s : string) (m : MetricRecord) :
  calculate_metrics np_sqrt (fetch_stock_data history symbols) =
    Ok (metrics, stock_data') ->
  In (s, m) metrics ->
  exists data data',
    In s symbols /\ history s = Ok data /\ 5 <= length (rows data) /\
    symbol_metrics np_sqrt data = Ok (m, data').
Proof.
  intros Hcalc Hin.
  assert (Hnd : NoDup (keys (fetch_stock_data history symbols)))
    by (apply fetch_NoDup; constructor).
  assert (Hndm : NoDup (keys metrics)).
  { eapply calculate_metrics_loop_NoDup; [exact Hcalc | constructor]. }
  pose proof (In_keys _ _ _ Hin) as Hk.
  apply (calculate_metrics_loop_keys _ _ _ _ _ Hcalc) in Hk.
  destruct Hk as [[]|(data & Hd & Hlen)].
  destruct (calculate_metrics_loop_record np_sqrt _ Hnd _ _ _ Hcalc s data Hd Hlen)
    as (m' & data' & Hm & Hfind).
  rewrite (In_dict_find _ _ _ Hndm Hin) in Hfind. injection Hfind as <-.
  apply In_dict_find in Hd; [|exact Hnd].
  apply fetch_sound in Hd. destruct Hd as [Hd|(Hs & Hh & _)]; [discriminate|].
  exists data, data'. unfold len in Hlen. repeat split; try assumption. lia.
Qed.

(** X19.  The order of the two tables of [main] when every frame of the
    provider keeps the invariant of a time series.  The table by change is
    in descending order of the change.  When in addition every symbol of
    the metrics has some volume, the predictions are in descending order
    of the score. *)
Theorem main_with_tables_sorted (symbols : list string) (top_n : Z) :
  (forall s data, In s symbols -> history s = Ok data -> TimeSeries data) ->
  exists outcome,
    main_with history np_sqrt symbols top_n = Ok outcome /\
    match outcome with
    | Completed stock_data metrics by_change predictions report =>
        StronglySorted change_ge by_change /\
        ((forall s m, In (s, m) metrics ->
                      PyFloat.eqb (Avg_Volume m) (Fin 0) = false) ->
         StronglySorted score_ge predictions)
    | _ => True
    end.
Proof.
  intros Hts.
  destruct (main_with_total history np_sqrt symbols top_n)
    as (metrics & stock_data' & Hcalc & Hmain).
  destruct Hmain as [(_ & H)|[(_ & _ & H)|(_ & report & H)]].
  - exists NoStockData. split; [exact H | exact I].
  - exists NoMetrics. split; [exact H | exact I].
  - eexists. split; [exact H|]. cbv beta iota.
    assert (Hndm : NoDup (keys metrics)).
    { eapply calculate_metrics_loop_NoDup; [exact Hcalc | constructor]. }
    assert (Hrec : forall s m, In (s, m) metrics ->
              exists data data',
                TimeSeries data /\ 5 <= length (rows data) /\
                symbol_metrics np_sqrt data = Ok (m, data')).
    { intros s m Hin.
      destruct (metrics_of_frames _ _ _ _ _ Hcalc Hin)
        as (data & data' & Hs & Hh & Hlen & Hm).
      exists data, data'. split; [eapply Hts; eassumption|]. split; assumption. }
    split.
    + apply (sorted_reverse_sorted _ (fun x => Change_Pct (snd x))).
      apply Forall_forall. intros [s m] Hin. cbn [snd].
      destruct (Hrec s m Hin) as (data & data' & Hd & Hlen & Hm).
      destruct (symbol_metrics_bounds np_sqrt data Hd Hlen)
        as (m' & data'' & price & cp & p20 & p50 & r & Hm' & _ & _ & Hcp & _).
      assert (m' = m) by congruence. subst m'. now rewrite Hcp.
    + intros Hvol. rewrite predict_stocks_slice by exact Hndm.
      destruct (slice_to_firstn_any (sorted_reverse snd (scores_of metrics)) top_n)
        as (k & ->).
      apply StronglySorted_firstn.
      apply (sorted_reverse_sorted _ snd).
      unfold scores_of. apply Forall_map, Forall_forall. intros [s m] Hin. cbn [fst snd].
      destruct (Hrec s m Hin) as (data & data' & Hd & Hlen & Hm).
      destruct (symbol_metrics_bounds np_sqrt data Hd Hlen)
        as (m' & data'' & price & cp & p20 & p50 & r & Hm' & _ & _ & Hcp & _ & H20 & _
            & H50 & _ & Hr & _ & Hvt).
      assert (m' = m) by congruence. subst m'.
      rewrite (Hvol s m Hin) in Hvt. destruct Hvt as (vt & Hvt & _).
      assert (Hfin : PyFloat.is_finite (score_of m) = true).
      { apply score_of_finite;
          [rewrite Hvt | rewrite Hcp | rewrite Hr | rewrite H20 | rewrite H50];
          reflexivity. }
      destruct (score_of m); try discriminate. reflexivity.
Qed.
End TableProperties.

(** ** Concrete runs of the further properties *)

Lemma map_fst_combine_firstn {A B : Type} (l : list A) (l' : list B) :
  map fst (combine l l') = firstn (length l') l.
Proof.
  revert l'. induction l as [|a l IH]; intros [|b l']; cbn; try reflexivity.
  now rewrite IH.
Qed.

(** The frames of the concrete runs keep the invariant of a time series. *)
Lemma TimeSeries_frame_of (closes volumes : list Z) :
  Forall (fun c => 0 < c)%Z closes ->
  Forall (fun v => 0 <= v)%Z volumes ->
  TimeSeries (frame_of closes volumes).
Proof.
  intros Hc Hv. unfold TimeSeries, frame_of. cbn [rows]. split.
  - rewrite map_map.
    rewrite (map_ext _ fst) by (intros [d [c v]]; reflexivity).
    rewrite map_fst_combine_firstn. apply StronglySorted_firstn.
    apply (date_range_B_spec (length closes) 4).
  - apply Forall_map, Forall_forall. intros [d [c v]] Hin.
    apply in_combine_r in Hin.
    pose proof (in_combine_l _ _ _ _ Hin) as Hinc.
    pose proof (in_combine_r _ _ _ _ Hin) as Hinv.
    rewrite Forall_forall in Hc, Hv.
    exists (inject_Z c), (inject_Z v). cbn [Close Volume].
    split; [reflexivity|]. split.
    + change 0%Q with (inject_Z 0). rewrite <- Zlt_Qlt. now apply Hc.
    + split; [reflexivity|].
      change 0%Q with (inject_Z 0). rewrite <- Zle_Qle. now apply Hv.
Qed.

Lemma TimeSeries_rising_frame (n : nat) : TimeSeries (rising_frame n).
Proof.
  apply TimeSeries_frame_of.
  - unfold rising. apply Forall_map, Forall_forall. intros i _. lia.
  - apply Forall_forall. intros v Hv. apply repeat_spec in Hv. lia.
Qed.

Lemma NoDup_ten_metrics : NoDup (keys ten_metrics).
Proof.
  cbn. repeat (constructor; [cbn; intuition discriminate|]). constructor.
Qed.

(** X2 at four symbols, the first of which the provider refuses. *)
Lemma fetch_stock_data_keys_witness :
  NoDup ["BBCA.JK"; "ASII.JK"; "BMRI.JK"; "TLKM.JK"]%string /\
  keys (fetch_stock_data sample_history
          ["BBCA.JK"; "ASII.JK"; "BMRI.JK"; "TLKM.JK"]%string) =
  ["ASII.JK"; "BMRI.JK"; "TLKM.JK"]%string.
Proof.
  assert (H : NoDup ["BBCA.JK"; "ASII.JK"; "BMRI.JK"; "TLKM.JK"]%string).
  { repeat (constructor; [cbn; intuition discriminate|]). constructor. }
  split; [exact H|].
  rewrite (fetch_stock_data_keys sample_history _ H). reflexivity.
Defined.

(** X3 at three frames, the second of which has 3 rows. *)
Lemma calculate_metrics_keys_witness :
  NoDup (keys [("ASII.JK"%string, rising_frame 20);
               ("BMRI.JK"%string, rising_frame 3);
               ("TLKM.JK"%string, rising_frame 5)]) /\
  exists metrics stock_data',
    calculate_metrics sqrt_floor
      [("ASII.JK"%string, rising_frame 20);
       ("BMRI.JK"%string, rising_frame 3);
       ("TLKM.JK"%string, rising_frame 5)] = Ok (metrics, stock_data') /\
    keys metrics = ["ASII.JK"; "TLKM.JK"]%string.
Proof.
  assert (H : NoDup (keys [("ASII.JK"%string, rising_frame 20);
                           ("BMRI.JK"%string, rising_frame 3);
                           ("TLKM.JK"%string, rising_frame 5)])).
  { cbn. repeat (constructor; [cbn; intuition discriminate|]). constructor. }
  split; [exact H|].
  destruct (calculate_metrics_keys sqrt_floor _ H) as (metrics & sd & Hm & Hk).
  exists metrics, sd. split; [exact Hm|]. rewrite Hk. reflexivity.
Defined.

(** X5 at ten symbols and a [top_n] of -8: the first two of the ranking
    are left. *)
Lemma predict_stocks_top_n_witness :
  NoDup (keys ten_metrics) /\
  (-8 < 0)%Z /\
  predict_stocks ten_metrics (-8) =
    firstn 2 (predict_stocks ten_metrics (len ten_metrics)) /\
  length (predict_stocks ten_metrics (-8)) = 2.
Proof.
  split; [exact NoDup_ten_metrics|]. split; [lia|].
  destruct (predict_stocks_top_n ten_metrics (-8) NoDup_ten_metrics)
    as (_ & _ & _ & Hneg).
  apply Hneg. lia.
Defined.

(** X8 at the record whose fields are all 50. *)
Lemma score_at_most_10_witness :
  exists score,
    score_of (constant_record (Fin 50)) = Fin score /\
    (score <= 10)%Q /\
    (score == 10 <-> 100 <= 50 /\ 50 <= 50 /\ 50 == 50 /\ 40 <= 50 + 50)%Q.
Proof.
  apply (score_at_most_10 (constant_record (Fin 50)) 50 50 50 50 50); reflexivity.
Defined.

(** X20 from the record whose fields are all 40 to the record whose fields
    are all 50. *)
Lemma score_of_monotone_witness :
  (40 <= 50)%Q /\
  (Qabs (50 - 50) <= Qabs (40 - 50))%Q /\
  (score_of (constant_record (Fin 40)) <=? score_of (constant_record (Fin 50)))%F
    = true.
Proof.
  assert (H1 : (40 <= 50)%Q) by (unfold Qle; cbn; lia).
  assert (H2 : (Qabs (50 - 50) <= Qabs (40 - 50))%Q) by (unfold Qle; cbn; lia).
  assert (H3 : (40 + 40 <= 50 + 50)%Q) by (unfold Qle; cbn; lia).
  split; [exact H1|]. split; [exact H2|].
  exact (score_of_monotone (constant_record (Fin 40)) (constant_record (Fin 50))
           40 50 40 50 40 50 40 50 40 50
           eq_refl eq_refl eq_refl eq_refl eq_refl eq_refl eq_refl eq_refl
           eq_refl eq_refl H1 H1 H2 H3).
Defined.

(** X10 at twenty rising closing prices: the index is 100. *)
Lemma rsi_closed_form_witness :
  column Close (rising_frame 20) = map PyFloat.Fin (map inject_Z (rising 20)) /\
  14 <= length (map inject_Z (rising 20)) /\
  exists m data' q,
    symbol_metrics sqrt_floor (rising_frame 20) = Ok (m, data') /\
    RSI m = Fin q /\ (q == 100)%Q.
Proof.
  assert (H1 : column Close (rising_frame 20) =
               map PyFloat.Fin (map inject_Z (rising 20))) by reflexivity.
  assert (H2 : 14 <= length (map inject_Z (rising 20))) by (cbn; lia).
  split; [exact H1|]. split; [exact H2|].
  destruct (rsi_closed_form sqrt_floor (rising_frame 20) _ H1 H2)
    as (m & data' & q & Hm & Hq & _ & _ & H100 & _).
  exists m, data', q. split; [exact Hm|]. split; [exact Hq|].
  apply H100; reflexivity.
Defined.

(** X11 at twenty rising closing prices. *)
Lemma score_of_time_series_witness :
  TimeSeries (rising_frame 20) /\
  5 <= length (rows (rising_frame 20)) /\
  exists m data',
    symbol_metrics sqrt_floor (rising_frame 20) = Ok (m, data') /\
    (if PyFloat.eqb (Avg_Volume m) (Fin 0)
     then score_of m = NaN
     else exists score, score_of m = Fin score /\ (-18 < score <= 10)%Q).
Proof.
  assert (H1 : TimeSeries (rising_frame 20)) by apply TimeSeries_rising_frame.
  assert (H2 : 5 <= length (rows (rising_frame 20))) by (cbn; lia).
  split; [exact H1|]. split; [exact H2|].
  exact (score_of_time_series sqrt_floor (rising_frame 20) H1 H2).
Defined.

(** X12 at the closing prices 100 to 119: the average of 20 days is
    109.5, the average of 50 days is the price. *)
Lemma moving_averages_witness :
  column Close (rising_frame 20) = map PyFloat.Fin (map inject_Z (rising 20)) /\
  1 <= length (map inject_Z (rising 20)) /\
  exists m data',
    symbol_metrics sqrt_floor (rising_frame 20) = Ok (m, data') /\
    Current_Price m = Fin (inject_Z 119) /\
    PyFloat.eqb (SMA_20 m) (Fin (219 # 2)) = true /\
    SMA_50 m = Fin (inject_Z 119).
Proof.
  assert (H1 : column Close (rising_frame 20) =
               map PyFloat.Fin (map inject_Z (rising 20))) by reflexivity.
  assert (H2 : 1 <= length (map inject_Z (rising 20))) by (cbn; lia).
  split; [exact H1|]. split; [exact H2|].
  destruct (moving_averages sqrt_floor (rising_frame 20) _ H1 H2)
    as (m & data' & price & Hm & Hprice & Hc & H20 & H50 & _).
  injection Hprice as <-.
  exists m, data'. split; [exact Hm|]. split; [exact Hc|].
  split; [rewrite H20; reflexivity | exact H50].
Defined.

(** X13 at five rising closing prices with a constant volume. *)
Lemma five_rows_volume_trend_witness :
  TimeSeries (rising_frame 5) /\
  length (rows (rising_frame 5)) = 5 /\
  exists m data',
    symbol_metrics sqrt_floor (rising_frame 5) = Ok (m, data') /\
    Recent_Volume m = Avg_Volume m /\
    PyFloat.eqb (Volume_Trend m) (Fin 0) = true.
Proof.
  assert (H1 : TimeSeries (rising_frame 5)) by apply TimeSeries_rising_frame.
  assert (H2 : length (rows (rising_frame 5)) = 5) by reflexivity.
  split; [exact H1|]. split; [exact H2|].
  destruct (five_rows_volume_trend sqrt_floor (rising_frame 5) H1 H2)
    as (m & data' & Hm & Hrecent & Htrend).
  exists m, data'. split; [exact Hm|]. split; [exact Hrecent|].
  destruct (symbol_metrics_inv _ _ _ _ Hm)
    as (last & base & s20 & s50 & r & _ & _ & _ & _ & _ & _ & Em).
  rewrite Em in Htrend |- *. exact Htrend.
Defined.

(** X14 at the ticker [BBCA]. *)
Lemma replace_JK_suffix_witness :
  no_dot "BBCA" = true /\
  replace_JK "BBCA.JK" = "BBCA"%string /\
  replace_JK "BBCA" = "BBCA"%string.
Proof.
  assert (H : no_dot "BBCA" = true) by reflexivity.
  split; [exact H|].
  destruct (replace_JK_suffix "BBCA" H) as (H1 & H2 & _).
  split; [exact H1 | exact H2].
Defined.

(** X15 at twenty rising closing prices. *)
Lemma prediction_factors_truthful_witness :
  TimeSeries (rising_frame 20) /\
  5 <= length (rows (rising_frame 20)) /\
  exists m data',
    symbol_metrics sqrt_floor (rising_frame 20) = Ok (m, data') /\
    (In AboveMovingAverage (prediction_factors m) <->
     (SMA_20 m <? Current_Price m)%F = true).
Proof.
  assert (H1 : TimeSeries (rising_frame 20)) by apply TimeSeries_rising_frame.
  assert (H2 : 5 <= length (rows (rising_frame 20))) by (cbn; lia).
  split; [exact H1|]. split; [exact H2|].
  destruct (prediction_factors_truthful sqrt_floor (rising_frame 20) H1 H2)
    as (m & data' & base & Hm & _ & _ & _ & _ & Hsma & _).
  exists m, data'. split; [exact Hm | exact Hsma].
Defined.

(** X16 at ten symbols and their three predictions. *)
Lemma create_analysis_plots_figure_witness :
  NoDup (keys ten_metrics) /\
  exists figure,
    create_analysis_plots [] ten_metrics (predict_stocks ten_metrics 3) = Ok figure /\
    map tick (change_chart figure) =
      ["BBCA"; "BBRI"; "BMRI"; "ASII"; "TLKM"; "ICBP"; "UNVR"; "PGAS"; "KLBF";
       "INDF"]%string /\
    exists chart,
      prediction_chart figure = Some chart /\
      map tick (prediction_bars chart) = ["BBRI"; "ASII"; "KLBF"]%string /\
      map bar_color (prediction_bars chart) = linspace_0_1 3.
Proof.
  split; [exact NoDup_ten_metrics|].
  destruct (create_analysis_plots_figure [] ten_metrics (predict_stocks ten_metrics 3)
              NoDup_ten_metrics)
    as (figure & Hfig & Hc & _ & _ & _ & Hnone & Hchart).
  exists figure. split; [exact Hfig|]. split; [rewrite Hc; reflexivity|].
  destruct (prediction_chart figure) as [chart|] eqn:E.
  - exists chart. split; [reflexivity|].
    destruct (Hchart chart eq_refl) as (Ht & _ & Hcol & _).
    split; [rewrite Ht | rewrite Hcol]; reflexivity.
  - exfalso. assert (H : predict_stocks ten_metrics 3 = []) by now apply Hnone.
    discriminate H.
Defined.

(** X17 at the listed stocks and the [top_n] of [main]. *)
Lemma main_plots_figure_witness :
  (1 <= 5)%Z /\
  exists result,
    main_plots sample_history sqrt_floor get_indonesia_stocks 5 = Ok result /\
    match result with
    | None => True
    | Some (details, figure) =>
        length (change_chart figure) <= length get_indonesia_stocks /\
        length (volume_chart figure) = length (change_chart figure) /\
        length (rsi_chart figure) = length (change_chart figure) /\
        (exists chart,
           prediction_chart figure = Some chart /\
           1 <= length (prediction_bars chart) <= Z.to_nat 5 /\
           length details = length (prediction_bars chart)) /\
        Forall (fun '(symbol, name, _, _) =>
                  dict_find get_indonesia_stocks symbol = Some name) details
    end.
Proof.
  assert (H : (1 <= 5)%Z) by lia.
  split; [exact H|].
  exact (main_plots_figure sample_history sqrt_floor get_indonesia_stocks 5 H).
Defined.

(** X18 at five rows that end on Friday 1970-01-09: the forecast runs
    from Monday 12 to Tuesday 20 January. *)
Lemma forecast_horizon_witness :
  rows (rising_frame 5) <> [] /\
  drift_fit (column Close (rising_frame 5)) =
    Ok (PyFloat.of_Z 104, (PyFloat.of_Z 104 - PyFloat.of_Z 103)%F) /\
  (forall m steps, length (drift_forecast m steps) = steps) /\
  exists out first final,
    stock_analysis drift_fit drift_forecast (rising_frame 5) = Ok out /\
    nth_error (map fst out) 0 = Some first /\
    nth_error (map fst out) 6 = Some final /\
    first = 11%Z /\ final = 19%Z.
Proof.
  assert (H1 : rows (rising_frame 5) <> []) by discriminate.
  assert (H2 : drift_fit (column Close (rising_frame 5)) =
               Ok (PyFloat.of_Z 104, (PyFloat.of_Z 104 - PyFloat.of_Z 103)%F))
    by reflexivity.
  assert (H3 : forall m steps, length (drift_forecast m steps) = steps).
  { intros m steps. unfold drift_forecast. now rewrite length_map, length_seq. }
  split; [exact H1|]. split; [exact H2|]. split; [exact H3|].
  destruct (forecast_horizon _ drift_fit drift_forecast (rising_frame 5) _ H1 H2 H3)
    as (out & bar & first & final & Hout & Hbar & H0 & H6 & Hfirst & _ & Hfinal & _).
  exists out, first, final. split; [exact Hout|]. split; [exact H0|].
  split; [exact H6|].
  injection Hbar as <-. subst final. subst first. split; reflexivity.
Defined.

Lemma sample_history_TimeSeries (s : string) (data : DataFrame) :
  sample_history s = Ok data -> TimeSeries data.
Proof.
  unfold sample_history. intros H.
  destruct (String.eqb s "BBCA.JK"); [discriminate|].
  destruct (String.eqb s "BBRI.JK").
  - injection H as <-. apply TimeSeries_frame_of; constructor.
  - destruct (String.eqb s "BMRI.JK"); injection H as <-;
      apply TimeSeries_rising_frame.
Qed.

(** X19 at the listed stocks. *)
Lemma main_with_tables_sorted_witness :
  (forall s data,
     In s (keys get_indonesia_stocks) -> sample_history s = Ok data ->
     TimeSeries data) /\
  exists outcome,
    main_with sample_history sqrt_floor (keys get_indonesia_stocks) 5 = Ok outcome /\
    match outcome with
    | Completed stock_data metrics by_change predictions report =>
        StronglySorted change_ge by_change /\
        ((forall s m, In (s, m) metrics ->
                      PyFloat.eqb (Avg_Volume m) (Fin 0) = false) ->
         StronglySorted score_ge predictions)
    | _ => True
    end.
Proof.
  assert (H : forall s data,
            In s (keys get_indonesia_stocks) -> sample_history s = Ok data ->
            TimeSeries data)
    by (intros s data _; apply sample_history_TimeSeries).
  split; [exact H|].
  exact (main_with_tables_sorted sample_history sqrt_floor
           (keys get_indonesia_stocks) 5 H).
Defined.
